(** * Worker assignment lifecycle: a shallow embedding of
      [Backend/services/worker_assignment_service.go]

    The Go service loads a [WorkerAssignment], checks that it belongs to the
    calling worker and that its status admits the requested operation,
    writes the assignment, then loads and writes the paired [Booking], and
    finally fires chat, call-masking, location-tracking, statistics and
    notification side effects.  The embedding keeps that order: each
    operation is a computation in a small state-and-error monad over the two
    tables, and every call to a collaborator is a step of that computation. *)

From Stdlib Require Import ZArith QArith String List Bool Lia.
From Stdlib Require Import SpecFloat.
From stdpp Require Import base option gmap.
Import ListNotations.

Local Open Scope Z_scope.
Local Open Scope string_scope.

(** ** Data model (package [models]) *)

(** Modelled from the spec: the declarations of package [models] are not
    among the sources; the five assignment statuses are those of the data
    model, named after the Go constants the service compares against. *)
Inductive AssignmentStatus : Type :=
  | AssignmentStatusAssigned
  | AssignmentStatusAccepted
  | AssignmentStatusRejected
  | AssignmentStatusInProgress
  | AssignmentStatusCompleted.

#[global] Instance AssignmentStatus_eq_dec : EqDecision AssignmentStatus.
Proof. solve_decision. Defined.

(** [models.BookingStatus] is a string type in Go (the projection converts
    it with [string(...)]). *)
Definition BookingStatus : Type := string.

(** Modelled from the spec: the values of the three booking-status constants
    the service assigns, spelled as the data model spells them. *)
Definition BookingStatusConfirmed : BookingStatus := "confirmed".
Definition BookingStatusInProgress : BookingStatus := "in_progress".
Definition BookingStatusCompleted : BookingStatus := "completed".

(** [time.Time] as nanoseconds since the epoch; [*time.Time] as an option. *)
Definition Time : Type := Z.

(** [float64] amounts (prices, quotes, balances).  The service only copies
    and compares them against [nil]; it never does arithmetic on them. *)
Definition float64 : Type := Q.

(** [gorm.Model], embedded in every persisted struct. *)
Module Model.
Record t : Type := mk {
  ID : nat;
  CreatedAt : Time;
  UpdatedAt : Time;
  DeletedAt : option Time
}.
End Model.

(** Modelled from the spec: [models.Service]; only [Price] is read by the
    service, the value as a whole is copied by the projection. *)
Module Service.
Record t : Type := mk {
  ID : nat;
  Name : string;
  Price : option float64
}.
End Service.

(** Modelled from the spec: [models.User]: the embedded [gorm.Model], the
    fields the projection reads and the [Phone] field it leaves out.  The Go
    struct may declare further columns; the service does not touch them. *)
Module User.
Record t : Type := mk {
  Model : Model.t;
  Name : string;
  Email : option string;
  Phone : string;
  UserType : string;
  Avatar : string;
  Gender : string;
  IsActive : bool;
  LastLoginAt : option Time;
  RoleApplicationStatus : option string;
  ApplicationDate : option Time;
  ApprovalDate : option Time;
  WalletBalance : float64;
  SubscriptionID : option nat;
  Subscription : option nat;
  HasActiveSubscription : bool;
  SubscriptionExpiryDate : option Time
}.

(** [user.ID], promoted from the embedded [gorm.Model] *)
Definition ID (u : t) : nat := Model.ID (Model u).

Definition withPhone (p : string) (u : t) : t :=
  mk (Model u) (Name u) (Email u) p (UserType u) (Avatar u) (Gender u)
     (IsActive u) (LastLoginAt u) (RoleApplicationStatus u)
     (ApplicationDate u) (ApprovalDate u) (WalletBalance u)
     (SubscriptionID u) (Subscription u) (HasActiveSubscription u)
     (SubscriptionExpiryDate u).
End User.

(** Modelled from the spec: [models.Booking], with the fields the service
    reads, writes or copies. *)
Module Booking.
Record t : Type := mk {
  Model : Model.t;
  BookingReference : string;
  UserID : nat;
  ServiceID : nat;
  Status : BookingStatus;
  PaymentStatus : string;
  BookingType : string;
  CompletionType : option string;
  ScheduledDate : option Time;
  ScheduledTime : option Time;
  ScheduledEndTime : option Time;
  ActualStartTime : option Time;
  ActualEndTime : option Time;
  ActualDurationMinutes : option Z;
  Address : option string;
  Description : string;
  ContactPerson : string;
  ContactPhone : string;
  SpecialInstructions : string;
  HoldExpiresAt : option Time;
  QuoteAmount : option float64;
  QuoteNotes : string;
  QuoteProvidedBy : option nat;
  QuoteProvidedAt : option Time;
  QuoteAcceptedAt : option Time;
  QuoteExpiresAt : option Time;
  User : User.t;
  Service : Service.t
}.

(** [booking.Status = s] *)
Definition withStatus (s : BookingStatus) (b : t) : t :=
  mk (Model b) (BookingReference b) (UserID b) (ServiceID b) s
     (PaymentStatus b) (BookingType b) (CompletionType b) (ScheduledDate b)
     (ScheduledTime b) (ScheduledEndTime b) (ActualStartTime b)
     (ActualEndTime b) (ActualDurationMinutes b) (Address b) (Description b)
     (ContactPerson b) (ContactPhone b) (SpecialInstructions b)
     (HoldExpiresAt b) (QuoteAmount b) (QuoteNotes b) (QuoteProvidedBy b)
     (QuoteProvidedAt b) (QuoteAcceptedAt b) (QuoteExpiresAt b) (User b)
     (Service b).

(** [booking.ActualStartTime = x] *)
Definition withActualStartTime (x : option Time) (b : t) : t :=
  mk (Model b) (BookingReference b) (UserID b) (ServiceID b) (Status b)
     (PaymentStatus b) (BookingType b) (CompletionType b) (ScheduledDate b)
     (ScheduledTime b) (ScheduledEndTime b) x
     (ActualEndTime b) (ActualDurationMinutes b) (Address b) (Description b)
     (ContactPerson b) (ContactPhone b) (SpecialInstructions b)
     (HoldExpiresAt b) (QuoteAmount b) (QuoteNotes b) (QuoteProvidedBy b)
     (QuoteProvidedAt b) (QuoteAcceptedAt b) (QuoteExpiresAt b) (User b)
     (Service b).

(** [booking.ActualEndTime = x] *)
Definition withActualEndTime (x : option Time) (b : t) : t :=
  mk (Model b) (BookingReference b) (UserID b) (ServiceID b) (Status b)
     (PaymentStatus b) (BookingType b) (CompletionType b) (ScheduledDate b)
     (ScheduledTime b) (ScheduledEndTime b) (ActualStartTime b)
     x (ActualDurationMinutes b) (Address b) (Description b)
     (ContactPerson b) (ContactPhone b) (SpecialInstructions b)
     (HoldExpiresAt b) (QuoteAmount b) (QuoteNotes b) (QuoteProvidedBy b)
     (QuoteProvidedAt b) (QuoteAcceptedAt b) (QuoteExpiresAt b) (User b)
     (Service b).

(** [booking.ActualDurationMinutes = x] *)
Definition withActualDurationMinutes (x : option Z) (b : t) : t :=
  mk (Model b) (BookingReference b) (UserID b) (ServiceID b) (Status b)
     (PaymentStatus b) (BookingType b) (CompletionType b) (ScheduledDate b)
     (ScheduledTime b) (ScheduledEndTime b) (ActualStartTime b)
     (ActualEndTime b) x (Address b) (Description b)
     (ContactPerson b) (ContactPhone b) (SpecialInstructions b)
     (HoldExpiresAt b) (QuoteAmount b) (QuoteNotes b) (QuoteProvidedBy b)
     (QuoteProvidedAt b) (QuoteAcceptedAt b) (QuoteExpiresAt b) (User b)
     (Service b).

(** the booking with another owner record *)
Definition withUser (u : User.t) (b : t) : t :=
  mk (Model b) (BookingReference b) (UserID b) (ServiceID b) (Status b)
     (PaymentStatus b) (BookingType b) (CompletionType b) (ScheduledDate b)
     (ScheduledTime b) (ScheduledEndTime b) (ActualStartTime b)
     (ActualEndTime b) (ActualDurationMinutes b) (Address b) (Description b)
     (ContactPerson b) (ContactPhone b) (SpecialInstructions b)
     (HoldExpiresAt b) (QuoteAmount b) (QuoteNotes b) (QuoteProvidedBy b)
     (QuoteProvidedAt b) (QuoteAcceptedAt b) (QuoteExpiresAt b) u
     (Service b).
End Booking.

(** Modelled from the spec: [models.WorkerAssignment], with the fields the
    service reads, writes or copies; the three relations are value structs
    filled in by the repository's preloads. *)
Module WorkerAssignment.
Record t : Type := mk {
  Model : Model.t;
  BookingID : nat;
  WorkerID : nat;
  AssignedBy : nat;
  Status : AssignmentStatus;
  AssignedAt : Time;
  AcceptedAt : option Time;
  RejectedAt : option Time;
  StartedAt : option Time;
  CompletedAt : option Time;
  AssignmentNotes : string;
  AcceptanceNotes : string;
  RejectionNotes : string;
  RejectionReason : string;
  Booking : Booking.t;
  Worker : User.t;
  AssignedByUser : User.t
}.

(** the three assignments of [AcceptAssignment] *)
Definition accepted (now : Time) (notes : string) (a : t) : t :=
  mk (Model a) (BookingID a) (WorkerID a) (AssignedBy a)
     AssignmentStatusAccepted (AssignedAt a) (Some now) (RejectedAt a)
     (StartedAt a) (CompletedAt a) (AssignmentNotes a) notes
     (RejectionNotes a) (RejectionReason a) (Booking a) (Worker a)
     (AssignedByUser a).

(** the four assignments of [RejectAssignment] *)
Definition rejected (now : Time) (reason notes : string) (a : t) : t :=
  mk (Model a) (BookingID a) (WorkerID a) (AssignedBy a)
     AssignmentStatusRejected (AssignedAt a) (AcceptedAt a) (Some now)
     (StartedAt a) (CompletedAt a) (AssignmentNotes a) (AcceptanceNotes a)
     notes reason (Booking a) (Worker a) (AssignedByUser a).

(** the two assignments of [StartAssignment] *)
Definition started (now : Time) (a : t) : t :=
  mk (Model a) (BookingID a) (WorkerID a) (AssignedBy a)
     AssignmentStatusInProgress (AssignedAt a) (AcceptedAt a) (RejectedAt a)
     (Some now) (CompletedAt a) (AssignmentNotes a) (AcceptanceNotes a)
     (RejectionNotes a) (RejectionReason a) (Booking a) (Worker a)
     (AssignedByUser a).

(** the two assignments of [CompleteAssignment] *)
Definition completed (now : Time) (a : t) : t :=
  mk (Model a) (BookingID a) (WorkerID a) (AssignedBy a)
     AssignmentStatusCompleted (AssignedAt a) (AcceptedAt a) (RejectedAt a)
     (StartedAt a) (Some now) (AssignmentNotes a) (AcceptanceNotes a)
     (RejectionNotes a) (RejectionReason a) (Booking a) (Worker a)
     (AssignedByUser a).

(** the assignment with another preloaded booking *)
Definition withBooking (b : Booking.t) (a : t) : t :=
  mk (Model a) (BookingID a) (WorkerID a) (AssignedBy a) (Status a)
     (AssignedAt a) (AcceptedAt a) (RejectedAt a) (StartedAt a)
     (CompletedAt a) (AssignmentNotes a) (AcceptanceNotes a)
     (RejectionNotes a) (RejectionReason a) b (Worker a)
     (AssignedByUser a).
End WorkerAssignment.

(** ** Worker-facing response types *)

(** Modelled from the spec: the three response structs of package [models];
    their fields are exactly those the composite literal of
    [convertToPrivacyProtectedResponse] fills in. *)
Module WorkerAssignmentUserResponse.
Record t : Type := mk {
  ID : nat;
  Name : string;
  Email : option string;
  UserType : string;
  Avatar : string;
  Gender : string;
  IsActive : bool;
  LastLoginAt : option Time;
  RoleApplicationStatus : option string;
  ApplicationDate : option Time;
  ApprovalDate : option Time;
  WalletBalance : float64;
  SubscriptionID : option nat;
  Subscription : option string;
  HasActiveSubscription : bool;
  SubscriptionExpiryDate : option Time;
  NotificationSettings : option string
}.
End WorkerAssignmentUserResponse.

Module WorkerAssignmentBookingResponse.
Record t : Type := mk {
  Model : Model.t;
  BookingReference : string;
  UserID : nat;
  ServiceID : nat;
  Status : string;
  PaymentStatus : string;
  BookingType : string;
  CompletionType : option string;
  ScheduledDate : option Time;
  ScheduledTime : option Time;
  ScheduledEndTime : option Time;
  ActualStartTime : option Time;
  ActualEndTime : option Time;
  ActualDurationMinutes : option Z;
  Address : option string;
  Description : string;
  ContactPerson : string;
  ContactPhone : string;
  SpecialInstructions : string;
  HoldExpiresAt : option Time;
  QuoteAmount : option float64;
  QuoteNotes : string;
  QuoteProvidedBy : option nat;
  QuoteProvidedAt : option Time;
  QuoteAcceptedAt : option Time;
  QuoteExpiresAt : option Time;
  User : WorkerAssignmentUserResponse.t;
  Service : Service.t
}.
End WorkerAssignmentBookingResponse.

Module WorkerAssignmentResponse.
Record t : Type := mk {
  Model : Model.t;
  BookingID : nat;
  WorkerID : nat;
  AssignedBy : nat;
  Status : AssignmentStatus;
  AssignedAt : Time;
  AcceptedAt : option Time;
  RejectedAt : option Time;
  StartedAt : option Time;
  CompletedAt : option Time;
  AssignmentNotes : string;
  AcceptanceNotes : string;
  RejectionNotes : string;
  RejectionReason : string;
  Booking : WorkerAssignmentBookingResponse.t;
  Worker : User.t;
  AssignedByUser : User.t
}.
End WorkerAssignmentResponse.

(** [convertToPrivacyProtectedResponse]: field by field as the composite
    literal of the source; the owner's [Phone] has no counterpart in the
    response, [Subscription] and [NotificationSettings] are [nil]. *)
Definition convertToPrivacyProtectedResponse (assignment : WorkerAssignment.t)
  : WorkerAssignmentResponse.t :=
  let booking := WorkerAssignment.Booking assignment in
  let user := Booking.User booking in
  {| WorkerAssignmentResponse.Model := WorkerAssignment.Model assignment;
     WorkerAssignmentResponse.BookingID := WorkerAssignment.BookingID assignment;
     WorkerAssignmentResponse.WorkerID := WorkerAssignment.WorkerID assignment;
     WorkerAssignmentResponse.AssignedBy := WorkerAssignment.AssignedBy assignment;
     WorkerAssignmentResponse.Status := WorkerAssignment.Status assignment;
     WorkerAssignmentResponse.AssignedAt := WorkerAssignment.AssignedAt assignment;
     WorkerAssignmentResponse.AcceptedAt := WorkerAssignment.AcceptedAt assignment;
     WorkerAssignmentResponse.RejectedAt := WorkerAssignment.RejectedAt assignment;
     WorkerAssignmentResponse.StartedAt := WorkerAssignment.StartedAt assignment;
     WorkerAssignmentResponse.CompletedAt := WorkerAssignment.CompletedAt assignment;
     WorkerAssignmentResponse.AssignmentNotes := WorkerAssignment.AssignmentNotes assignment;
     WorkerAssignmentResponse.AcceptanceNotes := WorkerAssignment.AcceptanceNotes assignment;
     WorkerAssignmentResponse.RejectionNotes := WorkerAssignment.RejectionNotes assignment;
     WorkerAssignmentResponse.RejectionReason := WorkerAssignment.RejectionReason assignment;
     WorkerAssignmentResponse.Booking :=
       {| WorkerAssignmentBookingResponse.Model := Booking.Model booking;
          WorkerAssignmentBookingResponse.BookingReference := Booking.BookingReference booking;
          WorkerAssignmentBookingResponse.UserID := Booking.UserID booking;
          WorkerAssignmentBookingResponse.ServiceID := Booking.ServiceID booking;
          WorkerAssignmentBookingResponse.Status := Booking.Status booking;
          WorkerAssignmentBookingResponse.PaymentStatus := Booking.PaymentStatus booking;
          WorkerAssignmentBookingResponse.BookingType := Booking.BookingType booking;
          WorkerAssignmentBookingResponse.CompletionType := Booking.CompletionType booking;
          WorkerAssignmentBookingResponse.ScheduledDate := Booking.ScheduledDate booking;
          WorkerAssignmentBookingResponse.ScheduledTime := Booking.ScheduledTime booking;
          WorkerAssignmentBookingResponse.ScheduledEndTime := Booking.ScheduledEndTime booking;
          WorkerAssignmentBookingResponse.ActualStartTime := Booking.ActualStartTime booking;
          WorkerAssignmentBookingResponse.ActualEndTime := Booking.ActualEndTime booking;
          WorkerAssignmentBookingResponse.ActualDurationMinutes := Booking.ActualDurationMinutes booking;
          WorkerAssignmentBookingResponse.Address := Booking.Address booking;
          WorkerAssignmentBookingResponse.Description := Booking.Description booking;
          WorkerAssignmentBookingResponse.ContactPerson := Booking.ContactPerson booking;
          WorkerAssignmentBookingResponse.ContactPhone := Booking.ContactPhone booking;
          WorkerAssignmentBookingResponse.SpecialInstructions := Booking.SpecialInstructions booking;
          WorkerAssignmentBookingResponse.HoldExpiresAt := Booking.HoldExpiresAt booking;
          WorkerAssignmentBookingResponse.QuoteAmount := Booking.QuoteAmount booking;
          WorkerAssignmentBookingResponse.QuoteNotes := Booking.QuoteNotes booking;
          WorkerAssignmentBookingResponse.QuoteProvidedBy := Booking.QuoteProvidedBy booking;
          WorkerAssignmentBookingResponse.QuoteProvidedAt := Booking.QuoteProvidedAt booking;
          WorkerAssignmentBookingResponse.QuoteAcceptedAt := Booking.QuoteAcceptedAt booking;
          WorkerAssignmentBookingResponse.QuoteExpiresAt := Booking.QuoteExpiresAt booking;
          WorkerAssignmentBookingResponse.User :=
            {| WorkerAssignmentUserResponse.ID := User.ID user;
               WorkerAssignmentUserResponse.Name := User.Name user;
               WorkerAssignmentUserResponse.Email := User.Email user;
               (* Phone is intentionally excluded for privacy *)
               WorkerAssignmentUserResponse.UserType := User.UserType user;
               WorkerAssignmentUserResponse.Avatar := User.Avatar user;
               WorkerAssignmentUserResponse.Gender := User.Gender user;
               WorkerAssignmentUserResponse.IsActive := User.IsActive user;
               WorkerAssignmentUserResponse.LastLoginAt := User.LastLoginAt user;
               WorkerAssignmentUserResponse.RoleApplicationStatus := User.RoleApplicationStatus user;
               WorkerAssignmentUserResponse.ApplicationDate := User.ApplicationDate user;
               WorkerAssignmentUserResponse.ApprovalDate := User.ApprovalDate user;
               WorkerAssignmentUserResponse.WalletBalance := User.WalletBalance user;
               WorkerAssignmentUserResponse.SubscriptionID := User.SubscriptionID user;
               WorkerAssignmentUserResponse.Subscription := None;
               WorkerAssignmentUserResponse.HasActiveSubscription := User.HasActiveSubscription user;
               WorkerAssignmentUserResponse.SubscriptionExpiryDate := User.SubscriptionExpiryDate user;
               WorkerAssignmentUserResponse.NotificationSettings := None |};
          WorkerAssignmentBookingResponse.Service := Booking.Service booking |};
     WorkerAssignmentResponse.Worker := WorkerAssignment.Worker assignment;
     WorkerAssignmentResponse.AssignedByUser := WorkerAssignment.AssignedByUser assignment |}.

(** ** Errors *)

(** The four lifecycle operations. *)
Inductive Operation : Type := Accept | Reject | Start | Complete.

#[global] Instance Operation_eq_dec : EqDecision Operation.
Proof. solve_decision. Defined.

(** The errors the service returns, one constructor per [errors.New] text
    (see [errorString]); the comments give the kind of the error taxonomy. *)
Inductive Error : Type :=
  | ErrNotFound                              (* NotFound *)
  | ErrUnauthorized                          (* Unauthorized *)
  | ErrCannotInStatus (op : Operation)       (* InvalidStateTransition *)
  | ErrFailedAssignment (op : Operation)     (* PersistenceFailure *)
  | ErrFailedBooking                         (* PersistenceFailure *)
  | ErrFailedList.                           (* PersistenceFailure *)

#[global] Instance Error_eq_dec : EqDecision Error.
Proof. solve_decision. Defined.

Definition errorString (e : Error) : string :=
  match e with
  | ErrNotFound => "assignment not found"
  | ErrUnauthorized => "unauthorized access to assignment"
  | ErrCannotInStatus Accept => "assignment cannot be accepted in current status"
  | ErrCannotInStatus Reject => "assignment cannot be rejected in current status"
  | ErrCannotInStatus Start => "assignment cannot be started in current status"
  | ErrCannotInStatus Complete => "assignment cannot be completed in current status"
  | ErrFailedAssignment Accept => "failed to accept assignment"
  | ErrFailedAssignment Reject => "failed to reject assignment"
  | ErrFailedAssignment Start => "failed to start assignment"
  | ErrFailedAssignment Complete => "failed to complete assignment"
  | ErrFailedBooking => "failed to update booking status"
  | ErrFailedList => "failed to get worker assignments"
  end.

(** A Go result pair [(value, error)] with exactly one side set. *)
Inductive result (A : Type) : Type :=
  | Ok (a : A)
  | Err (e : Error).
Arguments Ok {A} a.
Arguments Err {A} e.

(** ** Time arithmetic used by [CompleteAssignment] *)

(** [time.Duration] is a signed 64-bit count of nanoseconds. *)
Definition Duration : Type := Z.
Definition Minute : Duration := 60 * 1000000000.
Definition minDuration : Duration := - 2 ^ 63.
Definition maxDuration : Duration := 2 ^ 63 - 1.

(** [t.Sub(u)]: the difference, saturated to the range of [Duration]. *)
Definition Sub (t u : Time) : Duration :=
  Z.max minDuration (Z.min maxDuration (t - u)).

(** [float64] arithmetic is the Standard Library's executable model of
    IEEE 754 binary64 (round to nearest, ties to even). *)
Module F64.
Definition prec : Z := 53.
Definition emax : Z := 1024.

(** [float64(z)] *)
Definition ofInt (z : Z) : spec_float := binary_normalize prec emax z 0 false.

(** [d.Minutes()]:
    [min := d / Minute; nsec := d % Minute;
     return float64(min) + float64(nsec)/(60*1e9)]. *)
Definition Minutes (d : Duration) : spec_float :=
  let min := Z.quot d Minute in
  let nsec := Z.rem d Minute in
  SFadd prec emax (ofInt min) (SFdiv prec emax (ofInt nsec) (ofInt Minute)).

(** [int(f)] on a finite float: the fraction is discarded. *)
Definition toInt (f : spec_float) : Z :=
  match f with
  | S754_finite s m e =>
      let mag := if (0 <=? e)%Z then Z.pos m * 2 ^ e else Z.pos m / 2 ^ (- e) in
      if s then - mag else mag
  | _ => 0
  end.

(** the significand of [float64(Minute)], whose exponent is -17 *)
Definition minuteM : positive := Z.to_pos (Minute * 2 ^ 17).
End F64.

(** [int(d.Minutes())]: the minute count goes through [float64], and the
    conversion to [int] drops the fraction. *)
Definition intMinutes (d : Duration) : Z := F64.toInt (F64.Minutes d).
Arguments intMinutes : simpl never.

(** ** The persistent state and the collaborators *)

(** The two tables the service reads and writes, keyed by primary key. *)
Record World : Type := mkWorld {
  assignments : gmap nat WorkerAssignment.t;
  bookings : gmap nat Booking.t
}.

(** Calls to the side-effect ports.  Arguments are the identifiers the
    source passes (or, for the notification closures, those of the structs
    it captures). *)
Inductive PortCall : Type :=
  | CreateBookingChatRoomWhenWorkerAccepts (bookingID : nat)
  | EnableCallMasking (bookingID : nat)
  | SendWorkerAssignmentNotification (assignmentID : nat) (status : string)
  | NotifyAssignmentAccepted (assignmentID bookingID : nat)
  | DisableCallMasking (bookingID : nat)
  | SendWorkerAssignmentRejectedNotification (assignmentID : nat)
  | NotifyAssignmentRejected (assignmentID bookingID : nat)
  | StartTracking (workerID assignmentID : nat)
  | NotifyWorkerStarted (bookingID : nat)
  | IncrementCompletedJob (workerID : nat) (earnings : float64)
  | CloseBookingChatRoom (bookingID : nat) (reason : string)
  | StopTracking (workerID assignmentID : nat)
  | NotifyWorkerCompleted (bookingID : nat).

(** A port is either called in line ([Call]) or handed to a goroutine
    ([Go], the source's [go f(...)]). *)
Inductive Effect : Type :=
  | Call (c : PortCall)
  | Go (c : PortCall).

Module Filters.
Record t : Type := mk {
  Status : string;
  Date : string;
  Page : Z;
  Limit : Z
}.
End Filters.

Module Pagination.
Record t : Type := mk {
  Page : Z;
  Limit : Z;
  Total : Z;
  TotalPages : Z
}.
End Pagination.

(** Modelled from the spec: the repositories and ports are not among the
    sources.  What the service can observe of them is whether each call
    returns an error; [Env] fixes those outcomes for one run.  A row lookup
    also fails when the row is absent. *)
Record Env : Type := mkEnv {
  assignmentGetErr : bool;
  assignmentUpdateErr : bool;
  bookingGetErr : bool;
  bookingUpdateErr : bool;
  chatCreateErr : bool;
  chatCloseErr : bool;
  workerByUserID : nat -> option nat;
  incrementCompletedJobErr : bool;
  locationTrackingService : bool;
  startTrackingErr : bool;
  stopTrackingErr : bool;
  assignmentsOfWorker :
    World -> nat -> Filters.t -> option (list WorkerAssignment.t * Pagination.t)
}.

(** ** The monad: state passing with early return *)

Record St : Type := mkSt {
  db : World;
  fx : list Effect
}.

Definition M (A : Type) : Type := St -> result A * St.

Definition ret {A} (a : A) : M A := fun s => (Ok a, s).

Definition fail {A} (e : Error) : M A := fun s => (Err e, s).

Definition bind {A B} (m : M A) (k : A -> M B) : M B :=
  fun s =>
    match m s with
    | (Ok a, s') => k a s'
    | (Err e, s') => (Err e, s')
    end.

Notation "x <- m ;; k" := (bind m (fun x => k))
  (at level 100, m at next level, k at level 200, right associativity).
Notation "m ;;; k" := (bind m (fun _ => k))
  (at level 100, k at level 200, right associativity).

(** [if err != nil { return nil, errors.New(...) }] *)
Definition orFail {A} (m : M (option A)) (e : Error) : M A :=
  r <- m ;; match r with Some a => ret a | None => fail e end.

(** [if !ok { return nil, errors.New(...) }] *)
Definition guard (ok : bool) (e : Error) : M unit :=
  if ok then ret tt else fail e.

Definition emit (x : Effect) : M unit :=
  fun s => (Ok tt, mkSt (db s) (fx s ++ [x])).

(** an in-line port call whose error the caller inspects *)
Definition call (c : PortCall) (fails : bool) : M (option unit) :=
  emit (Call c) ;;; ret (if fails then None else Some tt).

(** [go f(...)] *)
Definition go (c : PortCall) : M unit := emit (Go c).

(** *** Repositories *)

(** Modelled from the spec: [AssignmentRepository.GetByID(id) ->
    Assignment|NotFound]. *)
Definition workerAssignmentRepo_GetByID (env : Env) (id : nat)
  : M (option WorkerAssignment.t) :=
  fun s =>
    (Ok (if assignmentGetErr env then None else assignments (db s) !! id), s).

(** Modelled from the spec: [AssignmentRepository.Update(Assignment) ->
    ok|err]; a successful update stores the row under its primary key, a
    failed one stores nothing. *)
Definition workerAssignmentRepo_Update (env : Env) (a : WorkerAssignment.t)
  : M (option unit) :=
  fun s =>
    if assignmentUpdateErr env then (Ok None, s)
    else (Ok (Some tt),
          mkSt (mkWorld (<[Model.ID (WorkerAssignment.Model a) := a]>
                           (assignments (db s)))
                        (bookings (db s)))
               (fx s)).

(** Modelled from the spec: [BookingRepository.GetByID(id) ->
    Booking|NotFound]. *)
Definition bookingRepo_GetByID (env : Env) (id : nat) : M (option Booking.t) :=
  fun s => (Ok (if bookingGetErr env then None else bookings (db s) !! id), s).

(** Modelled from the spec: [BookingRepository.Update(Booking) -> ok|err]. *)
Definition bookingRepo_Update (env : Env) (b : Booking.t) : M (option unit) :=
  fun s =>
    if bookingUpdateErr env then (Ok None, s)
    else (Ok (Some tt),
          mkSt (mkWorld (assignments (db s))
                        (<[Model.ID (Booking.Model b) := b]> (bookings (db s))))
               (fx s)).

(** Modelled from the spec: [WorkerRepository.GetByUserID(id) ->
    Worker|NotFound]; the service uses only the worker's [ID]. *)
Definition workerRepo_GetByUserID (env : Env) (userID : nat) : M (option nat) :=
  ret (workerByUserID env userID).

(** ** The service (receiver [was *WorkerAssignmentService]) *)

Definition assignmentID_of (a : WorkerAssignment.t) : nat :=
  Model.ID (WorkerAssignment.Model a).

(** [GetWorkerAssignments]: every row the repository returns goes through
    the privacy projection; the pagination record is copied. *)
Definition GetWorkerAssignments (env : Env) (workerID : nat) (filters : Filters.t)
  : M (list WorkerAssignmentResponse.t * Pagination.t) :=
  fun s =>
    let repoFilters :=
      Filters.mk (Filters.Status filters) (Filters.Date filters)
                 (Filters.Page filters) (Filters.Limit filters) in
    match assignmentsOfWorker env (db s) workerID repoFilters with
    | None => (Err ErrFailedList, s)
    | Some (assignments, pagination) =>
        (Ok (map convertToPrivacyProtectedResponse assignments,
             Pagination.mk (Pagination.Page pagination)
                           (Pagination.Limit pagination)
                           (Pagination.Total pagination)
                           (Pagination.TotalPages pagination)), s)
    end.

(** [GetWorkerAssignment] *)
Definition GetWorkerAssignment (env : Env) (assignmentID workerID : nat)
  : M WorkerAssignment.t :=
  assignment <- orFail (workerAssignmentRepo_GetByID env assignmentID) ErrNotFound ;;
  guard (bool_decide (WorkerAssignment.WorkerID assignment = workerID))
        ErrUnauthorized ;;;
  ret assignment.

(** [AcceptAssignment] *)
Definition AcceptAssignment (env : Env) (now : Time)
    (assignmentID workerID : nat) (notes : string) : M WorkerAssignment.t :=
  assignment <- orFail (workerAssignmentRepo_GetByID env assignmentID) ErrNotFound ;;
  guard (bool_decide (WorkerAssignment.WorkerID assignment = workerID))
        ErrUnauthorized ;;;
  guard (bool_decide (WorkerAssignment.Status assignment = AssignmentStatusAssigned))
        (ErrCannotInStatus Accept) ;;;
  let assignment := WorkerAssignment.accepted now notes assignment in
  orFail (workerAssignmentRepo_Update env assignment) (ErrFailedAssignment Accept) ;;;
  booking <- orFail (bookingRepo_GetByID env (WorkerAssignment.BookingID assignment))
                    ErrFailedBooking ;;
  let booking := Booking.withStatus BookingStatusConfirmed booking in
  orFail (bookingRepo_Update env booking) ErrFailedBooking ;;;
  (* the error of the chat room creation is logged and dropped *)
  call (CreateBookingChatRoomWhenWorkerAccepts (WorkerAssignment.BookingID assignment))
       (chatCreateErr env) ;;;
  go (EnableCallMasking (WorkerAssignment.BookingID assignment)) ;;;
  go (SendWorkerAssignmentNotification (assignmentID_of assignment) "accepted") ;;;
  go (NotifyAssignmentAccepted (assignmentID_of assignment)
                               (Model.ID (Booking.Model booking))) ;;;
  ret assignment.

(** [RejectAssignment] *)
Definition RejectAssignment (env : Env) (now : Time)
    (assignmentID workerID : nat) (reason notes : string) : M WorkerAssignment.t :=
  assignment <- orFail (workerAssignmentRepo_GetByID env assignmentID) ErrNotFound ;;
  guard (bool_decide (WorkerAssignment.WorkerID assignment = workerID))
        ErrUnauthorized ;;;
  guard (bool_decide (WorkerAssignment.Status assignment = AssignmentStatusAssigned))
        (ErrCannotInStatus Reject) ;;;
  let assignment := WorkerAssignment.rejected now reason notes assignment in
  orFail (workerAssignmentRepo_Update env assignment) (ErrFailedAssignment Reject) ;;;
  booking <- orFail (bookingRepo_GetByID env (WorkerAssignment.BookingID assignment))
                    ErrFailedBooking ;;
  let booking := Booking.withStatus BookingStatusConfirmed booking in
  orFail (bookingRepo_Update env booking) ErrFailedBooking ;;;
  go (DisableCallMasking (WorkerAssignment.BookingID assignment)) ;;;
  go (SendWorkerAssignmentRejectedNotification (assignmentID_of assignment)) ;;;
  go (NotifyAssignmentRejected (assignmentID_of assignment)
                               (Model.ID (Booking.Model booking))) ;;;
  ret assignment.

(** [StartAssignment]; [notes] is accepted and not used, as in the source. *)
Definition StartAssignment (env : Env) (now : Time)
    (assignmentID workerID : nat) (notes : string) : M WorkerAssignment.t :=
  assignment <- orFail (workerAssignmentRepo_GetByID env assignmentID) ErrNotFound ;;
  guard (bool_decide (WorkerAssignment.WorkerID assignment = workerID))
        ErrUnauthorized ;;;
  guard (bool_decide (WorkerAssignment.Status assignment = AssignmentStatusAccepted))
        (ErrCannotInStatus Start) ;;;
  let assignment := WorkerAssignment.started now assignment in
  orFail (workerAssignmentRepo_Update env assignment) (ErrFailedAssignment Start) ;;;
  booking <- orFail (bookingRepo_GetByID env (WorkerAssignment.BookingID assignment))
                    ErrFailedBooking ;;
  let booking :=
    Booking.withActualStartTime (Some now)
      (Booking.withStatus BookingStatusInProgress booking) in
  orFail (bookingRepo_Update env booking) ErrFailedBooking ;;;
  (if locationTrackingService env
   then call (StartTracking workerID assignmentID) (startTrackingErr env) ;;; ret tt
   else ret tt) ;;;
  go (NotifyWorkerStarted (Model.ID (Booking.Model booking))) ;;;
  ret assignment.

(** The earnings [CompleteAssignment] credits: the quote amount, else the
    service price, else [0.0]. *)
Definition earningsOf (booking : Booking.t) : float64 :=
  match Booking.QuoteAmount booking with
  | Some quote => quote
  | None =>
      match Service.Price (Booking.Service booking) with
      | Some price => price
      | None => 0%Q
      end
  end.

(** The booking as [CompleteAssignment] rewrites it before the update. *)
Definition completedBooking (now : Time) (booking : Booking.t) : Booking.t :=
  let booking :=
    Booking.withActualEndTime (Some now)
      (Booking.withStatus BookingStatusCompleted booking) in
  match Booking.ActualStartTime booking with
  | Some start =>
      Booking.withActualDurationMinutes (Some (intMinutes (Sub now start))) booking
  | None => booking
  end.

(** [CompleteAssignment]; [notes] is not used, [materialsUsed] and [photos]
    are only logged. *)
Definition CompleteAssignment (env : Env) (now : Time)
    (assignmentID workerID : nat) (notes : string)
    (materialsUsed photos : list string) : M WorkerAssignment.t :=
  assignment <- orFail (workerAssignmentRepo_GetByID env assignmentID) ErrNotFound ;;
  guard (bool_decide (WorkerAssignment.WorkerID assignment = workerID))
        ErrUnauthorized ;;;
  guard (bool_decide (WorkerAssignment.Status assignment = AssignmentStatusInProgress))
        (ErrCannotInStatus Complete) ;;;
  let assignment := WorkerAssignment.completed now assignment in
  orFail (workerAssignmentRepo_Update env assignment) (ErrFailedAssignment Complete) ;;;
  booking <- orFail (bookingRepo_GetByID env (WorkerAssignment.BookingID assignment))
                    ErrFailedBooking ;;
  let booking := completedBooking now booking in
  orFail (bookingRepo_Update env booking) ErrFailedBooking ;;;
  go (DisableCallMasking (WorkerAssignment.BookingID assignment)) ;;;
  worker <- workerRepo_GetByUserID env (WorkerAssignment.WorkerID assignment) ;;
  match worker with
  | None => ret tt
  | Some workerRowID =>
      let earnings := earningsOf booking in
      call (IncrementCompletedJob workerRowID earnings)
           (incrementCompletedJobErr env) ;;; ret tt
  end ;;;
  call (CloseBookingChatRoom (WorkerAssignment.BookingID assignment) "Service completed")
       (chatCloseErr env) ;;;
  (if locationTrackingService env
   then call (StopTracking workerID assignmentID) (stopTrackingErr env) ;;; ret tt
   else ret tt) ;;;
  go (NotifyWorkerCompleted (Model.ID (Booking.Model booking))) ;;;
  ret assignment.

(** Running an operation on a database with an empty effect log. *)
Definition run {A} (m : M A) (w : World) : result A * St := m (mkSt w []).

Definition outcome {A} (r : result A * St) : result A := fst r.
Definition final {A} (r : result A * St) : World := db (snd r).
Definition effects {A} (r : result A * St) : list Effect := fx (snd r).

(** One entry point for the four mutating operations. *)
Record Request : Type := mkRequest {
  assignmentID : nat;
  workerID : nat;
  notes : string;
  reason : string;
  materialsUsed : list string;
  photos : list string
}.

Definition perform (op : Operation) (env : Env) (now : Time) (rq : Request)
  : M WorkerAssignment.t :=
  match op with
  | Accept => AcceptAssignment env now (assignmentID rq) (workerID rq) (notes rq)
  | Reject =>
      RejectAssignment env now (assignmentID rq) (workerID rq) (reason rq) (notes rq)
  | Start => StartAssignment env now (assignmentID rq) (workerID rq) (notes rq)
  | Complete =>
      CompleteAssignment env now (assignmentID rq) (workerID rq) (notes rq)
                         (materialsUsed rq) (photos rq)
  end.

(** ** The transition table of the design (section 4.1) *)

(** Written from the table's words, to be compared with what the code
    does: the status an operation requires, the status it leaves on the
    assignment and the status it leaves on the booking. *)
Module Table.
Definition precondition (op : Operation) : AssignmentStatus :=
  match op with
  | Accept => AssignmentStatusAssigned
  | Reject => AssignmentStatusAssigned
  | Start => AssignmentStatusAccepted
  | Complete => AssignmentStatusInProgress
  end.

Definition assignmentStatus (op : Operation) : AssignmentStatus :=
  match op with
  | Accept => AssignmentStatusAccepted
  | Reject => AssignmentStatusRejected
  | Start => AssignmentStatusInProgress
  | Complete => AssignmentStatusCompleted
  end.

Definition bookingStatus (op : Operation) : BookingStatus :=
  match op with
  | Accept => "confirmed"
  | Reject => "confirmed"
  | Start => "in_progress"
  | Complete => "completed"
  end.
End Table.

(** ** What one run of an operation amounts to *)

(** The assignment an operation hands to [Update]. *)
Definition mutateAssignment (op : Operation) (now : Time) (rq : Request)
    (a : WorkerAssignment.t) : WorkerAssignment.t :=
  match op with
  | Accept => WorkerAssignment.accepted now (notes rq) a
  | Reject => WorkerAssignment.rejected now (reason rq) (notes rq) a
  | Start => WorkerAssignment.started now a
  | Complete => WorkerAssignment.completed now a
  end.

(** The booking an operation hands to [Update]. *)
Definition mutateBooking (op : Operation) (now : Time) (b : Booking.t) : Booking.t :=
  match op with
  | Accept | Reject => Booking.withStatus BookingStatusConfirmed b
  | Start =>
      Booking.withActualStartTime (Some now)
        (Booking.withStatus BookingStatusInProgress b)
  | Complete => completedBooking now b
  end.

Definition storeAssignment (a : WorkerAssignment.t) (w : World) : World :=
  mkWorld (<[assignmentID_of a := a]> (assignments w)) (bookings w).

Definition storeBooking (b : Booking.t) (w : World) : World :=
  mkWorld (assignments w) (<[Model.ID (Booking.Model b) := b]> (bookings w)).

Definition findAssignment (env : Env) (w : World) (id : nat)
  : option WorkerAssignment.t :=
  if assignmentGetErr env then None else assignments w !! id.

Definition findBooking (env : Env) (w : World) (id : nat) : option Booking.t :=
  if bookingGetErr env then None else bookings w !! id.

(** The effect log of a run that got past both updates; [a] and [b] are
    the structs as updated. *)
Definition sideEffects (op : Operation) (env : Env) (rq : Request)
    (a : WorkerAssignment.t) (b : Booking.t) : list Effect :=
  let bookingID := WorkerAssignment.BookingID a in
  match op with
  | Accept =>
      [ Call (CreateBookingChatRoomWhenWorkerAccepts bookingID);
        Go (EnableCallMasking bookingID);
        Go (SendWorkerAssignmentNotification (assignmentID_of a) "accepted");
        Go (NotifyAssignmentAccepted (assignmentID_of a) (Model.ID (Booking.Model b))) ]
  | Reject =>
      [ Go (DisableCallMasking bookingID);
        Go (SendWorkerAssignmentRejectedNotification (assignmentID_of a));
        Go (NotifyAssignmentRejected (assignmentID_of a) (Model.ID (Booking.Model b))) ]
  | Start =>
      (if locationTrackingService env
       then [ Call (StartTracking (workerID rq) (assignmentID rq)) ] else [])
      ++ [ Go (NotifyWorkerStarted (Model.ID (Booking.Model b))) ]
  | Complete =>
      [ Go (DisableCallMasking bookingID) ]
      ++ match workerByUserID env (WorkerAssignment.WorkerID a) with
         | Some workerRowID => [ Call (IncrementCompletedJob workerRowID (earningsOf b)) ]
         | None => []
         end
      ++ [ Call (CloseBookingChatRoom bookingID "Service completed") ]
      ++ (if locationTrackingService env
          then [ Call (StopTracking (workerID rq) (assignmentID rq)) ] else [])
      ++ [ Go (NotifyWorkerCompleted (Model.ID (Booking.Model b))) ]
  end.

(** The run of an operation, case by case in the order of the source:
    lookup, ownership, status, assignment update, booking lookup, booking
    update, side effects. *)
Definition performed (op : Operation) (env : Env) (now : Time) (rq : Request)
    (w : World) : result WorkerAssignment.t * St :=
  match findAssignment env w (assignmentID rq) with
  | None => (Err ErrNotFound, mkSt w [])
  | Some a =>
      if negb (bool_decide (WorkerAssignment.WorkerID a = workerID rq))
      then (Err ErrUnauthorized, mkSt w [])
      else if negb (bool_decide (WorkerAssignment.Status a = Table.precondition op))
      then (Err (ErrCannotInStatus op), mkSt w [])
      else if assignmentUpdateErr env
      then (Err (ErrFailedAssignment op), mkSt w [])
      else
        let a' := mutateAssignment op now rq a in
        let w1 := storeAssignment a' w in
        match findBooking env w (WorkerAssignment.BookingID a) with
        | None => (Err ErrFailedBooking, mkSt w1 [])
        | Some b =>
            if bookingUpdateErr env
            then (Err ErrFailedBooking, mkSt w1 [])
            else
              let b' := mutateBooking op now b in
              (Ok a', mkSt (storeBooking b' w1) (sideEffects op env rq a' b'))
        end
  end.

(** ** Properties of states *)

(** Rows are stored under their primary key. *)
Definition keyed (w : World) : Prop :=
  (forall k a, assignments w !! k = Some a -> assignmentID_of a = k) /\
  (forall k b, bookings w !! k = Some b -> Model.ID (Booking.Model b) = k).

Definition isSet {A} (o : option A) : bool :=
  match o with Some _ => true | None => false end.

(** The timestamp invariant of the data model: at most one of
    [AcceptedAt], [RejectedAt] is set; [StartedAt] only with [AcceptedAt];
    [CompletedAt] only with [StartedAt]. *)
Definition timestampInvariant (a : WorkerAssignment.t) : bool :=
  negb (isSet (WorkerAssignment.AcceptedAt a) && isSet (WorkerAssignment.RejectedAt a))
  && implb (isSet (WorkerAssignment.StartedAt a)) (isSet (WorkerAssignment.AcceptedAt a))
  && implb (isSet (WorkerAssignment.CompletedAt a)) (isSet (WorkerAssignment.StartedAt a)).

(** The timestamps agree with the status: nothing decided yet while
    [assigned], accepted once [accepted], started once [in_progress]. *)
Definition statusCoherent (a : WorkerAssignment.t) : bool :=
  match WorkerAssignment.Status a with
  | AssignmentStatusAssigned =>
      negb (isSet (WorkerAssignment.AcceptedAt a))
      && negb (isSet (WorkerAssignment.RejectedAt a))
  | AssignmentStatusAccepted => isSet (WorkerAssignment.AcceptedAt a)
  | AssignmentStatusInProgress => isSet (WorkerAssignment.StartedAt a)
  | AssignmentStatusRejected | AssignmentStatusCompleted => true
  end.

Definition allAssignments (P : WorkerAssignment.t -> bool) (w : World) : Prop :=
  forall k a, assignments w !! k = Some a -> P a = true.

(** Two environments that agree on how the four repository calls of the
    core transition fare; everything else (chat, tracking, statistics) may
    differ. *)
Definition sameRepositories (env env' : Env) : Prop :=
  assignmentGetErr env = assignmentGetErr env' /\
  assignmentUpdateErr env = assignmentUpdateErr env' /\
  bookingGetErr env = bookingGetErr env' /\
  bookingUpdateErr env = bookingUpdateErr env'.

(** The owner's phone replaced in a fully loaded assignment. *)
Definition withOwnerPhone (phone : string) (a : WorkerAssignment.t)
  : WorkerAssignment.t :=
  let b := WorkerAssignment.Booking a in
  WorkerAssignment.withBooking
    (Booking.withUser (User.withPhone phone (Booking.User b)) b) a.

(** ** Two [AcceptAssignment] calls in flight *)

(** [AcceptAssignment] up to and including the status check ... *)
Definition AcceptAssignment_check (env : Env) (assignmentID workerID : nat)
  : M WorkerAssignment.t :=
  assignment <- orFail (workerAssignmentRepo_GetByID env assignmentID) ErrNotFound ;;
  guard (bool_decide (WorkerAssignment.WorkerID assignment = workerID))
        ErrUnauthorized ;;;
  guard (bool_decide (WorkerAssignment.Status assignment = AssignmentStatusAssigned))
        (ErrCannotInStatus Accept) ;;;
  ret assignment.

(** ... and from there on, working on the struct it loaded. *)
Definition AcceptAssignment_commit (env : Env) (now : Time) (notes : string)
    (assignment : WorkerAssignment.t) : M WorkerAssignment.t :=
  let assignment := WorkerAssignment.accepted now notes assignment in
  orFail (workerAssignmentRepo_Update env assignment) (ErrFailedAssignment Accept) ;;;
  booking <- orFail (bookingRepo_GetByID env (WorkerAssignment.BookingID assignment))
                    ErrFailedBooking ;;
  let booking := Booking.withStatus BookingStatusConfirmed booking in
  orFail (bookingRepo_Update env booking) ErrFailedBooking ;;;
  call (CreateBookingChatRoomWhenWorkerAccepts (WorkerAssignment.BookingID assignment))
       (chatCreateErr env) ;;;
  go (EnableCallMasking (WorkerAssignment.BookingID assignment)) ;;;
  go (SendWorkerAssignmentNotification (assignmentID_of assignment) "accepted") ;;;
  go (NotifyAssignmentAccepted (assignmentID_of assignment)
                               (Model.ID (Booking.Model booking))) ;;;
  ret assignment.

(** A request-handling goroutine inside [AcceptAssignment]: not yet
    started, past the checks with the struct it loaded, or returned. *)
Inductive Thread : Type :=
  | Pending
  | Checked (assignment : WorkerAssignment.t)
  | Returned (r : result WorkerAssignment.t).

Record AcceptCall : Type := mkAcceptCall {
  callTime : Time;
  callNotes : string
}.

(** One scheduling step of a goroutine: the reads and checks, then the
    writes and the fan-out. *)
Definition stepThread (env : Env) (assignmentID workerID : nat) (c : AcceptCall)
    (t : Thread) (s : St) : Thread * St :=
  match t with
  | Pending =>
      match AcceptAssignment_check env assignmentID workerID s with
      | (Ok a, s') => (Checked a, s')
      | (Err e, s') => (Returned (Err e), s')
      end
  | Checked a =>
      let '(r, s') := AcceptAssignment_commit env (callTime c) (callNotes c) a s in
      (Returned r, s')
  | Returned r => (Returned r, s)
  end.

(** Two calls on the same assignment by the same worker under a schedule:
    [false] lets the first goroutine take its next step, [true] the second. *)
Fixpoint runSchedule (env : Env) (assignmentID workerID : nat) (c1 c2 : AcceptCall)
    (schedule : list bool) (t1 t2 : Thread) (s : St) : Thread * Thread * St :=
  match schedule with
  | [] => (t1, t2, s)
  | false :: rest =>
      let '(t1', s') := stepThread env assignmentID workerID c1 t1 s in
      runSchedule env assignmentID workerID c1 c2 rest t1' t2 s'
  | true :: rest =>
      let '(t2', s') := stepThread env assignmentID workerID c2 t2 s in
      runSchedule env assignmentID workerID c1 c2 rest t1 t2' s'
  end.

Definition concurrentAccepts (env : Env) (assignmentID workerID : nat)
    (c1 c2 : AcceptCall) (schedule : list bool) (w : World) : Thread * Thread * St :=
  runSchedule env assignmentID workerID c1 c2 schedule Pending Pending (mkSt w []).

(** The side effects one successful [AcceptAssignment] fires, for the
    assignment and booking as updated. *)
Definition acceptFanOut (a : WorkerAssignment.t) (b : Booking.t) : list Effect :=
  [ Call (CreateBookingChatRoomWhenWorkerAccepts (WorkerAssignment.BookingID a));
    Go (EnableCallMasking (WorkerAssignment.BookingID a));
    Go (SendWorkerAssignmentNotification (assignmentID_of a) "accepted");
    Go (NotifyAssignmentAccepted (assignmentID_of a) (Model.ID (Booking.Model b))) ].

(** One call wins and the other is turned away by the status check. *)
Definition oneAcceptedOneRefused (t1 t2 : Thread) : Prop :=
  (exists a, t1 = Returned (Ok a) /\ t2 = Returned (Err (ErrCannotInStatus Accept))) \/
  (exists a, t2 = Returned (Ok a) /\ t1 = Returned (Err (ErrCannotInStatus Accept))).

(** ** Sample data *)

Module Sample.
Definition model (id : nat) : Model.t := Model.mk id 0 0 None.

Definition user (id : nat) (name phone : string) : User.t :=
  User.mk (model id) name None phone "normal" "" "" true None None None None 0%Q
          None (Some 4%nat) false None.

Definition service (price : option float64) : Service.t :=
  Service.mk 3 "Plumbing" price.

Definition booking (status : BookingStatus) (start : option Time)
    (quote price : option float64) : Booking.t :=
  Booking.mk (model 7) "BK-7" 11 3 status "completed" "regular" None
    None None None start None None None "" "" "" "" None quote "" None None
    None None (user 11 "Asha" "+911234567890") (service price).

Definition assignment (status : AssignmentStatus)
    (acceptedAt rejectedAt startedAt : option Time) : WorkerAssignment.t :=
  WorkerAssignment.mk (model 1) 7 5 2 status 0
    acceptedAt rejectedAt startedAt None "" "" "" ""
    (booking "confirmed" None None (Some (80 # 1)%Q))
    (user 5 "Ravi" "+910000000005") (user 2 "Admin" "+910000000002").

Definition world (a : WorkerAssignment.t) (b : Booking.t) : World :=
  mkWorld {[ 1%nat := a ]} {[ 7%nat := b ]}.

(** a freshly dispatched assignment and its booking *)
Definition fresh : World :=
  world (assignment AssignmentStatusAssigned None None None)
        (booking "confirmed" None None (Some (80 # 1)%Q)).

(** an assignment in progress since 10:00 (in nanoseconds of the day) *)
Definition tenOClock : Time := 10 * 60 * Minute.
Definition tenFortySeven : Time := tenOClock + 47 * Minute.

Definition inProgress (start : option Time) (quote price : option float64) : World :=
  world (assignment AssignmentStatusInProgress (Some 0) None (Some tenOClock))
        (booking "in_progress" start quote price).

(** every collaborator answers *)
Definition env : Env :=
  mkEnv false false false false false false (fun u => Some (100 + u)%nat)
        false true false false (fun _ _ _ => None).

(** the booking update fails, everything else answers *)
Definition envBookingUpdateFails : Env :=
  mkEnv false false false true false false (fun u => Some (100 + u)%nat)
        false true false false (fun _ _ _ => None).

(** every side effect fails, the repositories answer *)
Definition envSideEffectsFail : Env :=
  mkEnv false false false false true true (fun _ => None)
        true true true true (fun _ _ _ => None).

(** the list query returns the one stored assignment *)
Definition envList : Env :=
  mkEnv false false false false false false (fun u => Some (100 + u)%nat)
        false true false false
        (fun w _ _ =>
           Some (map snd (map_to_list (assignments w)), Pagination.mk 1 10 1 1)).

Definition request (workerID : nat) : Request :=
  mkRequest 1 workerID "on my way" "" [] [].
End Sample.

(** ** The claims of the design that the code does not meet, as stated *)

(** An operation that returns an error leaves the database as it found it. *)
Definition AtomicCommit : Prop :=
  forall op env now rq w e,
    outcome (run (perform op env now rq) w) = Err e ->
    final (run (perform op env now rq) w) = w.

(** Whenever an operation moves the status of an assignment, it moves it
    along its edge of the table and the booking of that assignment is left
    in the status the table pairs with that edge. *)
Definition TransitionsPaired : Prop :=
  forall op env now rq w k a0 a1,
    keyed w ->
    assignments w !! k = Some a0 ->
    assignments (final (run (perform op env now rq) w)) !! k = Some a1 ->
    WorkerAssignment.Status a1 <> WorkerAssignment.Status a0 ->
    WorkerAssignment.Status a0 = Table.precondition op /\
    WorkerAssignment.Status a1 = Table.assignmentStatus op /\
    exists b',
      bookings (final (run (perform op env now rq) w))
        !! WorkerAssignment.BookingID a0 = Some b' /\
      Booking.Status b' = Table.bookingStatus op.

(** Every successful [Complete] stores the floor of the elapsed minutes. *)
Definition DurationAlwaysSet : Prop :=
  forall env now rq w a' b,
    outcome (run (perform Complete env now rq) w) = Ok a' ->
    bookings w !! WorkerAssignment.BookingID a' = Some b ->
    exists b' start,
      bookings (final (run (perform Complete env now rq) w))
        !! WorkerAssignment.BookingID a' = Some b' /\
      Booking.ActualStartTime b = Some start /\
      Booking.ActualDurationMinutes b' = Some ((now - start) / Minute).

(** The timestamp invariant alone is preserved by every operation. *)
Definition TimestampInvariantPreserved : Prop :=
  forall op env now rq w,
    allAssignments timestampInvariant w ->
    allAssignments timestampInvariant (final (run (perform op env now rq) w)).

(** All four repository calls of the core transition answer. *)
Definition repositoriesAnswer (env : Env) : Prop :=
  assignmentGetErr env = false /\
  assignmentUpdateErr env = false /\
  bookingGetErr env = false /\
  bookingUpdateErr env = false.

(** Whatever the schedule, of two calls by the owner on an assigned
    assignment that both return, with the repositories answering, one is
    accepted and the other refused. *)
Definition AcceptsSerialized : Prop :=
  forall env id wid c1 c2 schedule w a b r1 r2 s,
    repositoriesAnswer env ->
    assignments w !! id = Some a ->
    WorkerAssignment.WorkerID a = wid ->
    WorkerAssignment.Status a = AssignmentStatusAssigned ->
    bookings w !! WorkerAssignment.BookingID a = Some b ->
    concurrentAccepts env id wid c1 c2 schedule w = (Returned r1, Returned r2, s) ->
    oneAcceptedOneRefused (Returned r1) (Returned r2).

(** ** Histories of operations and what they leave alone *)

(** The assignment with every column an operation may write overwritten by
    fixed values: two assignments with the same frame differ at most in
    status, the four timestamps, and the acceptance and rejection texts. *)
Definition assignmentFrame (a : WorkerAssignment.t) : WorkerAssignment.t :=
  WorkerAssignment.completed 0
    (WorkerAssignment.started 0
       (WorkerAssignment.rejected 0 "" ""
          (WorkerAssignment.accepted 0 "" a))).

(** The booking with the four columns an operation may write blanked. *)
Definition bookingFrame (b : Booking.t) : Booking.t :=
  Booking.withActualDurationMinutes None
    (Booking.withActualEndTime None
       (Booking.withActualStartTime None
          (Booking.withStatus "" b))).

(** How far along its life an assignment is; [rejected] is a dead end past
    every other status. *)
Definition statusRank (s : AssignmentStatus) : nat :=
  match s with
  | AssignmentStatusAssigned => 0
  | AssignmentStatusAccepted => 1
  | AssignmentStatusInProgress => 2
  | AssignmentStatusCompleted => 3
  | AssignmentStatusRejected => 4
  end.

Definition isTerminal (s : AssignmentStatus) : bool :=
  match s with
  | AssignmentStatusCompleted | AssignmentStatusRejected => true
  | _ => false
  end.

Definition isOk {A} (r : result A) : bool :=
  match r with Ok _ => true | Err _ => false end.

(** One call of a mutating operation: which one, how the collaborators
    fare during it, the clock, and the request. *)
Record Invocation : Type := mkInvocation {
  invOp : Operation;
  invEnv : Env;
  invNow : Time;
  invRq : Request
}.

Definition invoke (i : Invocation) (w : World) : result WorkerAssignment.t * St :=
  run (perform (invOp i) (invEnv i) (invNow i) (invRq i)) w.

(** The database after a list of calls made one after the other. *)
Fixpoint history (steps : list Invocation) (w : World) : World :=
  match steps with
  | [] => w
  | i :: rest => history rest (final (invoke i w))
  end.

(** How many calls of [op] on assignment [id] return without error in a
    history. *)
Fixpoint successes (op : Operation) (id : nat) (steps : list Invocation)
    (w : World) : nat :=
  match steps with
  | [] => 0
  | i :: rest =>
      (if bool_decide (invOp i = op)
          && bool_decide (assignmentID (invRq i) = id)
          && isOk (outcome (invoke i w))
       then 1 else 0)%nat
      + successes op id rest (final (invoke i w))
  end.

(** ** What the projection forgets *)

Definition userWithoutSubscription (u : User.t) : User.t :=
  User.mk (User.Model u) (User.Name u) (User.Email u) (User.Phone u)
          (User.UserType u) (User.Avatar u) (User.Gender u) (User.IsActive u)
          (User.LastLoginAt u) (User.RoleApplicationStatus u)
          (User.ApplicationDate u) (User.ApprovalDate u) (User.WalletBalance u)
          (User.SubscriptionID u) None (User.HasActiveSubscription u)
          (User.SubscriptionExpiryDate u).

(** The assignment with the owner's phone and subscription relation
    blanked. *)
Definition blankOwner (a : WorkerAssignment.t) : WorkerAssignment.t :=
  let b := WorkerAssignment.Booking a in
  WorkerAssignment.withBooking
    (Booking.withUser
       (userWithoutSubscription (User.withPhone "" (Booking.User b))) b) a.

(** ** The notification helpers *)

(** Modelled from the spec: the notification integration service and the
    user repository are not among the sources.  [Notifier] fixes, for one
    run of a helper, whether the global service is configured, what
    [userRepo.FindByID] finds, and which notification calls return an
    error. *)
Record Notifier : Type := mkNotifier {
  globalNotificationIntegrationService : bool;
  userRepo_FindByID : nat -> option User.t;
  notifyWorkerAssignedErr : bool;
  notifyWorkerAssignedToWorkErr : bool;
  notifyWorkerStartedErr : bool;
  notifyWorkerCompletedErr : bool
}.

(** What a helper does that can be seen from outside: log lines (the format
    string of the source) and calls on the integration service. *)
Inductive Notice : Type :=
  | Warn (msg : string)
  | Errorf (format : string)
  | WorkerAssigned (booking : Booking.t) (worker : User.t) (service : Service.t)
  | WorkerAssignedToWork (worker : User.t) (booking : Booking.t) (service : Service.t)
  | WorkerStarted (booking : Booking.t) (worker : User.t) (service : Service.t)
  | WorkerCompleted (booking : Booking.t) (worker : User.t) (service : Service.t).

Definition isSent (n : Notice) : bool :=
  match n with
  | Warn _ | Errorf _ => false
  | _ => true
  end.

(** The lookups the three helpers share: the global service, the booking of
    the assignment, the user registered under the assignment's worker. *)
Definition withBookingAndWorker (env : Env) (n : Notifier) (w : World)
    (assignment : WorkerAssignment.t)
    (k : Booking.t -> User.t -> list Notice) : list Notice :=
  if negb (globalNotificationIntegrationService n)
  then [ Warn "Notification integration service not available" ]
  else
    match findBooking env w (WorkerAssignment.BookingID assignment) with
    | None => [ Errorf "Failed to get booking for notification: %v" ]
    | Some booking =>
        match userRepo_FindByID n (WorkerAssignment.WorkerID assignment) with
        | None => [ Errorf "Failed to get worker for notification: %v" ]
        | Some worker => k booking worker
        end
    end.

(** [sendWorkerAssignmentNotification]; [status] is not used, as in the
    source. *)
Definition sendWorkerAssignmentNotification (env : Env) (n : Notifier) (w : World)
    (assignment : WorkerAssignment.t) (status : string) : list Notice :=
  withBookingAndWorker env n w assignment (fun booking worker =>
    ([ WorkerAssigned booking worker (Booking.Service booking) ]
    ++ (if notifyWorkerAssignedErr n
        then [ Errorf "Failed to send worker assignment notification: %v" ]
        else [])
    ++ [ WorkerAssignedToWork worker booking (Booking.Service booking) ]
    ++ (if notifyWorkerAssignedToWorkErr n
        then [ Errorf "Failed to send worker assignment notification to worker: %v" ]
        else []))%list).

(** [sendWorkerStartedNotification] *)
Definition sendWorkerStartedNotification (env : Env) (n : Notifier) (w : World)
    (assignment : WorkerAssignment.t) : list Notice :=
  withBookingAndWorker env n w assignment (fun booking worker =>
    ([ WorkerStarted booking worker (Booking.Service booking) ]
    ++ (if notifyWorkerStartedErr n
        then [ Errorf "Failed to send worker started notification: %v" ]
        else []))%list).

(** [sendWorkerCompletedNotification] *)
Definition sendWorkerCompletedNotification (env : Env) (n : Notifier) (w : World)
    (assignment : WorkerAssignment.t) : list Notice :=
  withBookingAndWorker env n w assignment (fun booking worker =>
    ([ WorkerCompleted booking worker (Booking.Service booking) ]
    ++ (if notifyWorkerCompletedErr n
        then [ Errorf "Failed to send worker completed notification: %v" ]
        else []))%list).

(** A notifier for the sample data: the service is configured, the worker
    is found, and the first notification call fails. *)
Definition sampleNotifier : Notifier :=
  mkNotifier true (fun id => Some (Sample.user id "Ravi" "+910000000005"))
             true false false false.

(** The whole life of the sample assignment: accepted at 09:00, started at
    10:00, completed at 10:47, each by worker 5, then a second attempt to
    complete it. *)
Definition sampleLifecycle : list Invocation :=
  [ mkInvocation Accept Sample.env (9 * 60 * Minute) (Sample.request 5);
    mkInvocation Start Sample.env Sample.tenOClock (Sample.request 5);
    mkInvocation Complete Sample.env Sample.tenFortySeven (Sample.request 5);
    mkInvocation Complete Sample.env (Sample.tenFortySeven + Minute)
                 (Sample.request 5) ].

(** A second booking, of another customer, and the assignment that gives
    it to worker 6. *)
Definition sampleOtherBooking : Booking.t :=
  Booking.mk (Sample.model 8) "BK-8" 12 3 "pending" "pending" "regular" None
    None None None None None None None "" "" "" "" None None "" None None
    None None (Sample.user 12 "Meera" "+911234567891")
    (Sample.service (Some (50 # 1)%Q)).

Definition sampleOtherAssignment : WorkerAssignment.t :=
  WorkerAssignment.mk (Sample.model 2) 8 6 2 AssignmentStatusAssigned 0
    None None None None "" "" "" "" sampleOtherBooking
    (Sample.user 6 "Kiran" "+910000000006") (Sample.user 2 "Admin" "+910000000002").

(** The freshly dispatched pair next to that second pair. *)
Definition sampleTwoPairs : World :=
  mkWorld (<[ 2%nat := sampleOtherAssignment ]> (assignments Sample.fresh))
          (<[ 8%nat := sampleOtherBooking ]> (bookings Sample.fresh)).

Ltac unfold_service :=
  unfold run, perform, AcceptAssignment, RejectAssignment, StartAssignment,
    CompleteAssignment, GetWorkerAssignment, orFail, guard, call, go, emit,
    bind, ret, fail, workerAssignmentRepo_GetByID, workerAssignmentRepo_Update,
    bookingRepo_GetByID, bookingRepo_Update, workerRepo_GetByUserID.

(** ** Two accepts under any schedule *)

(** What a goroutine accepting assignment [a] for call [c] can be at: not
    started, past the checks holding [a], returned with [a] accepted at its
    own clock reading, or refused by the status check. *)
Definition threadOk (a : WorkerAssignment.t) (c : AcceptCall) (t : Thread) : Prop :=
  t = Pending \/
  t = Checked a \/
  t = Returned (Ok (WorkerAssignment.accepted (callTime c) (callNotes c) a)) \/
  t = Returned (Err (ErrCannotInStatus Accept)).

(** The states two concurrent accepts of [a] go through: either nothing
    has been written and neither goroutine has returned, or one has
    returned accepted and the tables hold an accepted assignment and a
    confirmed booking. *)
Definition raceInvariant (w : World) (id : nat) (a : WorkerAssignment.t)
    (c1 c2 : AcceptCall) (t1 t2 : Thread) (s : St) : Prop :=
  (db s = w /\
   (t1 = Pending \/ t1 = Checked a) /\
   (t2 = Pending \/ t2 = Checked a)) \/
  (threadOk a c1 t1 /\ threadOk a c2 t2 /\
   (t1 = Returned (Ok (WorkerAssignment.accepted (callTime c1) (callNotes c1) a)) \/
    t2 = Returned (Ok (WorkerAssignment.accepted (callTime c2) (callNotes c2) a))) /\
   (assignments (db s) !! id
    = Some (WorkerAssignment.accepted (callTime c1) (callNotes c1) a) \/
    assignments (db s) !! id
    = Some (WorkerAssignment.accepted (callTime c2) (callNotes c2) a)) /\
   (exists b',
       bookings (db s) !! WorkerAssignment.BookingID a = Some b' /\
       Model.ID (Booking.Model b') = WorkerAssignment.BookingID a /\
       Booking.Status b' = BookingStatusConfirmed)).

(** Case analysis on membership in a literal list of effects. *)
Ltac effect_cases H :=
  cbn in H;
  repeat (destruct H as [H|H];
          [try discriminate H; try (injection H as <- <-);
           try (injection H as <-)|]);
  try contradiction.

Lemma run_perform (op : Operation) (env : Env) (now : Time) (rq : Request)
    (w : World) :
  run (perform op env now rq) w = performed op env now rq w.
Proof.
  unfold performed, findAssignment, findBooking.
  destruct op; unfold_service; cbn [db fx Table.precondition];
    (destruct (assignmentGetErr env); [reflexivity|]);
    (destruct (assignments w !! assignmentID rq) as [a|]; [|reflexivity]);
    (case_bool_decide; cbn [negb]; [|reflexivity]);
    (case_bool_decide; cbn [negb]; [|reflexivity]);
    (destruct (assignmentUpdateErr env); [reflexivity|]);
    cbn [db fx assignments bookings];
    (destruct (bookingGetErr env); [reflexivity|]);
    cbn [WorkerAssignment.BookingID WorkerAssignment.accepted
         WorkerAssignment.rejected WorkerAssignment.started
         WorkerAssignment.completed mutateAssignment];
    (destruct (bookings w !! WorkerAssignment.BookingID a) as [b|]; [|reflexivity]);
    (destruct (bookingUpdateErr env); [reflexivity|]);
    cbn [db fx assignments bookings sideEffects app];
    try reflexivity.
  - destruct (locationTrackingService env); reflexivity.
  - destruct (workerByUserID env _); destruct (locationTrackingService env);
      reflexivity.
Qed.

(** ** Basic facts *)

Lemma run_GetWorkerAssignment (env : Env) (id wid : nat) (w : World) :
  run (GetWorkerAssignment env id wid) w =
  match findAssignment env w id with
  | None => (Err ErrNotFound, mkSt w [])
  | Some a =>
      if bool_decide (WorkerAssignment.WorkerID a = wid)
      then (Ok a, mkSt w [])
      else (Err ErrUnauthorized, mkSt w [])
  end.
Proof.
  unfold findAssignment. unfold_service. cbn [db fx].
  destruct (assignmentGetErr env); [reflexivity|].
  destruct (assignments w !! id) as [a|]; [|reflexivity].
  case_bool_decide; reflexivity.
Qed.

Lemma mutateAssignment_Status op now rq a :
  WorkerAssignment.Status (mutateAssignment op now rq a) = Table.assignmentStatus op.
Proof. destruct op; reflexivity. Qed.

Lemma mutateAssignment_ID op now rq a :
  assignmentID_of (mutateAssignment op now rq a) = assignmentID_of a.
Proof. destruct op; reflexivity. Qed.

Lemma mutateAssignment_BookingID op now rq a :
  WorkerAssignment.BookingID (mutateAssignment op now rq a)
  = WorkerAssignment.BookingID a.
Proof. destruct op; reflexivity. Qed.

Lemma mutateAssignment_WorkerID op now rq a :
  WorkerAssignment.WorkerID (mutateAssignment op now rq a)
  = WorkerAssignment.WorkerID a.
Proof. destruct op; reflexivity. Qed.

Lemma completedBooking_Status now b :
  Booking.Status (completedBooking now b) = BookingStatusCompleted.
Proof.
  unfold completedBooking. cbn.
  destruct (Booking.ActualStartTime b); reflexivity.
Qed.

Lemma completedBooking_ID now b :
  Model.ID (Booking.Model (completedBooking now b)) = Model.ID (Booking.Model b).
Proof.
  unfold completedBooking. cbn.
  destruct (Booking.ActualStartTime b); reflexivity.
Qed.

Lemma completedBooking_earnings now b :
  earningsOf (completedBooking now b) = earningsOf b.
Proof.
  unfold completedBooking, earningsOf. cbn.
  destruct (Booking.ActualStartTime b); reflexivity.
Qed.

Lemma mutateBooking_Status op now b :
  Booking.Status (mutateBooking op now b) = Table.bookingStatus op.
Proof.
  destruct op; try reflexivity. apply completedBooking_Status.
Qed.

Lemma mutateBooking_ID op now b :
  Model.ID (Booking.Model (mutateBooking op now b)) = Model.ID (Booking.Model b).
Proof.
  destruct op; try reflexivity. apply completedBooking_ID.
Qed.

(** The cases of [performed], one lemma each. *)

Lemma performed_not_found op env now rq w :
  findAssignment env w (assignmentID rq) = None ->
  performed op env now rq w = (Err ErrNotFound, mkSt w []).
Proof. intros H. unfold performed. now rewrite H. Qed.

Lemma performed_unauthorized op env now rq w a :
  findAssignment env w (assignmentID rq) = Some a ->
  WorkerAssignment.WorkerID a <> workerID rq ->
  performed op env now rq w = (Err ErrUnauthorized, mkSt w []).
Proof.
  intros H Hne. unfold performed. rewrite H.
  rewrite bool_decide_eq_false_2 by assumption. reflexivity.
Qed.

Lemma performed_wrong_status op env now rq w a :
  findAssignment env w (assignmentID rq) = Some a ->
  WorkerAssignment.WorkerID a = workerID rq ->
  WorkerAssignment.Status a <> Table.precondition op ->
  performed op env now rq w = (Err (ErrCannotInStatus op), mkSt w []).
Proof.
  intros H Hw Hs. unfold performed. rewrite H.
  rewrite bool_decide_eq_true_2 by assumption.
  rewrite bool_decide_eq_false_2 by assumption. reflexivity.
Qed.

Lemma performed_committed op env now rq w a b :
  findAssignment env w (assignmentID rq) = Some a ->
  WorkerAssignment.WorkerID a = workerID rq ->
  WorkerAssignment.Status a = Table.precondition op ->
  assignmentUpdateErr env = false ->
  findBooking env w (WorkerAssignment.BookingID a) = Some b ->
  bookingUpdateErr env = false ->
  performed op env now rq w =
  (Ok (mutateAssignment op now rq a),
   mkSt (storeBooking (mutateBooking op now b)
           (storeAssignment (mutateAssignment op now rq a) w))
        (sideEffects op env rq (mutateAssignment op now rq a)
           (mutateBooking op now b))).
Proof.
  intros H Hw Hs Hu Hb Hbu. unfold performed. rewrite H.
  rewrite !bool_decide_eq_true_2 by assumption. cbn [negb].
  rewrite Hu, Hb, Hbu. reflexivity.
Qed.

(** Inversion of a successful run. *)
Lemma performed_Ok op env now rq w a' s :
  performed op env now rq w = (Ok a', s) ->
  exists a b,
    findAssignment env w (assignmentID rq) = Some a /\
    WorkerAssignment.WorkerID a = workerID rq /\
    WorkerAssignment.Status a = Table.precondition op /\
    assignmentUpdateErr env = false /\
    findBooking env w (WorkerAssignment.BookingID a) = Some b /\
    bookingUpdateErr env = false /\
    a' = mutateAssignment op now rq a /\
    s = mkSt (storeBooking (mutateBooking op now b) (storeAssignment a' w))
             (sideEffects op env rq a' (mutateBooking op now b)).
Proof.
  unfold performed.
  destruct (findAssignment env w (assignmentID rq)) as [a|] eqn:Ha; [|discriminate].
  case_bool_decide; cbn [negb]; [|discriminate].
  case_bool_decide; cbn [negb]; [|discriminate].
  destruct (assignmentUpdateErr env) eqn:Hu; [discriminate|].
  destruct (findBooking env w (WorkerAssignment.BookingID a)) as [b|] eqn:Hb;
    [|discriminate].
  destruct (bookingUpdateErr env) eqn:Hbu; [discriminate|].
  intros [= <- <-]. exists a, b. repeat split; assumption.
Qed.

(** Inversion of a failed run: either nothing was written, or the
    assignment was and the booking step failed. *)
Lemma performed_Err op env now rq w e s :
  performed op env now rq w = (Err e, s) ->
  (e <> ErrFailedBooking /\ s = mkSt w []) \/
  (e = ErrFailedBooking /\
   exists a,
     findAssignment env w (assignmentID rq) = Some a /\
     WorkerAssignment.WorkerID a = workerID rq /\
     WorkerAssignment.Status a = Table.precondition op /\
     s = mkSt (storeAssignment (mutateAssignment op now rq a) w) []).
Proof.
  unfold performed.
  destruct (findAssignment env w (assignmentID rq)) as [a|] eqn:Ha;
    [|intros [= <- <-]; left; split; [discriminate|reflexivity]].
  case_bool_decide; cbn [negb];
    [|intros [= <- <-]; left; split; [discriminate|reflexivity]].
  case_bool_decide; cbn [negb];
    [|intros [= <- <-]; left; split; [discriminate|reflexivity]].
  destruct (assignmentUpdateErr env) eqn:Hu;
    [intros [= <- <-]; left; split; [discriminate|reflexivity]|].
  destruct (findBooking env w (WorkerAssignment.BookingID a)) as [b|] eqn:Hb.
  - destruct (bookingUpdateErr env) eqn:Hbu; [|discriminate].
    intros [= <- <-]. right. split; [reflexivity|]. exists a. auto.
  - intros [= <- <-]. right. split; [reflexivity|]. exists a. auto.
Qed.

Lemma findAssignment_Some env w id a :
  findAssignment env w id = Some a -> assignments w !! id = Some a.
Proof. unfold findAssignment. destruct (assignmentGetErr env); [discriminate|auto]. Qed.

Lemma findBooking_Some env w id b :
  findBooking env w id = Some b -> bookings w !! id = Some b.
Proof. unfold findBooking. destruct (bookingGetErr env); [discriminate|auto]. Qed.

Lemma Sample_keyed a b :
  assignmentID_of a = 1%nat -> Model.ID (Booking.Model b) = 7%nat ->
  keyed (Sample.world a b).
Proof.
  intros Ha Hb. split; intros k x Hk; cbn in Hk;
    apply lookup_singleton_Some in Hk as [<- <-]; assumption.
Qed.

(** ** Atomicity of the paired update (C1) *)

(** C1, as stated, does not hold: when the booking update fails after the
    assignment update went through, [AcceptAssignment] returns an error and
    the accepted assignment is nevertheless stored. *)
Lemma atomic_commit_refuted : ~ AtomicCommit.
Proof.
  intros H.
  specialize (H Accept Sample.envBookingUpdateFails 1000 (Sample.request 5)
                Sample.fresh ErrFailedBooking eq_refl).
  apply (f_equal (fun w => WorkerAssignment.Status <$> assignments w !! 1%nat)) in H.
  vm_compute in H. discriminate H.
Qed.

(** C1, amended: the two writes are separate and in sequence.  An operation
    that fails with anything but the booking error has written nothing; one
    that fails with the booking error has stored the updated assignment and
    left the bookings as they were; a failed operation fires no side
    effect. *)
Theorem failed_operation_writes op env now rq w e :
  outcome (run (perform op env now rq) w) = Err e ->
  effects (run (perform op env now rq) w) = [] /\
  (e <> ErrFailedBooking -> final (run (perform op env now rq) w) = w) /\
  (e = ErrFailedBooking ->
   exists a,
     assignments w !! assignmentID rq = Some a /\
     final (run (perform op env now rq) w)
     = storeAssignment (mutateAssignment op now rq a) w /\
     bookings (final (run (perform op env now rq) w)) = bookings w).
Proof.
  rewrite run_perform. unfold outcome, final, effects.
  destruct (performed op env now rq w) as [r s] eqn:E. cbn [fst snd].
  intros ->.
  apply performed_Err in E as [[Hne ->] | [-> (a & Ha & _ & _ & ->)]]; cbn [db fx].
  - split; [reflexivity|]. split; [reflexivity|]. intros ->. contradiction.
  - split; [reflexivity|]. split; [intros Hne; contradiction|]. intros _.
    exists a. split; [eauto using findAssignment_Some|]. split; reflexivity.
Qed.

Lemma failed_operation_writes_witness :
  outcome (run (perform Accept Sample.envBookingUpdateFails 1000
                        (Sample.request 5)) Sample.fresh) = Err ErrFailedBooking /\
  (effects (run (perform Accept Sample.envBookingUpdateFails 1000
                         (Sample.request 5)) Sample.fresh) = [] /\
   (ErrFailedBooking <> ErrFailedBooking ->
    final (run (perform Accept Sample.envBookingUpdateFails 1000
                        (Sample.request 5)) Sample.fresh) = Sample.fresh) /\
   (ErrFailedBooking = ErrFailedBooking ->
    exists a,
      assignments Sample.fresh !! assignmentID (Sample.request 5) = Some a /\
      final (run (perform Accept Sample.envBookingUpdateFails 1000
                          (Sample.request 5)) Sample.fresh)
      = storeAssignment (mutateAssignment Accept 1000 (Sample.request 5) a)
                        Sample.fresh /\
      bookings (final (run (perform Accept Sample.envBookingUpdateFails 1000
                                    (Sample.request 5)) Sample.fresh))
      = bookings Sample.fresh)).
Proof.
  split; [reflexivity|].
  apply (failed_operation_writes Accept Sample.envBookingUpdateFails 1000
           (Sample.request 5) Sample.fresh ErrFailedBooking).
  reflexivity.
Defined.

(** ** The transition table (C2) *)

(** C2, as stated, does not hold: the table pairs each assignment edge
    with a booking status, and an Accept whose booking update fails moves
    the assignment from assigned to accepted while the booking stays
    pending. *)
Lemma transitions_paired_refuted : ~ TransitionsPaired.
Proof.
  intros H.
  pose (a0 := Sample.assignment AssignmentStatusAssigned None None None).
  pose (w0 := Sample.world a0 (Sample.booking "pending" None None None)).
  assert (K : keyed w0) by (apply Sample_keyed; reflexivity).
  destruct (H Accept Sample.envBookingUpdateFails 1000 (Sample.request 5) w0
              1%nat a0 (WorkerAssignment.accepted 1000 "on my way" a0)
              K eq_refl eq_refl)
    as (_ & _ & b' & Hb' & Hst); [discriminate|].
  vm_compute in Hb'. injection Hb' as <-. discriminate Hst.
Qed.

(** C2, amended: with rows stored under their keys, (1) an operation
    changes the status of no assignment except along its own edge of the
    table; (2) a successful operation started from the status the table
    requires and leaves the assignment and the booking in the statuses the
    table gives; (3) invoked by the owner in any other status it returns
    the invalid-transition error of that operation, with the database
    unchanged and no side effect; (4) an operation that returns an error
    leaves every booking as it was, also when it has already moved the
    assignment along its edge. *)
Theorem transitions_follow_table op env now rq w :
  keyed w ->
  (forall k a0 a1,
      assignments w !! k = Some a0 ->
      assignments (final (run (perform op env now rq) w)) !! k = Some a1 ->
      WorkerAssignment.Status a1 <> WorkerAssignment.Status a0 ->
      k = assignmentID rq /\
      WorkerAssignment.Status a0 = Table.precondition op /\
      WorkerAssignment.Status a1 = Table.assignmentStatus op) /\
  (forall a',
      outcome (run (perform op env now rq) w) = Ok a' ->
      exists a b b',
        assignments w !! assignmentID rq = Some a /\
        WorkerAssignment.Status a = Table.precondition op /\
        WorkerAssignment.Status a' = Table.assignmentStatus op /\
        assignments (final (run (perform op env now rq) w)) !! assignmentID rq
        = Some a' /\
        bookings w !! WorkerAssignment.BookingID a = Some b /\
        bookings (final (run (perform op env now rq) w))
          !! WorkerAssignment.BookingID a = Some b' /\
        Booking.Status b' = Table.bookingStatus op) /\
  (forall a,
      findAssignment env w (assignmentID rq) = Some a ->
      WorkerAssignment.WorkerID a = workerID rq ->
      WorkerAssignment.Status a <> Table.precondition op ->
      run (perform op env now rq) w = (Err (ErrCannotInStatus op), mkSt w [])) /\
  (forall e,
      outcome (run (perform op env now rq) w) = Err e ->
      bookings (final (run (perform op env now rq) w)) = bookings w).
Proof.
  intros [Ka Kb]. rewrite run_perform. unfold outcome, final.
  destruct (performed op env now rq w) as [[a'|e] s] eqn:E; cbn [fst snd].
  - apply performed_Ok in E
      as (a & b & Ha & Hw & Hs & Hu & Hb & Hbu & -> & ->).
    apply findAssignment_Some in Ha as Ha'.
    apply findBooking_Some in Hb as Hb'.
    pose proof (Ka _ _ Ha') as Hid. pose proof (Kb _ _ Hb') as Hbid.
    cbn [db storeBooking storeAssignment assignments bookings].
    rewrite mutateAssignment_ID, mutateBooking_ID, Hid, Hbid.
    split; [|split].
    + intros k a0 a1 H0 H1 Hne.
      destruct (decide (k = assignmentID rq)) as [->|Hk].
      * rewrite lookup_insert_eq in H1. injection H1 as <-.
        rewrite Ha' in H0. injection H0 as <-.
        rewrite mutateAssignment_Status. auto.
      * rewrite lookup_insert_ne in H1 by congruence. congruence.
    + intros ? [= <-]. exists a, b, (mutateBooking op now b).
      rewrite !lookup_insert_eq, mutateAssignment_Status, mutateBooking_Status.
      repeat split; assumption.
    + split; [intros a0 Ha0 Hw0 Hs0; congruence | intros e He; discriminate He].
  - split; [|split].
    + intros k a0 a1 H0 H1 Hne.
      apply performed_Err in E as [[_ ->] | [-> (a & Ha & Hw & Hs & ->)]];
        cbn [db storeAssignment assignments] in H1.
      * congruence.
      * apply findAssignment_Some in Ha as Ha'. pose proof (Ka _ _ Ha') as Hid.
        rewrite mutateAssignment_ID, Hid in H1.
        destruct (decide (k = assignmentID rq)) as [->|Hk].
        -- rewrite lookup_insert_eq in H1. injection H1 as <-.
           rewrite Ha' in H0. injection H0 as <-.
           rewrite mutateAssignment_Status. auto.
        -- rewrite lookup_insert_ne in H1 by congruence. congruence.
    + intros ? [=].
    + split.
      * intros a Ha Hw Hs.
        rewrite (performed_wrong_status op env now rq w a Ha Hw Hs) in E.
        congruence.
      * intros e0 _.
        apply performed_Err in E as [[_ ->] | [_ (a & _ & _ & _ & ->)]];
          reflexivity.
Qed.

Lemma transitions_follow_table_witness :
  keyed Sample.fresh /\
  ((forall k a0 a1,
      assignments Sample.fresh !! k = Some a0 ->
      assignments (final (run (perform Accept Sample.env 1000 (Sample.request 5))
                              Sample.fresh)) !! k = Some a1 ->
      WorkerAssignment.Status a1 <> WorkerAssignment.Status a0 ->
      k = assignmentID (Sample.request 5) /\
      WorkerAssignment.Status a0 = Table.precondition Accept /\
      WorkerAssignment.Status a1 = Table.assignmentStatus Accept) /\
   (forall a',
      outcome (run (perform Accept Sample.env 1000 (Sample.request 5))
                   Sample.fresh) = Ok a' ->
      exists a b b',
        assignments Sample.fresh !! assignmentID (Sample.request 5) = Some a /\
        WorkerAssignment.Status a = Table.precondition Accept /\
        WorkerAssignment.Status a' = Table.assignmentStatus Accept /\
        assignments (final (run (perform Accept Sample.env 1000 (Sample.request 5))
                                Sample.fresh)) !! assignmentID (Sample.request 5)
        = Some a' /\
        bookings Sample.fresh !! WorkerAssignment.BookingID a = Some b /\
        bookings (final (run (perform Accept Sample.env 1000 (Sample.request 5))
                             Sample.fresh))
          !! WorkerAssignment.BookingID a = Some b' /\
        Booking.Status b' = Table.bookingStatus Accept) /\
   (forall a,
      findAssignment Sample.env Sample.fresh (assignmentID (Sample.request 5))
      = Some a ->
      WorkerAssignment.WorkerID a = workerID (Sample.request 5) ->
      WorkerAssignment.Status a <> Table.precondition Accept ->
      run (perform Accept Sample.env 1000 (Sample.request 5)) Sample.fresh
      = (Err (ErrCannotInStatus Accept), mkSt Sample.fresh [])) /\
   (forall e,
      outcome (run (perform Accept Sample.env 1000 (Sample.request 5))
                   Sample.fresh) = Err e ->
      bookings (final (run (perform Accept Sample.env 1000 (Sample.request 5))
                           Sample.fresh)) = bookings Sample.fresh)).
Proof.
  assert (K : keyed Sample.fresh) by (apply Sample_keyed; reflexivity).
  split; [exact K|].
  exact (transitions_follow_table Accept Sample.env 1000 (Sample.request 5)
           Sample.fresh K).
Defined.

Example start_on_assigned_is_refused :
  run (perform Start Sample.env 1000 (Sample.request 5)) Sample.fresh
  = (Err (ErrCannotInStatus Start), mkSt Sample.fresh []).
Proof. reflexivity. Qed.

(** ** Ownership (C3) *)

(** C3: (1) when the stored assignment belongs to another worker, each of
    the four operations and the single lookup return the unauthorized
    error, whatever the assignment's status (so the ownership check comes
    before the status check), with the database unchanged and no side
    effect; (2) a caller who owns no assignment under that identifier only
    ever sees one of the two fixed errors, not found or unauthorized. *)
Theorem non_owner_is_refused env now w id wid :
  (forall a,
      findAssignment env w id = Some a ->
      WorkerAssignment.WorkerID a <> wid ->
      (forall op rq,
          assignmentID rq = id -> workerID rq = wid ->
          run (perform op env now rq) w = (Err ErrUnauthorized, mkSt w [])) /\
      run (GetWorkerAssignment env id wid) w = (Err ErrUnauthorized, mkSt w [])) /\
  ((forall a, findAssignment env w id = Some a -> WorkerAssignment.WorkerID a <> wid) ->
   (forall op rq,
       assignmentID rq = id -> workerID rq = wid ->
       (outcome (run (perform op env now rq) w) = Err ErrNotFound \/
        outcome (run (perform op env now rq) w) = Err ErrUnauthorized) /\
       final (run (perform op env now rq) w) = w /\
       effects (run (perform op env now rq) w) = []) /\
   (outcome (run (GetWorkerAssignment env id wid) w) = Err ErrNotFound \/
    outcome (run (GetWorkerAssignment env id wid) w) = Err ErrUnauthorized) /\
   final (run (GetWorkerAssignment env id wid) w) = w /\
   effects (run (GetWorkerAssignment env id wid) w) = []).
Proof.
  split.
  - intros a Ha Hne. split.
    + intros op rq <- <-. rewrite run_perform.
      now apply performed_unauthorized with (a := a).
    + rewrite run_GetWorkerAssignment, Ha.
      now rewrite bool_decide_eq_false_2.
  - intros Hno. split.
    + intros op rq <- <-. rewrite run_perform.
      destruct (findAssignment env w (assignmentID rq)) as [a|] eqn:Ha.
      * rewrite (performed_unauthorized op env now rq w a Ha (Hno a eq_refl)).
        cbn. auto.
      * rewrite (performed_not_found op env now rq w Ha). cbn. auto.
    + rewrite run_GetWorkerAssignment.
      destruct (findAssignment env w id) as [a|] eqn:Ha.
      * rewrite bool_decide_eq_false_2 by (apply Hno; reflexivity). cbn. auto.
      * cbn. auto.
Qed.

Example stranger_cannot_start_or_read :
  run (perform Start Sample.env 1000 (Sample.request 6)) Sample.fresh
  = (Err ErrUnauthorized, mkSt Sample.fresh []) /\
  run (GetWorkerAssignment Sample.env 1 6) Sample.fresh
  = (Err ErrUnauthorized, mkSt Sample.fresh []) /\
  run (GetWorkerAssignment Sample.env 2 6) Sample.fresh
  = (Err ErrNotFound, mkSt Sample.fresh []) /\
  errorString ErrUnauthorized = "unauthorized access to assignment" /\
  errorString ErrNotFound = "assignment not found".
Proof. repeat split. Qed.

(** ** Side effects never fail the operation (C7) *)

(** C7: (1) once the lookups, the checks and the two updates have gone
    through, the operation returns the updated assignment and the database
    holds the updated assignment and booking, whichever of the chat,
    call-masking, tracking, statistics and notification calls fail; (2) the
    result and the database of a run are the same under any two
    environments that differ only in how the side effects fare. *)
Theorem side_effect_failures_not_surfaced op now rq w :
  (forall env a b,
      findAssignment env w (assignmentID rq) = Some a ->
      WorkerAssignment.WorkerID a = workerID rq ->
      WorkerAssignment.Status a = Table.precondition op ->
      assignmentUpdateErr env = false ->
      findBooking env w (WorkerAssignment.BookingID a) = Some b ->
      bookingUpdateErr env = false ->
      outcome (run (perform op env now rq) w) = Ok (mutateAssignment op now rq a) /\
      final (run (perform op env now rq) w)
      = storeBooking (mutateBooking op now b)
          (storeAssignment (mutateAssignment op now rq a) w)) /\
  (forall env env',
      sameRepositories env env' ->
      outcome (run (perform op env now rq) w)
      = outcome (run (perform op env' now rq) w) /\
      final (run (perform op env now rq) w)
      = final (run (perform op env' now rq) w)).
Proof.
  split.
  - intros env a b Ha Hw Hs Hu Hb Hbu. rewrite run_perform.
    rewrite (performed_committed op env now rq w a b Ha Hw Hs Hu Hb Hbu).
    split; reflexivity.
  - intros env env' (H1 & H2 & H3 & H4). rewrite !run_perform.
    unfold performed, findAssignment, findBooking.
    rewrite <- H1, <- H2, <- H3, <- H4.
    destruct (assignmentGetErr env); [split; reflexivity|].
    destruct (assignments w !! assignmentID rq) as [a|]; [|split; reflexivity].
    case_bool_decide; cbn [negb]; [|split; reflexivity].
    case_bool_decide; cbn [negb]; [|split; reflexivity].
    destruct (assignmentUpdateErr env); [split; reflexivity|].
    destruct (bookingGetErr env); [split; reflexivity|].
    destruct (bookings w !! WorkerAssignment.BookingID a) as [b|];
      [|split; reflexivity].
    destruct (bookingUpdateErr env); split; reflexivity.
Qed.

Example complete_with_every_side_effect_failing :
  outcome (run (perform Complete Sample.envSideEffectsFail Sample.tenFortySeven
                        (Sample.request 5))
               (Sample.inProgress (Some Sample.tenOClock) None None))
  = Ok (WorkerAssignment.completed Sample.tenFortySeven
          (Sample.assignment AssignmentStatusInProgress (Some 0) None
             (Some Sample.tenOClock))) /\
  effects (run (perform Complete Sample.envSideEffectsFail Sample.tenFortySeven
                        (Sample.request 5))
               (Sample.inProgress (Some Sample.tenOClock) None None))
  = [ Go (DisableCallMasking 7);
      Call (CloseBookingChatRoom 7 "Service completed");
      Call (StopTracking 5 1);
      Go (NotifyWorkerCompleted 7) ].
Proof. split; reflexivity. Qed.

Lemma non_owner_is_refused_witness :
  findAssignment Sample.env Sample.fresh 1
  = Some (Sample.assignment AssignmentStatusAssigned None None None) /\
  WorkerAssignment.WorkerID (Sample.assignment AssignmentStatusAssigned None None None)
  <> 6%nat /\
  run (perform Complete Sample.env 1000 (Sample.request 6)) Sample.fresh
  = (Err ErrUnauthorized, mkSt Sample.fresh []) /\
  run (GetWorkerAssignment Sample.env 1 6) Sample.fresh
  = (Err ErrUnauthorized, mkSt Sample.fresh []).
Proof.
  assert (Hf : findAssignment Sample.env Sample.fresh 1
               = Some (Sample.assignment AssignmentStatusAssigned None None None))
    by reflexivity.
  assert (Hne : WorkerAssignment.WorkerID
                  (Sample.assignment AssignmentStatusAssigned None None None)
                <> 6%nat) by (cbn; lia).
  split; [exact Hf|]. split; [exact Hne|].
  destruct (proj1 (non_owner_is_refused Sample.env 1000 Sample.fresh 1 6) _ Hf Hne)
    as [Hops Hget].
  split; [exact (Hops Complete (Sample.request 6) eq_refl eq_refl) | exact Hget].
Defined.

Lemma side_effect_failures_not_surfaced_witness :
  sameRepositories Sample.env Sample.envSideEffectsFail /\
  outcome (run (perform Accept Sample.env 1000 (Sample.request 5)) Sample.fresh)
  = outcome (run (perform Accept Sample.envSideEffectsFail 1000 (Sample.request 5))
                 Sample.fresh) /\
  final (run (perform Accept Sample.env 1000 (Sample.request 5)) Sample.fresh)
  = final (run (perform Accept Sample.envSideEffectsFail 1000 (Sample.request 5))
               Sample.fresh).
Proof.
  assert (H : sameRepositories Sample.env Sample.envSideEffectsFail)
    by (repeat split).
  split; [exact H|].
  exact (proj2 (side_effect_failures_not_surfaced Accept 1000 (Sample.request 5)
                  Sample.fresh) Sample.env Sample.envSideEffectsFail H).
Defined.

(** ** Earnings credited on completion (C4) *)

(** C4: in a successful [CompleteAssignment], every call that increments
    the worker's statistics carries the booking's quote amount if there is
    one, else the service price if there is one, else zero; and the call is
    made (once the worker row is found) with exactly that amount. *)
Theorem complete_credits_quote_or_price env now id wid notes mats photos w a' :
  outcome (run (CompleteAssignment env now id wid notes mats photos) w) = Ok a' ->
  exists b,
    bookings w !! WorkerAssignment.BookingID a' = Some b /\
    (forall workerRowID earnings,
        In (Call (IncrementCompletedJob workerRowID earnings))
           (effects (run (CompleteAssignment env now id wid notes mats photos) w)) ->
        earnings = match Booking.QuoteAmount b with
                   | Some quote => quote
                   | None => match Service.Price (Booking.Service b) with
                             | Some price => price
                             | None => 0%Q
                             end
                   end) /\
    (forall workerRowID,
        workerByUserID env (WorkerAssignment.WorkerID a') = Some workerRowID ->
        In (Call (IncrementCompletedJob workerRowID
                    match Booking.QuoteAmount b with
                    | Some quote => quote
                    | None => match Service.Price (Booking.Service b) with
                              | Some price => price
                              | None => 0%Q
                              end
                    end))
           (effects (run (CompleteAssignment env now id wid notes mats photos) w))).
Proof.
  change (CompleteAssignment env now id wid notes mats photos)
    with (perform Complete env now (mkRequest id wid notes "" mats photos)).
  rewrite run_perform. unfold outcome, effects.
  destruct (performed _ _ _ _ _) as [r s] eqn:E. cbn [fst snd]. intros ->.
  apply performed_Ok in E as (a & b & Ha & Hw & Hs & Hu & Hb & Hbu & -> & ->).
  exists b. cbn [fx mutateAssignment mutateBooking sideEffects].
  rewrite completedBooking_earnings.
  change (WorkerAssignment.BookingID (WorkerAssignment.completed now a))
    with (WorkerAssignment.BookingID a).
  change (WorkerAssignment.WorkerID (WorkerAssignment.completed now a))
    with (WorkerAssignment.WorkerID a).
  fold (earningsOf b).
  split; [eauto using findBooking_Some|]. split.
  - intros w0 e Hin.
    destruct (workerByUserID env (WorkerAssignment.WorkerID a));
      destruct (locationTrackingService env); cbn in Hin;
      repeat (destruct Hin as [Hin|Hin]; [try discriminate Hin|]);
      try contradiction; congruence.
  - intros w0 ->. right. left. reflexivity.
Qed.

Lemma complete_credits_quote_or_price_witness :
  outcome (run (CompleteAssignment Sample.env Sample.tenFortySeven 1 5 "" [] [])
               (Sample.inProgress (Some Sample.tenOClock) (Some (120 # 1)%Q)
                                  (Some (80 # 1)%Q)))
  = Ok (WorkerAssignment.completed Sample.tenFortySeven
          (Sample.assignment AssignmentStatusInProgress (Some 0) None
             (Some Sample.tenOClock))) /\
  In (Call (IncrementCompletedJob 105 (120 # 1)%Q))
     (effects (run (CompleteAssignment Sample.env Sample.tenFortySeven 1 5 "" [] [])
                   (Sample.inProgress (Some Sample.tenOClock) (Some (120 # 1)%Q)
                                      (Some (80 # 1)%Q)))).
Proof.
  split; [reflexivity|].
  destruct (complete_credits_quote_or_price Sample.env Sample.tenFortySeven 1 5 ""
              [] [] (Sample.inProgress (Some Sample.tenOClock) (Some (120 # 1)%Q)
                                       (Some (80 # 1)%Q)) _ eq_refl)
    as (b & Hb & _ & Hcall).
  cbn in Hb. rewrite lookup_singleton_eq in Hb. injection Hb as <-.
  exact (Hcall 105%nat eq_refl).
Defined.

(** The three cases of the design's example: a quote of 120 credits 120; no
    quote and a price of 80 credits 80; neither credits 0. *)
Example complete_credits_120_80_0 :
  In (Call (IncrementCompletedJob 105 (120 # 1)%Q))
     (effects (run (CompleteAssignment Sample.env Sample.tenFortySeven 1 5 "" [] [])
                   (Sample.inProgress (Some Sample.tenOClock) (Some (120 # 1)%Q)
                                      (Some (80 # 1)%Q)))) /\
  In (Call (IncrementCompletedJob 105 (80 # 1)%Q))
     (effects (run (CompleteAssignment Sample.env Sample.tenFortySeven 1 5 "" [] [])
                   (Sample.inProgress (Some Sample.tenOClock) None
                                      (Some (80 # 1)%Q)))) /\
  In (Call (IncrementCompletedJob 105 0%Q))
     (effects (run (CompleteAssignment Sample.env Sample.tenFortySeven 1 5 "" [] [])
                   (Sample.inProgress (Some Sample.tenOClock) None None))).
Proof. repeat split; right; left; reflexivity. Qed.

(** ** Duration recorded on completion (C5) *)

(** C5, as stated, does not hold: a booking without an actual start time is
    completed without any duration being computed. *)
Lemma duration_always_set_refuted : ~ DurationAlwaysSet.
Proof.
  intros H.
  destruct (H Sample.env Sample.tenFortySeven (Sample.request 5)
              (Sample.inProgress None None None) _
              (Sample.booking "in_progress" None None None) eq_refl eq_refl)
    as (b' & start & _ & Hstart & _).
  discriminate Hstart.
Qed.

(** How a booking gets there through the service itself: [StartAssignment]
    stores the assignment as in progress, its booking update fails, and the
    later [CompleteAssignment] finds no start time. *)
Example start_failure_then_complete :
  let accepted :=
    Sample.world (Sample.assignment AssignmentStatusAccepted (Some 0) None None)
                 (Sample.booking "confirmed" None None None) in
  let afterStart :=
    final (run (perform Start Sample.envBookingUpdateFails Sample.tenOClock
                        (Sample.request 5)) accepted) in
  outcome (run (perform Start Sample.envBookingUpdateFails Sample.tenOClock
                        (Sample.request 5)) accepted) = Err ErrFailedBooking /\
  (exists a', outcome (run (perform Complete Sample.env Sample.tenFortySeven
                                    (Sample.request 5)) afterStart) = Ok a') /\
  Booking.ActualDurationMinutes
    <$> bookings (final (run (perform Complete Sample.env Sample.tenFortySeven
                                      (Sample.request 5)) afterStart)) !! 7%nat
  = Some None.
Proof. cbv zeta. split; [reflexivity|]. split; [eexists; reflexivity|reflexivity]. Qed.

(** ** [int(d.Minutes())] in binary64 (C5) *)

(** *** Binary digits of a significand *)
Lemma digits2_pos_size p : digits2_pos p = Pos.size p.
Proof. induction p; cbn; congruence. Qed.

Lemma digits_bounds p :
  2 ^ (Z.pos (digits2_pos p) - 1) <= Z.pos p < 2 ^ Z.pos (digits2_pos p).
Proof.
  rewrite digits2_pos_size.
  split.
  - pose proof (Pos.size_le p) as H.
    assert (Hs : Z.pos (Pos.size p) = Z.pos (Pos.size p) - 1 + 1) by lia.
    assert (H2 : (2 ^ Z.pos (Pos.size p) <= 2 * Z.pos p)).
    { change 2 with (Z.pos 2). rewrite <- Pos2Z.inj_pow, <- Pos2Z.inj_mul.
      apply Pos2Z.pos_le_pos. exact H. }
    rewrite Hs in H2. rewrite Z.pow_add_r in H2 by lia. lia.
  - pose proof (Pos.size_gt p) as H.
    change 2 with (Z.pos 2). rewrite <- Pos2Z.inj_pow.
    apply Pos2Z.pos_lt_pos. exact H.
Qed.

Lemma digits_unique p d :
  2 ^ (d - 1) <= Z.pos p < 2 ^ d -> 0 < d -> Z.pos (digits2_pos p) = d.
Proof.
  intros [Hl Hu] Hd. pose proof (digits_bounds p) as [Bl Bu].
  destruct (Z.lt_trichotomy (Z.pos (digits2_pos p)) d) as [H | [H | H]]; [|exact H|].
  - exfalso. assert (2 ^ Z.pos (digits2_pos p) <= 2 ^ (d - 1))
      by (apply Z.pow_le_mono_r; lia). lia.
  - exfalso. assert (2 ^ d <= 2 ^ (Z.pos (digits2_pos p) - 1))
      by (apply Z.pow_le_mono_r; lia). lia.
Qed.

(** *** Shifting a significand right, one bit at a time *)
Lemma iter_pos_nat {A} (f : A -> A) p x :
  SpecFloat.iter_pos f p x = Nat.iter (Pos.to_nat p) f x.
Proof.
  revert x. induction p as [p IH | p IH |]; intros x; cbn [SpecFloat.iter_pos].
  - rewrite !IH. rewrite Pos2Nat.inj_xI.
    replace (S (2 * Pos.to_nat p))%nat with (Pos.to_nat p + (Pos.to_nat p + 1))%nat by lia.
    rewrite !Nat.iter_add. cbn. reflexivity.
  - rewrite !IH. rewrite Pos2Nat.inj_xO.
    replace (2 * Pos.to_nat p)%nat with (Pos.to_nat p + Pos.to_nat p)%nat by lia.
    rewrite Nat.iter_add. reflexivity.
  - reflexivity.
Qed.

Lemma shr_1_m rec : 0 <= shr_m rec -> shr_m (shr_1 rec) = shr_m rec / 2.
Proof.
  destruct rec as [m r s]. cbn [shr_m]. intros H.
  destruct m as [|p|p]; [reflexivity| |lia].
  destruct p as [p|p|]; cbn [shr_1 shr_m].
  - rewrite Pos2Z.inj_xI. apply Z.div_unique with (r := 1); lia.
  - rewrite Pos2Z.inj_xO. apply Z.div_unique with (r := 0); lia.
  - reflexivity.
Qed.

Lemma shr_1_r rec : 0 <= shr_m rec -> shr_r (shr_1 rec) = Z.odd (shr_m rec).
Proof.
  destruct rec as [m r s]. cbn [shr_m]. intros H.
  destruct m as [|p|p]; [reflexivity| |lia].
  destruct p as [p|p|]; reflexivity.
Qed.

Lemma iter_shr_m n rec :
  0 <= shr_m rec ->
  shr_m (Nat.iter n shr_1 rec) = shr_m rec / 2 ^ Z.of_nat n.
Proof.
  intros H. induction n as [|n IH].
  - cbn. now rewrite Z.div_1_r.
  - rewrite Nat.iter_succ, shr_1_m.
    + rewrite IH, Nat2Z.inj_succ, Z.pow_succ_r by lia.
      rewrite Z.div_div by lia. f_equal. lia.
    + rewrite IH. apply Z.div_pos; lia.
Qed.

Lemma iter_shr_r n rec :
  0 <= shr_m rec ->
  shr_r (Nat.iter (S n) shr_1 rec) = Z.odd (shr_m rec / 2 ^ Z.of_nat n).
Proof.
  intros H. rewrite Nat.iter_succ, shr_1_r.
  - now rewrite iter_shr_m.
  - rewrite iter_shr_m by assumption. apply Z.div_pos; lia.
Qed.

(** Rounding to nearest even keeps the truncated significand or adds one,
    and adds one only when the round bit is set. *)
Lemma round_ne_bounds m rec :
  shr_m rec = m ->
  let R := round_nearest_even m (loc_of_shr_record rec) in
  m <= R <= m + 1 /\ (R = m + 1 -> shr_r rec = true).
Proof.
  intros <-. destruct rec as [m r s]. cbn [shr_m shr_r].
  destruct r, s; cbn; try destruct (Z.even m); repeat split; try lia; auto.
Qed.

(** In the normal range the exponent of a number with [e] digits is [e - 53]. *)
Lemma fexp_normal e : -1074 <= e - 53 -> fexp F64.prec F64.emax e = e - 53.
Proof. intros H. unfold fexp, emin, F64.prec, F64.emax. lia. Qed.

(** The second, renormalising shift of [binary_round_aux]: a rounded
    significand of 53 bits is kept, and [2^53] becomes [2^52] one exponent up. *)
Lemma shr_fexp_renorm R e :
  2 ^ 52 <= R <= 2 ^ 53 -> -1074 <= e ->
  shr_fexp F64.prec F64.emax R e loc_Exact
  = if (R <? 2 ^ 53)%Z
    then (Build_shr_record R false false, e)
    else (Build_shr_record (2 ^ 52) false false, e + 1).
Proof.
  intros [Hl Hu] He. destruct R as [|q|q]; try lia.
  unfold shr_fexp. cbn [Zdigits2 shr_record_of_loc].
  destruct (Z.ltb_spec (Z.pos q) (2 ^ 53)) as [Hlt | Hge].
  - rewrite (digits_unique q 53) by (change (53 - 1) with 52; lia).
    rewrite fexp_normal by lia.
    replace (53 + e - 53 - e) with 0 by lia. reflexivity.
  - assert (Hq : Z.pos q = 2 ^ 53) by lia.
    rewrite (digits_unique q 54)
      by (change (54 - 1) with 53; change (2 ^ 54) with (2 * 2 ^ 53); lia).
    rewrite fexp_normal by lia.
    replace (54 + e - 53 - e) with 1 by lia.
    cbn [shr SpecFloat.iter_pos]. injection Hq as ->. reflexivity.
Qed.

(** [binary_round_aux] on a significand of at least 53 bits: it drops the
    [n] extra bits, and rounds up only if the first dropped bit is set (or,
    with nothing to drop, if the location says the value is inexact). *)
Lemma bra_spec sx p ex lx n :
  n = Z.pos (digits2_pos p) - 53 ->
  0 <= n -> -1074 <= ex + n -> ex + n + 1 <= 971 ->
  exists R,
    Z.pos p / 2 ^ n <= R <= Z.pos p / 2 ^ n + 1 /\
    2 ^ 52 <= R <= 2 ^ 53 /\
    (R = Z.pos p / 2 ^ n + 1 ->
     (n = 0 /\ lx <> loc_Exact) \/
     (0 < n /\ Z.odd (Z.pos p / 2 ^ (n - 1)) = true)) /\
    binary_round_aux F64.prec F64.emax sx (Z.pos p) ex lx
    = if (R <? 2 ^ 53)%Z
      then S754_finite sx (Z.to_pos R) (ex + n)
      else S754_finite sx (Z.to_pos (2 ^ 52)) (ex + n + 1).
Proof.
  intros Hnd Hn Hlo Hhi.
  pose proof (digits_bounds p) as [Bl Bu].
  set (d := Z.pos (digits2_pos p)) in *.
  assert (Hd : d = n + 53) by lia.
  assert (Hc : 2 ^ 52 <= Z.pos p / 2 ^ n < 2 ^ 53).
  { rewrite Hd in Bl, Bu.
    replace (n + 53 - 1) with (52 + n) in Bl by lia.
    replace (n + 53) with (53 + n) in Bu by lia.
    rewrite Z.pow_add_r in Bl, Bu by lia.
    assert (0 < 2 ^ n) by (apply Z.pow_pos_nonneg; lia).
    split.
    - apply Z.div_le_lower_bound; lia.
    - apply Z.div_lt_upper_bound; lia. }
  assert (Hfirst : exists rec',
             shr_fexp F64.prec F64.emax (Z.pos p) ex lx = (rec', ex + n) /\
             shr_m rec' = Z.pos p / 2 ^ n /\
             (shr_r rec' = true ->
              (n = 0 /\ lx <> loc_Exact) \/
              (0 < n /\ Z.odd (Z.pos p / 2 ^ (n - 1)) = true))).
  { unfold shr_fexp. cbn [Zdigits2]. fold d.
    rewrite fexp_normal by lia.
    replace (d + ex - 53 - ex) with n by lia.
    clear Hnd.
    destruct n as [|pn|pn] eqn:En; [| |lia].
    - exists (shr_record_of_loc (Z.pos p) lx). cbn [shr].
      split; [f_equal; lia|]. split.
      + destruct lx as [|[]]; cbn [shr_record_of_loc shr_m]; now rewrite Z.div_1_r.
      + intros Hr. left. split; [reflexivity|]. destruct lx as [|[]]; cbn in Hr;
          try discriminate; discriminate.
    - exists (SpecFloat.iter_pos shr_1 pn (shr_record_of_loc (Z.pos p) lx)). cbn [shr].
      split; [reflexivity|].
      assert (Hm0 : shr_m (shr_record_of_loc (Z.pos p) lx) = Z.pos p)
        by (destruct lx as [|[]]; reflexivity).
      rewrite iter_pos_nat. split.
      + rewrite iter_shr_m by (rewrite Hm0; lia).
        rewrite Hm0, positive_nat_Z. reflexivity.
      + intros Hr. right. split; [lia|].
        destruct (Pos.to_nat pn) as [|k] eqn:Ek; [lia|].
        rewrite iter_shr_r in Hr by (rewrite Hm0; lia).
        rewrite Hm0 in Hr.
        replace (Z.pos pn - 1) with (Z.of_nat k) by lia. exact Hr. }
  destruct Hfirst as (rec' & Hshr & Hm' & Hr').
  pose proof (round_ne_bounds (Z.pos p / 2 ^ n) rec' Hm') as [HR Hup].
  cbv zeta in HR, Hup.
  set (R := round_nearest_even (Z.pos p / 2 ^ n) (loc_of_shr_record rec')) in *.
  exists R. split; [exact HR|]. split; [lia|]. split; [auto|].
  unfold binary_round_aux. rewrite Hshr, Hm'. fold R.
  rewrite shr_fexp_renorm by lia.
  destruct (Z.ltb_spec R (2 ^ 53)) as [Hlt | Hge]; cbn [shr_m].
  - assert (Hle : (ex + n <=? F64.emax - F64.prec)%Z = true)
      by (apply Z.leb_le; unfold F64.emax, F64.prec; lia).
    destruct R as [|q|q] eqn:ER; try lia.
    rewrite Hle. reflexivity.
  - assert (Hle : (ex + n + 1 <=? F64.emax - F64.prec)%Z = true)
      by (apply Z.leb_le; unfold F64.emax, F64.prec; lia).
    change (2 ^ 52) with (Z.pos (Z.to_pos (2 ^ 52))). rewrite Hle. reflexivity.
Qed.

Lemma iter_xO p d : Z.pos (Pos.iter xO p d) = Z.pos p * 2 ^ Z.pos d.
Proof.
  induction d as [|d IH] using Pos.peano_ind.
  - cbn [Pos.iter]. rewrite Pos2Z.inj_xO. change (2 ^ 1) with 2. lia.
  - rewrite Pos.iter_succ, Pos2Z.inj_xO, IH, Pos2Z.inj_succ, Z.pow_succ_r by lia. lia.
Qed.

Lemma pow2_split a b : 0 <= a -> 0 <= b -> 2 ^ a * 2 ^ b = 2 ^ (a + b).
Proof. intros. now rewrite Z.pow_add_r. Qed.

Lemma pow2_pos a : 0 <= a -> 0 < 2 ^ a.
Proof. intros. now apply Z.pow_pos_nonneg. Qed.

(** A significand of exactly 53 bits is kept as it is. *)
Lemma bra_exact s p e :
  Z.pos (digits2_pos p) = 53 -> -1074 <= e -> e + 1 <= 971 ->
  binary_round_aux F64.prec F64.emax s (Z.pos p) e loc_Exact = S754_finite s p e.
Proof.
  intros Hd Hlo Hhi.
  pose proof (digits_bounds p) as [Bl Bu]. rewrite Hd in Bl, Bu.
  destruct (bra_spec s p e loc_Exact 0) as (R & HR & HRb & Hup & ->); try lia.
  change (2 ^ 0) with 1 in *. rewrite Z.div_1_r in *.
  assert (HRp : R = Z.pos p).
  { destruct (Z.eq_dec R (Z.pos p + 1)) as [E|E]; [|lia].
    destruct (Hup E) as [[_ H]|[H _]]; [now elim H|lia]. }
  subst R.
  destruct (Z.ltb_spec (Z.pos p) (2 ^ 53)); [|lia].
  cbn [Z.to_pos]. f_equal. lia.
Qed.

(** [float64(z)] for an integer of [k <= 53] bits is exact: the significand
    is [z] shifted to 53 bits. *)
Lemma ofInt_spec s z k :
  2 ^ (k - 1) <= z < 2 ^ k -> 0 < k <= 53 ->
  exists m, F64.ofInt (cond_Zopp s z) = S754_finite s m (k - 53) /\
            Z.pos m = z * 2 ^ (53 - k).
Proof.
  intros [Hl Hu] Hk.
  pose proof (pow2_pos (k - 1)).
  destruct z as [|p|p]; try lia.
  assert (Hd : Z.pos (digits2_pos p) = k) by (apply digits_unique; lia).
  assert (Hof : F64.ofInt (cond_Zopp s (Z.pos p))
                = binary_round F64.prec F64.emax s p 0) by (destruct s; reflexivity).
  rewrite Hof. unfold binary_round. rewrite Hd, fexp_normal by lia.
  unfold shl_align. replace (k + 0 - 53 - 0) with (k - 53) by lia.
  replace (k + 0 - 53) with (k - 53) by lia.
  destruct (k - 53) as [|q|q] eqn:Ek; try lia.
  - exists p. split.
    + apply bra_exact; lia.
    + replace (53 - k) with 0 by lia. change (2 ^ 0) with 1. lia.
  - pose proof (iter_xO p q) as Hm.
    set (mz := Pos.iter xO p q) in *.
    replace (Z.pos q) with (53 - k) in Hm by lia.
    pose proof (pow2_pos (53 - k)).
    pose proof (pow2_split (k - 1) (53 - k)) as E1.
    pose proof (pow2_split k (53 - k)) as E2.
    replace (k - 1 + (53 - k)) with 52 in E1 by lia.
    replace (k + (53 - k)) with 53 in E2 by lia.
    exists mz. split; [|exact Hm].
    apply bra_exact; try lia.
    apply digits_unique; [|lia]. rewrite Hm.
    change (53 - 1) with 52. rewrite <- E1, <- E2 by lia.
    split.
    + apply Z.mul_le_mono_nonneg_r; lia.
    + apply Z.mul_lt_mono_pos_r; lia.
Qed.

Lemma ofInt_Minute : F64.ofInt Minute = S754_finite false F64.minuteM (-17).
Proof. vm_compute. reflexivity. Qed.

Lemma pow2_le_inv a b : 0 <= a -> 0 <= b -> 2 ^ a < 2 ^ b -> a < b.
Proof. intros Ha Hb H. apply (Z.pow_lt_mono_r_iff 2); lia. Qed.

(** [float64(nsec)/(60*1e9)] for [0 < nsec < Minute]: a normal float below
    [1 - 2^-36]. *)
Lemma div_spec s mx k z :
  0 < k -> 2 ^ (k - 1) <= z < 2 ^ k -> z < Minute ->
  Z.pos mx = z * 2 ^ (53 - k) ->
  exists mq F,
    SFdiv F64.prec F64.emax (S754_finite s mx (k - 53)) (F64.ofInt Minute)
    = S754_finite s mq (- F) /\
    2 ^ 52 <= Z.pos mq < 2 ^ 53 /\
    Z.pos mq < 2 ^ F - 2 ^ (F - 36) /\ 53 <= F <= 100.
Proof.
  intros Hk [Hl Hu] HzM Hmx.
  assert (Hk36 : k <= 36).
  { assert (k - 1 < 36); [|lia]. apply pow2_le_inv; try lia.
    unfold Minute in HzM. lia. }
  pose proof (pow2_pos (53 - k)).
  pose proof (pow2_split (k - 1) (53 - k)) as E1.
  pose proof (pow2_split k (53 - k)) as E2.
  replace (k - 1 + (53 - k)) with 52 in E1 by lia.
  replace (k + (53 - k)) with 53 in E2 by lia.
  assert (Bmx : 2 ^ 52 <= Z.pos mx < 2 ^ 53).
  { rewrite Hmx, <- E1, <- E2 by lia. split.
    - apply Z.mul_le_mono_nonneg_r; lia.
    - apply Z.mul_lt_mono_pos_r; lia. }
  assert (Hdx : Z.pos (digits2_pos mx) = 53) by (apply digits_unique; [exact Bmx|lia]).
  rewrite ofInt_Minute. unfold SFdiv. rewrite xorb_false_r.
  unfold SFdiv_core_binary. cbn [Zdigits2]. rewrite Hdx.
  change (Z.pos (digits2_pos F64.minuteM)) with 53.
  cbv zeta.
  assert (He' : IntDef.Z.min (fexp F64.prec F64.emax (53 + (k - 53) - (53 + -17)))
                   (k - 53 - -17) = k - 89).
  { rewrite fexp_normal by lia. change IntDef.Z.min with Z.min. lia. }
  rewrite He'. replace (k - 53 - -17 - (k - 89)) with 53 by lia.
  cbv beta iota.
  rewrite Z.shiftl_mul_pow2 by lia.
  pose proof (Z_div_mod (Z.pos mx * 2 ^ 53) (Z.pos F64.minuteM) eq_refl) as Hdm.
  change IntDef.Z.div_eucl with Z.div_eucl.
  destruct (Z.div_eucl (Z.pos mx * 2 ^ 53) (Z.pos F64.minuteM)) as [q r].
  destruct Hdm as [Hq Hr].
  assert (HY : Z.pos F64.minuteM = 60000000000 * 2 ^ 17) by reflexivity.
  set (T := 2 ^ (51 - k)) in *.
  assert (HT : 2 ^ 15 <= T) by (apply Z.pow_le_mono_r; lia).
  assert (HT53 : 2 ^ (53 - k) = 4 * T).
  { replace (53 - k) with (2 + (51 - k)) by lia. now rewrite Z.pow_add_r by lia. }
  assert (Hmx' : Z.pos mx <= 59999999999 * (4 * T)).
  { rewrite Hmx, HT53. apply Z.mul_le_mono_nonneg_r; unfold Minute in HzM; lia. }
  assert (P : forall c, 0 <= c -> 2 ^ (c + (51 - k)) = 2 ^ c * T)
    by (intros; now rewrite Z.pow_add_r by lia).
  assert (Hfin : forall R G,
             2 ^ 52 <= R -> R < 2 ^ G - 2 ^ (G - 36) -> 36 <= G <= 100 ->
             exists (mq : positive) (F : Z),
               (if (R <? 2 ^ 53)%Z
                then S754_finite s (Z.to_pos R) (- G)
                else S754_finite s (Z.to_pos (2 ^ 52)) (- G + 1))
               = S754_finite s mq (- F) /\
               2 ^ 52 <= Z.pos mq < 2 ^ 53 /\
               Z.pos mq < 2 ^ F - 2 ^ (F - 36) /\ 53 <= F <= 100).
  { intros R G HR1 HR2 HG.
    pose proof (pow2_pos (G - 36)).
    assert (HG52 : 52 < G) by (apply pow2_le_inv; lia).
    destruct (Z.ltb_spec R (2 ^ 53)) as [Hlt|Hge].
    - exists (Z.to_pos R), G. rewrite Z2Pos.id by lia. repeat split; lia.
    - exists (Z.to_pos (2 ^ 52)), (G - 1).
      assert (E3 : 2 ^ G = 2 * 2 ^ (G - 1)).
      { replace G with (1 + (G - 1)) at 1 by lia. now rewrite Z.pow_add_r by lia. }
      assert (E4 : 2 ^ (G - 36) = 2 * 2 ^ (G - 1 - 36)).
      { replace (G - 36) with (1 + (G - 1 - 36)) at 1 by lia.
        now rewrite Z.pow_add_r by lia. }
      assert (HG53 : 52 < G - 1) by (apply pow2_le_inv; lia).
      split; [f_equal; lia|]. rewrite Z2Pos.id by lia. repeat split; lia. }
  destruct q as [|pq|pq]; try lia.
  destruct (Z.ltb_spec (Z.pos pq) (2 ^ 53)) as [Hq53|Hq53].
  - assert (Hd : Z.pos (digits2_pos pq) = 53) by (apply digits_unique; lia).
    destruct (bra_spec s pq (k - 89) (new_location (Z.pos F64.minuteM) r) 0)
      as (R & HR & HRb & _ & ->); try lia.
    change (2 ^ 0) with 1 in HR. rewrite Z.div_1_r in HR.
    pose proof (P 38 ltac:(lia)) as P38. pose proof (P 2 ltac:(lia)) as P2.
    replace (k - 89 + 0) with (- (89 - k)) by lia.
    replace (k - 89 + 0 + 1) with (- (89 - k) + 1) by lia.
    apply Hfin; try lia.
    replace (89 - k) with (38 + (51 - k)) by lia.
    replace (38 + (51 - k) - 36) with (2 + (51 - k)) by lia.
    rewrite P38, P2. lia.
  - assert (Hd : Z.pos (digits2_pos pq) = 54) by (apply digits_unique; lia).
    destruct (bra_spec s pq (k - 89) (new_location (Z.pos F64.minuteM) r) 1)
      as (R & HR & HRb & _ & ->); try lia.
    change (2 ^ 1) with 2 in HR.
    pose proof (P 37 ltac:(lia)) as P37. pose proof (P 1 ltac:(lia)) as P1.
    replace (k - 89 + 1) with (- (88 - k)) by lia.
    replace (k - 89 + 1 + 1) with (- (88 - k) + 1) by lia.
    apply Hfin; try lia.
    replace (88 - k) with (37 + (51 - k)) by lia.
    replace (37 + (51 - k) - 36) with (1 + (51 - k)) by lia.
    rewrite P37, P1.
    assert (H2R : 2 * R <= Z.pos pq + 2).
    { pose proof (Z.mul_div_le (Z.pos pq) 2 eq_refl) as Hh. clear - HR Hh. lia. }
    assert (Hq6 : Z.pos pq * 60000000000 <= 59999999999 * T * 2 ^ 38) by lia.
    clear - H2R Hq6 HT. lia.
Qed.

Lemma cond_Zopp_add s a b : cond_Zopp s a + cond_Zopp s b = cond_Zopp s (a + b).
Proof. destruct s; cbn; lia. Qed.

(** [float64(min) + q] for [0 < min < 2^18] and a float [q < 1 - 2^-36] of
    the same sign: the sum does not reach the next minute, so its integer
    part is [min]. *)
Lemma add_spec s mx j z mq F :
  0 < j <= 18 -> 2 ^ (j - 1) <= z < 2 ^ j ->
  Z.pos mx = z * 2 ^ (53 - j) ->
  2 ^ 52 <= Z.pos mq < 2 ^ 53 -> Z.pos mq < 2 ^ F - 2 ^ (F - 36) -> 53 <= F <= 100 ->
  F64.toInt (SFadd F64.prec F64.emax (S754_finite s mx (j - 53)) (S754_finite s mq (- F)))
  = cond_Zopp s z.
Proof.
  intros Hj [Hzl Hzu] Hmx Hmq Hmq' HF.
  unfold SFadd. cbv zeta.
  change IntDef.Z.min with Z.min.
  replace (Z.min (j - 53) (- F)) with (- F) by lia.
  unfold shl_align. rewrite Z.sub_diag.
  destruct (- F - (j - 53)) as [|d|d] eqn:Ed; try lia.
  cbn [fst]. rewrite cond_Zopp_add.
  set (n := j + F - 53).
  set (U := 2 ^ (53 - j)) in *. set (V' := 2 ^ (n - 1)). set (V := 2 ^ n).
  set (W := 2 ^ F) in *. set (D := 2 ^ (F - 36)) in *.
  assert (HU : 0 < U) by (apply pow2_pos; lia).
  assert (HV' : 0 < V') by (apply pow2_pos; lia).
  assert (HV : V = 2 * V').
  { unfold V, V'. replace n with (1 + (n - 1)) at 1 by lia.
    now rewrite Z.pow_add_r by lia. }
  assert (HW : W = U * V) by (unfold W, U, V; rewrite pow2_split by lia; f_equal; lia).
  assert (HD : V' <= D) by (apply Z.pow_le_mono_r; lia).
  assert (HjW : 2 ^ (j + F) = 2 ^ j * W) by (unfold W; now rewrite Z.pow_add_r by lia).
  assert (HjW' : 2 ^ (j + F - 1) = 2 ^ (j - 1) * W).
  { unfold W. rewrite pow2_split by lia. f_equal. lia. }
  assert (HjU : 2 ^ j * U = 2 ^ 53) by (unfold U; rewrite pow2_split by lia; f_equal; lia).
  assert (HM : Z.pos (Pos.iter xO mx d) + Z.pos mq = z * W + Z.pos mq).
  { rewrite iter_xO, Hmx, <- Z.mul_assoc. f_equal. f_equal. fold U.
    replace (Z.pos d) with n by lia. fold V. lia. }
  change (Z.pos (Pos.iter xO mx d) + Z.pos mq)
    with (Z.pos (Pos.iter xO mx d + mq)) in *.
  set (Mp := (Pos.iter xO mx d + mq)%positive) in *.
  assert (HzW : 2 ^ (j - 1) * W <= z * W) by (apply Z.mul_le_mono_nonneg_r; lia).
  assert (HzW' : (z + 1) * W <= 2 ^ j * W) by (apply Z.mul_le_mono_nonneg_r; lia).
  assert (HMd : Z.pos (digits2_pos Mp) = j + F).
  { apply digits_unique; [|lia]. rewrite HjW, HjW'. lia. }
  assert (Hbn : binary_normalize F64.prec F64.emax (cond_Zopp s (Z.pos Mp)) (- F) false
                = binary_round F64.prec F64.emax s Mp (- F)) by (destruct s; reflexivity).
  rewrite Hbn. unfold binary_round. rewrite HMd, fexp_normal by lia.
  unfold shl_align.
  destruct (j + F + - F - 53 - - F) as [|e|e] eqn:Ee; try lia.
  destruct (bra_spec s Mp (- F) loc_Exact n) as (R & HR & HRb & Hup & ->); try lia.
  fold V in HR. replace (2 ^ (n - 1)) with V' in Hup by reflexivity.
  set (c := Z.pos Mp / V) in *.
  assert (Hc1 : c * V <= Z.pos Mp) by (rewrite Z.mul_comm; apply Z.mul_div_le; lia).
  assert (HA : z * U <= c).
  { apply Z.div_le_lower_bound; [lia|]. rewrite HM.
    replace (V * (z * U)) with (z * W) by (rewrite HW; ring). lia. }
  assert (HB : c < (z + 1) * U).
  { apply Z.div_lt_upper_bound; [lia|]. rewrite HM.
    replace (V * ((z + 1) * U)) with (z * W + W) by (rewrite HW; ring). lia. }
  assert (HC : R < (z + 1) * U).
  { destruct (Z.eq_dec R (c + 1)) as [E|E]; [|lia].
    destruct (Z.eq_dec (c + 1) ((z + 1) * U)) as [E'|E']; [|lia].
    exfalso. destruct (Hup E) as [[H0 _]|[_ Hodd]]; [unfold n in H0; lia|].
    set (x := Z.pos Mp / V') in *.
    assert (Hx1 : x * V' <= Z.pos Mp) by (rewrite Z.mul_comm; apply Z.mul_div_le; lia).
    assert (Hx2 : x / 2 = c).
    { unfold x, c. rewrite Z.div_div by lia. now rewrite HV, (Z.mul_comm 2). }
    assert (Hx3 : x = 2 * c + 1).
    { rewrite (Z.div_mod x 2) by lia. rewrite Hx2. f_equal.
      rewrite Zmod_odd, Hodd. reflexivity. }
    assert (Hx4 : x * V' = (z + 1) * W - V').
    { rewrite Hx3. replace ((2 * c + 1) * V') with ((c + 1) * V - V') by (rewrite HV; ring).
      rewrite E', HW, HV. ring. }
    lia. }
  assert (HR53 : R < 2 ^ 53).
  { rewrite <- HjU. apply Z.lt_le_trans with (1 := HC).
    apply Z.mul_le_mono_nonneg_r; lia. }
  destruct (Z.ltb_spec R (2 ^ 53)); [|lia].
  unfold F64.toInt.
  destruct (Z.leb_spec 0 (- F + n)); [unfold n in *; lia|].
  rewrite Z2Pos.id by lia.
  replace (- (- F + n)) with (53 - j) by (unfold n; lia). fold U.
  assert (Hq : R / U = z).
  { symmetry. apply Z.div_unique with (r := R - U * z); lia. }
  rewrite Hq. destruct s; reflexivity.
Qed.

Lemma digits_exist z : 0 < z -> exists k, 0 < k /\ 2 ^ (k - 1) <= z < 2 ^ k.
Proof.
  intros Hz. destruct z as [|p|p]; try lia.
  exists (Z.pos (digits2_pos p)). split; [lia|apply digits_bounds].
Qed.

Lemma toInt_fraction s mq F :
  Z.pos mq < 2 ^ F -> 0 < F -> F64.toInt (S754_finite s mq (- F)) = 0.
Proof.
  intros Hm HF. unfold F64.toInt.
  destruct (Z.leb_spec 0 (- F)); [lia|].
  rewrite Z.opp_involutive, Z.div_small by lia. now destruct s.
Qed.

Lemma toInt_integer s mx j z :
  0 < j < 53 -> Z.pos mx = z * 2 ^ (53 - j) ->
  F64.toInt (S754_finite s mx (j - 53)) = cond_Zopp s z.
Proof.
  intros Hj Hmx. unfold F64.toInt.
  destruct (Z.leb_spec 0 (j - 53)); [lia|].
  replace (- (j - 53)) with (53 - j) by lia.
  rewrite Hmx, Z.div_mul by (pose proof (pow2_pos (53 - j)); lia).
  now destruct s.
Qed.

(** Less than [2^18] minutes away from zero, [int(d.Minutes())] is the exact
    quotient of [d] by [Minute], truncated toward zero. *)
Lemma intMinutes_exact d :
  Z.abs d < 2 ^ 18 * Minute -> intMinutes d = Z.quot d Minute.
Proof.
  intros Hd.
  set (s := (d <? 0)%Z). set (a := Z.abs d).
  assert (Hda : d = cond_Zopp s a).
  { unfold s, a. destruct (Z.ltb_spec d 0); cbn [cond_Zopp]; lia. }
  assert (Ha : 0 <= a) by (unfold a; lia).
  assert (HMin : 0 < Minute) by reflexivity.
  assert (Hquot : Z.quot d Minute = cond_Zopp s (a / Minute)).
  { rewrite Hda. destruct s; cbn [cond_Zopp].
    - rewrite Z.quot_opp_l, Z.quot_div_nonneg by lia. reflexivity.
    - apply Z.quot_div_nonneg; lia. }
  assert (Hrem : Z.rem d Minute = cond_Zopp s (a mod Minute)).
  { rewrite Hda. destruct s; cbn [cond_Zopp].
    - rewrite Z.rem_opp_l, Z.rem_mod_nonneg by lia. reflexivity.
    - apply Z.rem_mod_nonneg; lia. }
  unfold intMinutes, F64.Minutes. cbv zeta. rewrite Hquot, Hrem.
  pose proof (Z.mod_pos_bound a Minute HMin) as Hr.
  assert (Hq : 0 <= a / Minute < 2 ^ 18).
  { split; [apply Z.div_pos; lia|apply Z.div_lt_upper_bound; fold a in Hd; lia]. }
  set (q := a / Minute) in *. set (r := a mod Minute) in *.
  assert (Hzero : forall b, F64.ofInt (cond_Zopp b 0) = S754_zero false)
    by (now intros []).
  destruct (Z.eq_dec r 0) as [Hr0|Hr0].
  - rewrite Hr0, Hzero, ofInt_Minute. cbn [SFdiv xorb].
    destruct (Z.eq_dec q 0) as [Hq0|Hq0].
    + rewrite Hq0, Hzero. now destruct s.
    + destruct (digits_exist q) as (j & Hj & Hjb); [lia|].
      assert (Hj18 : j - 1 < 18) by (apply pow2_le_inv; lia).
      destruct (ofInt_spec s q j Hjb) as (mx & -> & Hmx); [lia|].
      cbn [SFadd]. apply toInt_integer with (j := j); [lia|exact Hmx].
  - destruct (digits_exist r) as (k & Hk & Hkb); [lia|].
    assert (Hk36 : k - 1 < 36).
    { apply pow2_le_inv; try lia. unfold Minute in Hr. lia. }
    destruct (ofInt_spec s r k Hkb) as (mr & -> & Hmr); [lia|].
    destruct (div_spec s mr k r Hk Hkb) as (mq & F & -> & Hmq & Hmq' & HF);
      [lia|exact Hmr|].
    destruct (Z.eq_dec q 0) as [Hq0|Hq0].
    + rewrite Hq0, Hzero. cbn [SFadd].
      rewrite toInt_fraction; [now destruct s| |lia].
      pose proof (pow2_pos (F - 36)). lia.
    + destruct (digits_exist q) as (j & Hj & Hjb); [lia|].
      assert (Hj18 : j - 1 < 18) by (apply pow2_le_inv; lia).
      destruct (ofInt_spec s q j Hjb) as (mx & -> & Hmx); [lia|].
      apply add_spec; try assumption; lia.
Qed.

Lemma intMinutes_floor (d : Duration) :
  0 <= d < 2 ^ 18 * Minute -> intMinutes d = d / Minute.
Proof.
  intros H. rewrite intMinutes_exact by lia.
  apply Z.quot_div_nonneg; [lia|reflexivity].
Qed.

Lemma Sub_exact (t u : Time) :
  minDuration <= t - u <= maxDuration -> Sub t u = t - u.
Proof. unfold Sub. lia. Qed.

(** C5, amended: a successful [CompleteAssignment] marks the booking
    completed with the completion time as its end time.  If the booking has
    an actual start time less than 2^18 minutes away from the completion
    time, the duration stored is their difference in minutes with the
    fraction dropped, which is the floor of the minutes between them when
    the start is not after the completion.  If the booking has no actual
    start time, the stored duration is left as it was. *)
Theorem complete_records_duration env now id wid notes mats photos w a' :
  keyed w ->
  outcome (run (CompleteAssignment env now id wid notes mats photos) w) = Ok a' ->
  exists b b',
    bookings w !! WorkerAssignment.BookingID a' = Some b /\
    bookings (final (run (CompleteAssignment env now id wid notes mats photos) w))
      !! WorkerAssignment.BookingID a' = Some b' /\
    Booking.Status b' = BookingStatusCompleted /\
    Booking.ActualEndTime b' = Some now /\
    (Booking.ActualStartTime b = None ->
     Booking.ActualDurationMinutes b' = Booking.ActualDurationMinutes b) /\
    (forall start,
        Booking.ActualStartTime b = Some start ->
        Z.abs (now - start) < 2 ^ 18 * Minute ->
        Booking.ActualDurationMinutes b' = Some (Z.quot (now - start) Minute) /\
        (start <= now ->
         Booking.ActualDurationMinutes b' = Some ((now - start) / Minute))).
Proof.
  intros [Ka Kb].
  change (CompleteAssignment env now id wid notes mats photos)
    with (perform Complete env now (mkRequest id wid notes "" mats photos)).
  rewrite run_perform. unfold outcome, final.
  destruct (performed _ _ _ _ _) as [r s] eqn:E. cbn [fst snd]. intros ->.
  apply performed_Ok in E as (a & b & Ha & Hw & Hs & Hu & Hb & Hbu & -> & ->).
  apply findBooking_Some in Hb. pose proof (Kb _ _ Hb) as Hid.
  exists b, (completedBooking now b).
  cbn [db storeBooking storeAssignment bookings mutateAssignment mutateBooking].
  change (WorkerAssignment.BookingID (WorkerAssignment.completed now a))
    with (WorkerAssignment.BookingID a).
  rewrite completedBooking_ID, Hid, lookup_insert_eq.
  split; [assumption|]. split; [reflexivity|].
  split; [apply completedBooking_Status|].
  unfold completedBooking. cbn [Booking.ActualStartTime Booking.withActualEndTime
                                  Booking.withStatus].
  destruct (Booking.ActualStartTime b) as [start|].
  - split; [reflexivity|]. split; [discriminate|].
    intros ? [= <-] Hrange. cbn [Booking.ActualDurationMinutes
                                   Booking.withActualDurationMinutes].
    assert (Hsub : Sub now start = now - start).
    { apply Sub_exact. unfold minDuration, maxDuration, Minute in *. lia. }
    rewrite Hsub. split; [f_equal; apply intMinutes_exact; exact Hrange|].
    intros Hle. f_equal. apply intMinutes_floor. lia.
  - split; [reflexivity|]. split; [reflexivity|]. intros ? [=].
Qed.

Lemma complete_records_duration_witness :
  keyed (Sample.inProgress (Some Sample.tenOClock) None None) /\
  outcome (run (CompleteAssignment Sample.env Sample.tenFortySeven 1 5 "" [] [])
               (Sample.inProgress (Some Sample.tenOClock) None None))
  = Ok (WorkerAssignment.completed Sample.tenFortySeven
          (Sample.assignment AssignmentStatusInProgress (Some 0) None
             (Some Sample.tenOClock))) /\
  exists b',
    bookings (final (run (CompleteAssignment Sample.env Sample.tenFortySeven 1 5 ""
                                             [] [])
                         (Sample.inProgress (Some Sample.tenOClock) None None)))
      !! 7%nat = Some b' /\
    Booking.ActualDurationMinutes b' = Some 47.
Proof.
  assert (K : keyed (Sample.inProgress (Some Sample.tenOClock) None None))
    by (apply Sample_keyed; reflexivity).
  split; [exact K|]. split; [reflexivity|].
  destruct (complete_records_duration Sample.env Sample.tenFortySeven 1 5 "" [] []
              (Sample.inProgress (Some Sample.tenOClock) None None) _ K eq_refl)
    as (b & b' & Hb & Hb' & _ & _ & _ & Hdur).
  cbn in Hb. rewrite lookup_singleton_eq in Hb. injection Hb as <-.
  assert (Hnear : Z.abs (Sample.tenFortySeven - Sample.tenOClock) < 2 ^ 18 * Minute)
    by (vm_compute; reflexivity).
  assert (Hle : Sample.tenOClock <= Sample.tenFortySeven)
    by (vm_compute; discriminate).
  destruct (Hdur Sample.tenOClock eq_refl Hnear) as [_ Hfloor].
  exists b'. split; [exact Hb'|]. rewrite (Hfloor Hle). reflexivity.
Defined.

(** The 47 minutes of the spec's example; a negative duration loses its
    fraction toward zero (where the floor is -1); and from 2^18 minutes on
    the sum [float64(min) + float64(nsec)/(60*1e9)] can round up to the
    next minute, where the exact quotient does not. *)
Example binary64_minutes :
  intMinutes (Sub Sample.tenFortySeven Sample.tenOClock) = 47 /\
  intMinutes (- 30000000000) = 0 /\
  (- 30000000000) / Minute = -1 /\
  intMinutes ((2 ^ 18 - 1) * Minute + 59999999999) = 2 ^ 18 - 1 /\
  intMinutes (2 ^ 18 * Minute + 59999999999) = 2 ^ 18 + 1 /\
  Z.quot (2 ^ 18 * Minute + 59999999999) Minute = 2 ^ 18.
Proof. vm_compute. repeat split. Qed.

(** ** The privacy projection (C6) *)

(** C6: the projection is a function of everything but the owner's phone:
    (1) replacing the phone of the booking's user by any two values gives
    the same response; (2) two assignments that agree once that phone is
    blanked have the same response; (3) the response's subscription and
    notification settings are always the [nil] placeholders. *)
Theorem projection_ignores_owner_phone :
  (forall a p q,
      convertToPrivacyProtectedResponse (withOwnerPhone p a)
      = convertToPrivacyProtectedResponse (withOwnerPhone q a)) /\
  (forall a1 a2,
      withOwnerPhone "" a1 = withOwnerPhone "" a2 ->
      convertToPrivacyProtectedResponse a1 = convertToPrivacyProtectedResponse a2) /\
  (forall a,
      WorkerAssignmentUserResponse.Subscription
        (WorkerAssignmentBookingResponse.User
           (WorkerAssignmentResponse.Booking (convertToPrivacyProtectedResponse a)))
      = None /\
      WorkerAssignmentUserResponse.NotificationSettings
        (WorkerAssignmentBookingResponse.User
           (WorkerAssignmentResponse.Booking (convertToPrivacyProtectedResponse a)))
      = None).
Proof.
  assert (E : forall a p,
             convertToPrivacyProtectedResponse (withOwnerPhone p a)
             = convertToPrivacyProtectedResponse a) by (intros a p; reflexivity).
  split; [|split].
  - intros a p q. now rewrite !E.
  - intros a1 a2 H. rewrite <- (E a1 ""), <- (E a2 ""). now rewrite H.
  - intros a. split; reflexivity.
Qed.

Lemma projection_ignores_owner_phone_witness :
  withOwnerPhone "" (Sample.assignment AssignmentStatusAssigned None None None)
  = withOwnerPhone ""
      (withOwnerPhone "+919999999999"
         (Sample.assignment AssignmentStatusAssigned None None None)) /\
  User.Phone (Booking.User (WorkerAssignment.Booking
     (Sample.assignment AssignmentStatusAssigned None None None)))
  <> User.Phone (Booking.User (WorkerAssignment.Booking
       (withOwnerPhone "+919999999999"
          (Sample.assignment AssignmentStatusAssigned None None None)))) /\
  convertToPrivacyProtectedResponse
    (Sample.assignment AssignmentStatusAssigned None None None)
  = convertToPrivacyProtectedResponse
      (withOwnerPhone "+919999999999"
         (Sample.assignment AssignmentStatusAssigned None None None)).
Proof.
  split; [reflexivity|]. split; [discriminate|].
  apply (proj1 (proj2 projection_ignores_owner_phone)). reflexivity.
Defined.

(** ** Single lookup against list (C10) *)

(** C10: (1) what [GetWorkerAssignment] returns is the stored row itself;
    (2) it returns it whenever the row is found and belongs to the caller;
    (3) there is a run whose result carries the owner's non-empty phone and
    the subscription relation; (4) [GetWorkerAssignments] returns the
    projection of each row of the repository's answer, in order. *)
Theorem single_lookup_is_not_projected :
  (forall env id wid w a,
      outcome (run (GetWorkerAssignment env id wid) w) = Ok a ->
      assignments w !! id = Some a) /\
  (forall env id wid w a,
      findAssignment env w id = Some a ->
      WorkerAssignment.WorkerID a = wid ->
      run (GetWorkerAssignment env id wid) w = (Ok a, mkSt w [])) /\
  (exists env id wid w a,
      outcome (run (GetWorkerAssignment env id wid) w) = Ok a /\
      User.Phone (Booking.User (WorkerAssignment.Booking a)) = "+911234567890" /\
      User.Subscription (Booking.User (WorkerAssignment.Booking a)) = Some 4%nat) /\
  (forall env wid filters w rows pagination,
      assignmentsOfWorker env w wid filters = Some (rows, pagination) ->
      run (GetWorkerAssignments env wid filters) w
      = (Ok (map convertToPrivacyProtectedResponse rows, pagination), mkSt w [])).
Proof.
  split; [|split; [|split]].
  - intros env id wid w a. rewrite run_GetWorkerAssignment.
    destruct (findAssignment env w id) as [a0|] eqn:Ha; [|discriminate].
    case_bool_decide; [|discriminate].
    intros [= <-]. eauto using findAssignment_Some.
  - intros env id wid w a Ha Hw. rewrite run_GetWorkerAssignment, Ha.
    now rewrite bool_decide_eq_true_2.
  - exists Sample.env, 1%nat, 5%nat, Sample.fresh,
      (Sample.assignment AssignmentStatusAssigned None None None).
    repeat split.
  - intros env wid filters w rows pagination H.
    unfold run, GetWorkerAssignments. cbn [db].
    destruct filters, pagination. cbn [Filters.Status Filters.Date Filters.Page
      Filters.Limit]. rewrite H. reflexivity.
Qed.

Lemma single_lookup_is_not_projected_witness :
  assignmentsOfWorker Sample.envList Sample.fresh 5
    (Filters.mk "" "" 1 10)
  = Some ([Sample.assignment AssignmentStatusAssigned None None None],
          Pagination.mk 1 10 1 1) /\
  run (GetWorkerAssignments Sample.envList 5 (Filters.mk "" "" 1 10)) Sample.fresh
  = (Ok ([convertToPrivacyProtectedResponse
            (Sample.assignment AssignmentStatusAssigned None None None)],
         Pagination.mk 1 10 1 1), mkSt Sample.fresh []).
Proof.
  assert (H : assignmentsOfWorker Sample.envList Sample.fresh 5
                (Filters.mk "" "" 1 10)
              = Some ([Sample.assignment AssignmentStatusAssigned None None None],
                      Pagination.mk 1 10 1 1)) by (vm_compute; reflexivity).
  split; [exact H|].
  exact (proj2 (proj2 (proj2 single_lookup_is_not_projected))
           Sample.envList 5%nat (Filters.mk "" "" 1 10) Sample.fresh _ _ H).
Defined.

(** ** The timestamp invariant (C8) *)

(** C8, as stated, does not hold: an assignment in status [assigned] that
    carries a rejection time satisfies the invariant, and accepting it sets
    the acceptance time next to the rejection time. *)
Lemma timestamp_invariant_alone_refuted : ~ TimestampInvariantPreserved.
Proof.
  intros H.
  pose (a0 := Sample.assignment AssignmentStatusAssigned None (Some 5) None).
  pose (w0 := Sample.world a0 (Sample.booking "confirmed" None None None)).
  assert (H0 : allAssignments timestampInvariant w0).
  { intros k a Hk. cbn in Hk. apply lookup_singleton_Some in Hk as [_ <-].
    reflexivity. }
  specialize (H Accept Sample.env 1000 (Sample.request 5) w0 H0 1%nat
                (WorkerAssignment.accepted 1000 "on my way" a0) eq_refl).
  vm_compute in H. discriminate H.
Qed.

Lemma mutateAssignment_invariant op now rq a :
  WorkerAssignment.Status a = Table.precondition op ->
  timestampInvariant a = true ->
  statusCoherent a = true ->
  timestampInvariant (mutateAssignment op now rq a) = true /\
  statusCoherent (mutateAssignment op now rq a) = true.
Proof.
  unfold timestampInvariant, statusCoherent.
  destruct op; cbn [Table.precondition mutateAssignment]; intros ->;
    cbn [WorkerAssignment.accepted WorkerAssignment.rejected
         WorkerAssignment.started WorkerAssignment.completed
         WorkerAssignment.Status WorkerAssignment.AcceptedAt
         WorkerAssignment.RejectedAt WorkerAssignment.StartedAt
         WorkerAssignment.CompletedAt];
    destruct (WorkerAssignment.AcceptedAt a), (WorkerAssignment.RejectedAt a),
      (WorkerAssignment.StartedAt a), (WorkerAssignment.CompletedAt a);
    cbn; intros; split; congruence.
Qed.

(** C8, amended: on a table whose assignments satisfy the timestamp
    invariant and carry timestamps that agree with their status, every
    operation, successful or failed, leaves a table of which the same
    holds. *)
Theorem coherent_timestamps_preserved op env now rq w :
  allAssignments timestampInvariant w ->
  allAssignments statusCoherent w ->
  allAssignments timestampInvariant (final (run (perform op env now rq) w)) /\
  allAssignments statusCoherent (final (run (perform op env now rq) w)).
Proof.
  intros Hinv Hcoh. rewrite run_perform. unfold final.
  assert (Hstore : forall a,
             findAssignment env w (assignmentID rq) = Some a ->
             WorkerAssignment.Status a = Table.precondition op ->
             allAssignments timestampInvariant
               (storeAssignment (mutateAssignment op now rq a) w) /\
             allAssignments statusCoherent
               (storeAssignment (mutateAssignment op now rq a) w)).
  { intros a Ha Hs. apply findAssignment_Some in Ha.
    destruct (mutateAssignment_invariant op now rq a Hs (Hinv _ _ Ha) (Hcoh _ _ Ha))
      as [Hi Hc].
    split; intros k x Hk; cbn [storeAssignment assignments] in Hk;
      apply lookup_insert_Some in Hk as [[_ <-] | [_ Hk]]; eauto. }
  destruct (performed op env now rq w) as [[a'|e] s] eqn:E; cbn [snd].
  - apply performed_Ok in E as (a & b & Ha & _ & Hs & _ & _ & _ & -> & ->).
    exact (Hstore a Ha Hs).
  - apply performed_Err in E as [[_ ->] | [_ (a & Ha & _ & Hs & ->)]].
    + split; assumption.
    + exact (Hstore a Ha Hs).
Qed.

Lemma coherent_timestamps_preserved_witness :
  allAssignments timestampInvariant Sample.fresh /\
  allAssignments statusCoherent Sample.fresh /\
  allAssignments timestampInvariant
    (final (run (perform Accept Sample.env 1000 (Sample.request 5)) Sample.fresh)) /\
  allAssignments statusCoherent
    (final (run (perform Accept Sample.env 1000 (Sample.request 5)) Sample.fresh)).
Proof.
  assert (H1 : allAssignments timestampInvariant Sample.fresh).
  { intros k a Hk. cbn in Hk. apply lookup_singleton_Some in Hk as [_ <-].
    reflexivity. }
  assert (H2 : allAssignments statusCoherent Sample.fresh).
  { intros k a Hk. cbn in Hk. apply lookup_singleton_Some in Hk as [_ <-].
    reflexivity. }
  split; [exact H1|]. split; [exact H2|].
  exact (coherent_timestamps_preserved Accept Sample.env 1000 (Sample.request 5)
           Sample.fresh H1 H2).
Defined.

(** ** Two accepts at once (C9) *)

(** [AcceptAssignment] is its two phases, one after the other. *)
Lemma AcceptAssignment_phases env now id wid notes s :
  AcceptAssignment env now id wid notes s
  = (a <- AcceptAssignment_check env id wid ;;
     AcceptAssignment_commit env now notes a) s.
Proof.
  unfold AcceptAssignment, AcceptAssignment_check, AcceptAssignment_commit.
  unfold orFail, guard, bind, ret, fail, workerAssignmentRepo_GetByID.
  destruct (assignmentGetErr env); [reflexivity|].
  destruct (assignments (db s) !! id) as [a|]; [|reflexivity].
  case_bool_decide; [|reflexivity].
  case_bool_decide; reflexivity.
Qed.

(** A goroutine that is given two steps in a row runs [AcceptAssignment]. *)
Lemma stepThread_twice env id wid c s :
  (let '(t, s') := stepThread env id wid c Pending s in stepThread env id wid c t s')
  = (Returned (fst (AcceptAssignment env (callTime c) id wid (callNotes c) s)),
     snd (AcceptAssignment env (callTime c) id wid (callNotes c) s)).
Proof.
  rewrite AcceptAssignment_phases. unfold stepThread, bind.
  destruct (AcceptAssignment_check env id wid s) as [[a|e] s']; [|reflexivity].
  destruct (AcceptAssignment_commit env (callTime c) (callNotes c) a s');
    reflexivity.
Qed.

Lemma check_passes env id wid s a :
  assignmentGetErr env = false ->
  assignments (db s) !! id = Some a ->
  WorkerAssignment.WorkerID a = wid ->
  WorkerAssignment.Status a = AssignmentStatusAssigned ->
  AcceptAssignment_check env id wid s = (Ok a, s).
Proof.
  intros Hg Ha Hw Hs. unfold AcceptAssignment_check.
  unfold orFail, guard, bind, ret, fail, workerAssignmentRepo_GetByID.
  rewrite Hg, Ha. now rewrite !bool_decide_eq_true_2.
Qed.

Lemma check_refuses env id wid s a :
  assignmentGetErr env = false ->
  assignments (db s) !! id = Some a ->
  WorkerAssignment.WorkerID a = wid ->
  WorkerAssignment.Status a <> AssignmentStatusAssigned ->
  AcceptAssignment_check env id wid s = (Err (ErrCannotInStatus Accept), s).
Proof.
  intros Hg Ha Hw Hs. unfold AcceptAssignment_check.
  unfold orFail, guard, bind, ret, fail, workerAssignmentRepo_GetByID.
  rewrite Hg, Ha. rewrite bool_decide_eq_true_2 by assumption.
  now rewrite bool_decide_eq_false_2.
Qed.

Lemma commit_succeeds env now notes a b s :
  assignmentUpdateErr env = false ->
  bookingGetErr env = false ->
  bookingUpdateErr env = false ->
  bookings (db s) !! WorkerAssignment.BookingID a = Some b ->
  AcceptAssignment_commit env now notes a s
  = (Ok (WorkerAssignment.accepted now notes a),
     mkSt (storeBooking (Booking.withStatus BookingStatusConfirmed b)
             (storeAssignment (WorkerAssignment.accepted now notes a) (db s)))
          (fx s ++ acceptFanOut (WorkerAssignment.accepted now notes a)
                     (Booking.withStatus BookingStatusConfirmed b))).
Proof.
  intros Hu Hg Hbu Hb. unfold AcceptAssignment_commit.
  unfold orFail, guard, call, go, emit, bind, ret, fail,
    workerAssignmentRepo_Update, bookingRepo_GetByID, bookingRepo_Update.
  rewrite Hu, Hg. cbn [db fx assignments bookings WorkerAssignment.BookingID
                        WorkerAssignment.accepted].
  rewrite Hb, Hbu. cbn [db fx]. rewrite <- !app_assoc. reflexivity.
Qed.

(** C9, as stated, does not hold: when both calls pass the status check
    before either writes, both return the accepted assignment. *)
Lemma accepts_serialized_refuted : ~ AcceptsSerialized.
Proof.
  intros H.
  assert (E : exists a1 a2 s,
             concurrentAccepts Sample.env 1 5 (mkAcceptCall 1000 "first")
               (mkAcceptCall 1001 "second") [false; true; false; true] Sample.fresh
             = (Returned (Ok a1), Returned (Ok a2), s))
    by (do 3 eexists; vm_compute; reflexivity).
  destruct E as (a1 & a2 & s & E).
  assert (R : repositoriesAnswer Sample.env) by (repeat split).
  specialize (H Sample.env 1%nat 5%nat (mkAcceptCall 1000 "first")
                (mkAcceptCall 1001 "second") [false; true; false; true]
                Sample.fresh
                (Sample.assignment AssignmentStatusAssigned None None None)
                (Sample.booking "confirmed" None None (Some (80 # 1)%Q))
                (Ok a1) (Ok a2) s R eq_refl eq_refl eq_refl eq_refl E).
  destruct H as [(a & _ & H) | (a & _ & H)]; discriminate H.
Qed.

(** C9, amended: for two calls by the owner on an assigned assignment, with
    the repositories answering and rows stored under their keys: (1) run
    one after the other, the first [AcceptAssignment] returns the accepted
    assignment and the second is refused by the status check and changes
    nothing; (2) the same under the two schedules that let one goroutine
    finish before the other starts, with a single fan-out; (3) under the
    schedule where both goroutines pass the check before either writes,
    both return an accepted assignment and the side effects fan out
    twice: the service does not serialize the read-check-write. *)
Theorem accepts_in_sequence_and_in_a_race env id wid c1 c2 w a b :
  keyed w ->
  repositoriesAnswer env ->
  assignments w !! id = Some a ->
  WorkerAssignment.WorkerID a = wid ->
  WorkerAssignment.Status a = AssignmentStatusAssigned ->
  bookings w !! WorkerAssignment.BookingID a = Some b ->
  (exists s1,
      AcceptAssignment env (callTime c1) id wid (callNotes c1) (mkSt w [])
      = (Ok (WorkerAssignment.accepted (callTime c1) (callNotes c1) a), s1) /\
      AcceptAssignment env (callTime c2) id wid (callNotes c2) s1
      = (Err (ErrCannotInStatus Accept), s1)) /\
  concurrentAccepts env id wid c1 c2 [false; false; true; true] w
  = (Returned (Ok (WorkerAssignment.accepted (callTime c1) (callNotes c1) a)),
     Returned (Err (ErrCannotInStatus Accept)),
     mkSt (storeBooking (Booking.withStatus BookingStatusConfirmed b)
             (storeAssignment
                (WorkerAssignment.accepted (callTime c1) (callNotes c1) a) w))
          (acceptFanOut (WorkerAssignment.accepted (callTime c1) (callNotes c1) a)
             (Booking.withStatus BookingStatusConfirmed b))) /\
  concurrentAccepts env id wid c1 c2 [true; true; false; false] w
  = (Returned (Err (ErrCannotInStatus Accept)),
     Returned (Ok (WorkerAssignment.accepted (callTime c2) (callNotes c2) a)),
     mkSt (storeBooking (Booking.withStatus BookingStatusConfirmed b)
             (storeAssignment
                (WorkerAssignment.accepted (callTime c2) (callNotes c2) a) w))
          (acceptFanOut (WorkerAssignment.accepted (callTime c2) (callNotes c2) a)
             (Booking.withStatus BookingStatusConfirmed b))) /\
  concurrentAccepts env id wid c1 c2 [false; true; false; true] w
  = (Returned (Ok (WorkerAssignment.accepted (callTime c1) (callNotes c1) a)),
     Returned (Ok (WorkerAssignment.accepted (callTime c2) (callNotes c2) a)),
     mkSt (storeBooking (Booking.withStatus BookingStatusConfirmed b)
             (storeAssignment
                (WorkerAssignment.accepted (callTime c2) (callNotes c2) a)
                (storeBooking (Booking.withStatus BookingStatusConfirmed b)
                   (storeAssignment
                      (WorkerAssignment.accepted (callTime c1) (callNotes c1) a)
                      w))))
          (acceptFanOut (WorkerAssignment.accepted (callTime c1) (callNotes c1) a)
             (Booking.withStatus BookingStatusConfirmed b)
           ++ acceptFanOut (WorkerAssignment.accepted (callTime c2) (callNotes c2) a)
                (Booking.withStatus BookingStatusConfirmed b))).
Proof.
  intros [Ka Kb] (Hg & Hu & Hbg & Hbu) Ha Hw Hs Hb.
  pose proof (Ka _ _ Ha) as Hid. pose proof (Kb _ _ Hb) as Hbid.
  (* one call from a state in which the assignment is still assigned *)
  assert (Hfirst : forall c s,
             db s = w ->
             AcceptAssignment_check env id wid s = (Ok a, s) /\
             AcceptAssignment_commit env (callTime c) (callNotes c) a s
             = (Ok (WorkerAssignment.accepted (callTime c) (callNotes c) a),
                mkSt (storeBooking (Booking.withStatus BookingStatusConfirmed b)
                        (storeAssignment
                           (WorkerAssignment.accepted (callTime c) (callNotes c) a)
                           w))
                     (fx s ++ acceptFanOut
                                (WorkerAssignment.accepted (callTime c) (callNotes c) a)
                                (Booking.withStatus BookingStatusConfirmed b)))).
  { intros c s Hdb. split.
    - apply check_passes; rewrite ?Hdb; assumption.
    - rewrite <- Hdb. apply commit_succeeds; rewrite ?Hdb; assumption. }
  (* a check from a state in which some call has already written *)
  assert (Hlate : forall c l,
             AcceptAssignment_check env id wid
               (mkSt (storeBooking (Booking.withStatus BookingStatusConfirmed b)
                        (storeAssignment
                           (WorkerAssignment.accepted (callTime c) (callNotes c) a)
                           w)) l)
             = (Err (ErrCannotInStatus Accept),
                mkSt (storeBooking (Booking.withStatus BookingStatusConfirmed b)
                        (storeAssignment
                           (WorkerAssignment.accepted (callTime c) (callNotes c) a)
                           w)) l)).
  { intros c l.
    apply check_refuses
      with (a := WorkerAssignment.accepted (callTime c) (callNotes c) a);
      try assumption; [|discriminate].
    cbn [db storeBooking storeAssignment assignments].
    change (assignmentID_of (WorkerAssignment.accepted (callTime c) (callNotes c) a))
      with (assignmentID_of a).
    rewrite Hid. apply lookup_insert_eq. }
  destruct (Hfirst c1 (mkSt w []) eq_refl) as [Hc1 Hm1].
  destruct (Hfirst c2 (mkSt w []) eq_refl) as [Hc2 Hm2].
  cbn [fx app] in Hm1, Hm2.
  split; [|split; [|split]].
  - exists (mkSt (storeBooking (Booking.withStatus BookingStatusConfirmed b)
                   (storeAssignment
                      (WorkerAssignment.accepted (callTime c1) (callNotes c1) a) w))
                (acceptFanOut
                   (WorkerAssignment.accepted (callTime c1) (callNotes c1) a)
                   (Booking.withStatus BookingStatusConfirmed b))).
    rewrite !AcceptAssignment_phases. unfold bind.
    rewrite Hc1, Hlate. cbv beta iota. rewrite Hm1. split; reflexivity.
  - unfold concurrentAccepts. cbn [runSchedule stepThread].
    rewrite Hc1. cbn [runSchedule stepThread]. rewrite Hm1.
    cbn [runSchedule stepThread]. rewrite Hlate. reflexivity.
  - unfold concurrentAccepts. cbn [runSchedule stepThread].
    rewrite Hc2. cbn [runSchedule stepThread]. rewrite Hm2.
    cbn [runSchedule stepThread]. rewrite Hlate. reflexivity.
  - unfold concurrentAccepts. cbn [runSchedule stepThread].
    rewrite Hc1. cbn [runSchedule stepThread].
    rewrite Hc2. cbn [runSchedule stepThread].
    rewrite (commit_succeeds env (callTime c1) (callNotes c1) a b (mkSt w []))
      by assumption.
    cbn [fx db app].
    rewrite (commit_succeeds env (callTime c2) (callNotes c2) a
               (Booking.withStatus BookingStatusConfirmed b)).
    + reflexivity.
    + assumption.
    + assumption.
    + assumption.
    + cbn [db storeBooking storeAssignment bookings].
      change (Model.ID (Booking.Model (Booking.withStatus BookingStatusConfirmed b)))
        with (Model.ID (Booking.Model b)).
      rewrite Hbid. apply lookup_insert_eq.
Qed.

Lemma accepts_in_sequence_and_in_a_race_witness :
  keyed Sample.fresh /\
  repositoriesAnswer Sample.env /\
  (exists s,
      concurrentAccepts Sample.env 1 5 (mkAcceptCall 1000 "first")
        (mkAcceptCall 1001 "second") [false; false; true; true] Sample.fresh
      = (Returned (Ok (WorkerAssignment.accepted 1000 "first"
                         (Sample.assignment AssignmentStatusAssigned None None None))),
         Returned (Err (ErrCannotInStatus Accept)), s)) /\
  (exists s,
      concurrentAccepts Sample.env 1 5 (mkAcceptCall 1000 "first")
        (mkAcceptCall 1001 "second") [false; true; false; true] Sample.fresh
      = (Returned (Ok (WorkerAssignment.accepted 1000 "first"
                         (Sample.assignment AssignmentStatusAssigned None None None))),
         Returned (Ok (WorkerAssignment.accepted 1001 "second"
                         (Sample.assignment AssignmentStatusAssigned None None None))),
         s)).
Proof.
  assert (K : keyed Sample.fresh) by (apply Sample_keyed; reflexivity).
  assert (R : repositoriesAnswer Sample.env) by (repeat split).
  split; [exact K|]. split; [exact R|].
  destruct (accepts_in_sequence_and_in_a_race Sample.env 1 5
              (mkAcceptCall 1000 "first") (mkAcceptCall 1001 "second")
              Sample.fresh
              (Sample.assignment AssignmentStatusAssigned None None None)
              (Sample.booking "confirmed" None None (Some (80 # 1)%Q))
              K R eq_refl eq_refl eq_refl eq_refl)
    as (_ & Hserial & _ & Hrace).
  split; eexists; [exact Hserial | exact Hrace].
Defined.

(** The effect log of the racing schedule on the sample data: every side
    effect of an accept appears twice. *)
Example racing_accepts_fan_out_twice :
  fx (snd (concurrentAccepts Sample.env 1 5 (mkAcceptCall 1000 "first")
             (mkAcceptCall 1001 "second") [false; true; false; true] Sample.fresh))
  = [ Call (CreateBookingChatRoomWhenWorkerAccepts 7);
      Go (EnableCallMasking 7);
      Go (SendWorkerAssignmentNotification 1 "accepted");
      Go (NotifyAssignmentAccepted 1 7);
      Call (CreateBookingChatRoomWhenWorkerAccepts 7);
      Go (EnableCallMasking 7);
      Go (SendWorkerAssignmentNotification 1 "accepted");
      Go (NotifyAssignmentAccepted 1 7) ].
Proof. vm_compute. reflexivity. Qed.

(** ** One step on the two tables *)

(** What an operation does to the assignment table: nothing, or it
    replaces the requested row by its update. *)
Lemma step_assignments op env now rq w :
  keyed w ->
  assignments (final (run (perform op env now rq) w)) = assignments w \/
  exists a,
    assignments w !! assignmentID rq = Some a /\
    WorkerAssignment.WorkerID a = workerID rq /\
    WorkerAssignment.Status a = Table.precondition op /\
    assignments (final (run (perform op env now rq) w))
    = <[assignmentID rq := mutateAssignment op now rq a]> (assignments w).
Proof.
  intros [Ka _]. rewrite run_perform. unfold final.
  assert (Hstore : forall a,
             findAssignment env w (assignmentID rq) = Some a ->
             assignments (storeAssignment (mutateAssignment op now rq a) w)
             = <[assignmentID rq := mutateAssignment op now rq a]> (assignments w)).
  { intros a Ha. apply findAssignment_Some in Ha.
    cbn [storeAssignment assignments].
    now rewrite mutateAssignment_ID, (Ka _ _ Ha). }
  destruct (performed op env now rq w) as [[a'|e] s] eqn:E; cbn [snd].
  - apply performed_Ok in E as (a & b & Ha & Hw & Hs & _ & _ & _ & -> & ->).
    right. exists a. cbn [db storeBooking assignments].
    repeat split; eauto using findAssignment_Some.
  - apply performed_Err in E as [[_ ->] | [_ (a & Ha & Hw & Hs & ->)]]; cbn [db].
    + now left.
    + right. exists a. repeat split; eauto using findAssignment_Some.
Qed.

(** What an operation does to the booking table: nothing, or, when it
    succeeds, it replaces the booking of the requested assignment by its
    update. *)
Lemma step_bookings op env now rq w :
  keyed w ->
  bookings (final (run (perform op env now rq) w)) = bookings w \/
  exists a b,
    assignments w !! assignmentID rq = Some a /\
    WorkerAssignment.Status a = Table.precondition op /\
    bookings w !! WorkerAssignment.BookingID a = Some b /\
    outcome (run (perform op env now rq) w) = Ok (mutateAssignment op now rq a) /\
    bookings (final (run (perform op env now rq) w))
    = <[WorkerAssignment.BookingID a := mutateBooking op now b]> (bookings w).
Proof.
  intros [_ Kb]. rewrite run_perform. unfold final, outcome.
  destruct (performed op env now rq w) as [[a'|e] s] eqn:E; cbn [fst snd].
  - apply performed_Ok in E as (a & b & Ha & Hw & Hs & _ & Hb & _ & -> & ->).
    right. exists a, b. apply findBooking_Some in Hb.
    cbn [db storeBooking storeAssignment bookings].
    rewrite mutateBooking_ID, (Kb _ _ Hb).
    repeat split; eauto using findAssignment_Some.
  - apply performed_Err in E as [[_ ->] | [_ (a & _ & _ & _ & ->)]]; now left.
Qed.

(** Rows stay under their primary keys. *)
Lemma step_keyed op env now rq w :
  keyed w -> keyed (final (run (perform op env now rq) w)).
Proof.
  intros K. pose proof K as [Ka Kb]. split.
  - destruct (step_assignments op env now rq w K) as [-> | (a & Ha & _ & _ & ->)];
      [exact Ka|].
    intros k x Hk. apply lookup_insert_Some in Hk as [[<- <-] | [_ Hk]]; [|eauto].
    rewrite mutateAssignment_ID. eauto.
  - destruct (step_bookings op env now rq w K)
      as [-> | (a & b & _ & _ & Hb & _ & ->)]; [exact Kb|].
    intros k x Hk. apply lookup_insert_Some in Hk as [[<- <-] | [_ Hk]]; [|eauto].
    rewrite mutateBooking_ID. eauto.
Qed.

Lemma history_keyed steps : forall w, keyed w -> keyed (history steps w).
Proof.
  induction steps as [|i rest IH]; intros w K; [exact K|].
  cbn [history]. apply IH. apply step_keyed, K.
Qed.

(** A relation between the earlier and the later version of a row that is
    reflexive, transitive and holds across each single update holds across
    every history; and rows are never deleted. *)
Lemma history_assignment_rel (R : WorkerAssignment.t -> WorkerAssignment.t -> Prop) :
  (forall a, R a a) ->
  (forall a b c, R a b -> R b c -> R a c) ->
  (forall op now rq a,
      WorkerAssignment.Status a = Table.precondition op ->
      R a (mutateAssignment op now rq a)) ->
  forall steps w k a0,
    keyed w ->
    assignments w !! k = Some a0 ->
    exists a1, assignments (history steps w) !! k = Some a1 /\ R a0 a1.
Proof.
  intros Hrefl Htrans Hstep.
  induction steps as [|i rest IH]; intros w k a0 K H0; cbn [history].
  - eauto.
  - unfold invoke.
    pose proof (step_keyed (invOp i) (invEnv i) (invNow i) (invRq i) w K) as K'.
    destruct (step_assignments (invOp i) (invEnv i) (invNow i) (invRq i) w K)
      as [E | (a & Ha & _ & Hs & E)].
    + apply (IH _ k a0 K'). now rewrite E.
    + destruct (decide (k = assignmentID (invRq i))) as [->|Hk].
      * rewrite Ha in H0. injection H0 as <-.
        destruct (IH _ (assignmentID (invRq i))
                    (mutateAssignment (invOp i) (invNow i) (invRq i) a) K')
          as (a1 & H1 & HR); [rewrite E; apply lookup_insert_eq|].
        exists a1. split; [exact H1|]. eapply Htrans; [apply Hstep, Hs|exact HR].
      * apply (IH _ k a0 K'). rewrite E. now rewrite lookup_insert_ne.
Qed.

Lemma history_booking_rel (R : Booking.t -> Booking.t -> Prop) :
  (forall b, R b b) ->
  (forall a b c, R a b -> R b c -> R a c) ->
  (forall op now b, R b (mutateBooking op now b)) ->
  forall steps w k b0,
    keyed w ->
    bookings w !! k = Some b0 ->
    exists b1, bookings (history steps w) !! k = Some b1 /\ R b0 b1.
Proof.
  intros Hrefl Htrans Hstep.
  induction steps as [|i rest IH]; intros w k b0 K H0; cbn [history].
  - eauto.
  - unfold invoke.
    pose proof (step_keyed (invOp i) (invEnv i) (invNow i) (invRq i) w K) as K'.
    destruct (step_bookings (invOp i) (invEnv i) (invNow i) (invRq i) w K)
      as [E | (a & b & _ & _ & Hb & _ & E)].
    + apply (IH _ k b0 K'). now rewrite E.
    + destruct (decide (k = WorkerAssignment.BookingID a)) as [->|Hk].
      * rewrite Hb in H0. injection H0 as <-.
        destruct (IH _ (WorkerAssignment.BookingID a)
                    (mutateBooking (invOp i) (invNow i) b) K')
          as (b1 & H1 & HR); [rewrite E; apply lookup_insert_eq|].
        exists b1. split; [exact H1|]. eapply Htrans; [apply Hstep|exact HR].
      * apply (IH _ k b0 K'). rewrite E. now rewrite lookup_insert_ne.
Qed.

(** ** An operation touches one assignment and one booking (X1) *)

(** X1: with rows under their keys, an operation leaves every assignment
    other than the requested one, and every booking other than the one the
    requested assignment points to, exactly as it was; and it neither
    creates nor deletes a row of either table. *)
Theorem operation_touches_one_pair op env now rq w :
  keyed w ->
  (forall k, k <> assignmentID rq ->
             assignments (final (run (perform op env now rq) w)) !! k
             = assignments w !! k) /\
  (forall k,
      (forall a, assignments w !! assignmentID rq = Some a ->
                 k <> WorkerAssignment.BookingID a) ->
      bookings (final (run (perform op env now rq) w)) !! k = bookings w !! k) /\
  (forall k, is_Some (assignments (final (run (perform op env now rq) w)) !! k)
             <-> is_Some (assignments w !! k)) /\
  (forall k, is_Some (bookings (final (run (perform op env now rq) w)) !! k)
             <-> is_Some (bookings w !! k)).
Proof.
  intros K. split; [|split; [|split]].
  - intros k Hk.
    destruct (step_assignments op env now rq w K) as [-> | (a & Ha & _ & _ & ->)];
      [reflexivity|].
    rewrite lookup_insert_ne by congruence. reflexivity.
  - intros k Hk.
    destruct (step_bookings op env now rq w K)
      as [-> | (a & b & Ha & _ & Hb & _ & ->)]; [reflexivity|].
    rewrite lookup_insert_ne; [reflexivity|].
    intros E. exact (Hk a Ha (eq_sym E)).
  - intros k.
    destruct (step_assignments op env now rq w K) as [-> | (a & Ha & _ & _ & ->)];
      [tauto|].
    destruct (decide (k = assignmentID rq)) as [->|Hne].
    + rewrite lookup_insert_eq, Ha. split; eauto.
    + rewrite lookup_insert_ne by congruence. tauto.
  - intros k.
    destruct (step_bookings op env now rq w K)
      as [-> | (a & b & Ha & _ & Hb & _ & ->)]; [tauto|].
    destruct (decide (k = WorkerAssignment.BookingID a)) as [->|Hne].
    + rewrite lookup_insert_eq, Hb. split; eauto.
    + rewrite lookup_insert_ne by congruence. tauto.
Qed.

Lemma operation_touches_one_pair_witness :
  keyed sampleTwoPairs /\
  (exists a1,
      assignments (final (run (perform Accept Sample.env 1000 (Sample.request 5))
                              sampleTwoPairs)) !! 1%nat = Some a1 /\
      WorkerAssignment.Status a1 = AssignmentStatusAccepted) /\
  (exists b1,
      bookings (final (run (perform Accept Sample.env 1000 (Sample.request 5))
                           sampleTwoPairs)) !! 7%nat = Some b1 /\
      Booking.Status b1 = BookingStatusConfirmed) /\
  assignments (final (run (perform Accept Sample.env 1000 (Sample.request 5))
                          sampleTwoPairs)) !! 2%nat
  = Some sampleOtherAssignment /\
  bookings (final (run (perform Accept Sample.env 1000 (Sample.request 5))
                       sampleTwoPairs)) !! 8%nat
  = Some sampleOtherBooking.
Proof.
  assert (K : keyed sampleTwoPairs).
  { split; intros k x Hk; cbn in Hk;
      apply lookup_insert_Some in Hk as [[<- <-]|[_ Hk]]; try reflexivity;
      apply lookup_singleton_Some in Hk as [<- <-]; reflexivity. }
  split; [exact K|].
  split; [eexists; split; reflexivity|].
  split; [eexists; split; reflexivity|].
  destruct (operation_touches_one_pair Accept Sample.env 1000 (Sample.request 5)
              sampleTwoPairs K) as (HA & HB & _).
  split.
  - rewrite (HA 2%nat) by discriminate. reflexivity.
  - rewrite (HB 8%nat); [reflexivity|].
    intros a Ha. cbn in Ha.
    rewrite lookup_insert_ne, lookup_singleton_eq in Ha by discriminate.
    injection Ha as <-. discriminate.
Defined.

(** ** Columns no history of operations changes (X2, X3) *)

Lemma mutateBooking_frame op now b :
  bookingFrame (mutateBooking op now b) = bookingFrame b.
Proof.
  destruct op; try reflexivity.
  unfold mutateBooking, completedBooking. cbn.
  destruct (Booking.ActualStartTime b); reflexivity.
Qed.

(** X2: over any list of operations run one after the other, a booking
    row stays in the table and changes at most in its status, actual start
    time, actual end time and actual duration; payment status, quote,
    schedule, contact data, user and service are never written. *)
Theorem history_keeps_booking_columns steps w k b0 :
  keyed w ->
  bookings w !! k = Some b0 ->
  exists b1,
    bookings (history steps w) !! k = Some b1 /\
    bookingFrame b1 = bookingFrame b0 /\
    Booking.PaymentStatus b1 = Booking.PaymentStatus b0 /\
    Booking.QuoteAmount b1 = Booking.QuoteAmount b0.
Proof.
  intros K H0.
  destruct (history_booking_rel (fun b b' => bookingFrame b' = bookingFrame b))
    with (steps := steps) (w := w) (k := k) (b0 := b0) as (b1 & H1 & HR);
    try assumption.
  - reflexivity.
  - intros a b c Hab Hbc. congruence.
  - intros op now b. apply mutateBooking_frame.
  - exists b1. split; [exact H1|]. split; [exact HR|].
    split.
    + apply (f_equal Booking.PaymentStatus) in HR. exact HR.
    + apply (f_equal Booking.QuoteAmount) in HR. exact HR.
Qed.

Lemma mutateAssignment_frame op now rq a :
  assignmentFrame (mutateAssignment op now rq a) = assignmentFrame a.
Proof. destruct op; reflexivity. Qed.

(** X3: over any list of operations run one after the other, an
    assignment row stays in the table and changes at most in its status,
    its four timestamps and its acceptance and rejection texts; in
    particular it keeps its worker and its booking, so ownership never
    moves. *)
Theorem history_keeps_assignment_columns steps w k a0 :
  keyed w ->
  assignments w !! k = Some a0 ->
  exists a1,
    assignments (history steps w) !! k = Some a1 /\
    assignmentFrame a1 = assignmentFrame a0 /\
    WorkerAssignment.WorkerID a1 = WorkerAssignment.WorkerID a0 /\
    WorkerAssignment.BookingID a1 = WorkerAssignment.BookingID a0.
Proof.
  intros K H0.
  destruct (history_assignment_rel
              (fun a a' => assignmentFrame a' = assignmentFrame a))
    with (steps := steps) (w := w) (k := k) (a0 := a0) as (a1 & H1 & HR);
    try assumption.
  - reflexivity.
  - intros a b c Hab Hbc. congruence.
  - intros op now rq a _. apply mutateAssignment_frame.
  - exists a1. split; [exact H1|]. split; [exact HR|].
    split.
    + apply (f_equal WorkerAssignment.WorkerID) in HR. exact HR.
    + apply (f_equal WorkerAssignment.BookingID) in HR. exact HR.
Qed.

(** ** Progress is one-way (X4) *)

Lemma isSet_mutate op now rq a :
  (isSet (WorkerAssignment.AcceptedAt a) = true ->
   isSet (WorkerAssignment.AcceptedAt (mutateAssignment op now rq a)) = true) /\
  (isSet (WorkerAssignment.RejectedAt a) = true ->
   isSet (WorkerAssignment.RejectedAt (mutateAssignment op now rq a)) = true) /\
  (isSet (WorkerAssignment.StartedAt a) = true ->
   isSet (WorkerAssignment.StartedAt (mutateAssignment op now rq a)) = true) /\
  (isSet (WorkerAssignment.CompletedAt a) = true ->
   isSet (WorkerAssignment.CompletedAt (mutateAssignment op now rq a)) = true).
Proof. destruct op; cbn; auto. Qed.

(** X4: over any list of operations run one after the other, the status
    of an assignment never moves back (its rank never decreases), a
    completed or rejected assignment keeps its status for good, and a
    timestamp that is set is never cleared. *)
Theorem history_progress_is_one_way steps w k a0 :
  keyed w ->
  assignments w !! k = Some a0 ->
  exists a1,
    assignments (history steps w) !! k = Some a1 /\
    (statusRank (WorkerAssignment.Status a0)
     <= statusRank (WorkerAssignment.Status a1))%nat /\
    (isTerminal (WorkerAssignment.Status a0) = true ->
     WorkerAssignment.Status a1 = WorkerAssignment.Status a0) /\
    (isSet (WorkerAssignment.AcceptedAt a0) = true ->
     isSet (WorkerAssignment.AcceptedAt a1) = true) /\
    (isSet (WorkerAssignment.RejectedAt a0) = true ->
     isSet (WorkerAssignment.RejectedAt a1) = true) /\
    (isSet (WorkerAssignment.StartedAt a0) = true ->
     isSet (WorkerAssignment.StartedAt a1) = true) /\
    (isSet (WorkerAssignment.CompletedAt a0) = true ->
     isSet (WorkerAssignment.CompletedAt a1) = true).
Proof.
  intros K H0.
  apply (history_assignment_rel
           (fun a a' =>
              (statusRank (WorkerAssignment.Status a)
               <= statusRank (WorkerAssignment.Status a'))%nat /\
              (isTerminal (WorkerAssignment.Status a) = true ->
               WorkerAssignment.Status a' = WorkerAssignment.Status a) /\
              (isSet (WorkerAssignment.AcceptedAt a) = true ->
               isSet (WorkerAssignment.AcceptedAt a') = true) /\
              (isSet (WorkerAssignment.RejectedAt a) = true ->
               isSet (WorkerAssignment.RejectedAt a') = true) /\
              (isSet (WorkerAssignment.StartedAt a) = true ->
               isSet (WorkerAssignment.StartedAt a') = true) /\
              (isSet (WorkerAssignment.CompletedAt a) = true ->
               isSet (WorkerAssignment.CompletedAt a') = true)));
    try assumption.
  - intros a. repeat split; auto.
  - intros a b c (R1 & T1 & A1 & B1 & C1 & D1) (R2 & T2 & A2 & B2 & C2 & D2).
    split; [lia|]. split; [|auto 6].
    intros Ht. rewrite T2; [auto|]. rewrite T1; assumption.
  - intros op now rq a Hs.
    rewrite mutateAssignment_Status, Hs.
    split; [destruct op; cbn; lia|].
    split; [destruct op; discriminate|].
    apply isSet_mutate.
Qed.

Lemma history_keeps_booking_columns_witness :
  keyed Sample.fresh /\
  bookings Sample.fresh !! 7%nat
  = Some (Sample.booking "confirmed" None None (Some (80 # 1)%Q)) /\
  exists b1,
    bookings (history sampleLifecycle Sample.fresh) !! 7%nat = Some b1 /\
    bookingFrame b1
    = bookingFrame (Sample.booking "confirmed" None None (Some (80 # 1)%Q)) /\
    Booking.PaymentStatus b1 = "completed" /\
    Booking.QuoteAmount b1 = None.
Proof.
  assert (K : keyed Sample.fresh) by (apply Sample_keyed; reflexivity).
  split; [exact K|]. split; [reflexivity|].
  exact (history_keeps_booking_columns sampleLifecycle Sample.fresh 7%nat _ K
           eq_refl).
Defined.

Lemma history_keeps_assignment_columns_witness :
  keyed Sample.fresh /\
  assignments Sample.fresh !! 1%nat
  = Some (Sample.assignment AssignmentStatusAssigned None None None) /\
  exists a1,
    assignments (history sampleLifecycle Sample.fresh) !! 1%nat = Some a1 /\
    assignmentFrame a1
    = assignmentFrame (Sample.assignment AssignmentStatusAssigned None None None) /\
    WorkerAssignment.WorkerID a1 = 5%nat /\
    WorkerAssignment.BookingID a1 = 7%nat.
Proof.
  assert (K : keyed Sample.fresh) by (apply Sample_keyed; reflexivity).
  split; [exact K|]. split; [reflexivity|].
  exact (history_keeps_assignment_columns sampleLifecycle Sample.fresh 1%nat _ K
           eq_refl).
Defined.

Lemma history_progress_is_one_way_witness :
  keyed (Sample.inProgress (Some Sample.tenOClock) None None) /\
  exists a1,
    assignments (history sampleLifecycle
                   (Sample.inProgress (Some Sample.tenOClock) None None))
      !! 1%nat = Some a1 /\
    (2 <= statusRank (WorkerAssignment.Status a1))%nat /\
    isSet (WorkerAssignment.StartedAt a1) = true.
Proof.
  assert (K : keyed (Sample.inProgress (Some Sample.tenOClock) None None))
    by (apply Sample_keyed; reflexivity).
  split; [exact K|].
  destruct (history_progress_is_one_way sampleLifecycle
              (Sample.inProgress (Some Sample.tenOClock) None None) 1%nat _ K
              eq_refl)
    as (a1 & H1 & Hrank & _ & _ & _ & Hstarted & _).
  exists a1. split; [exact H1|]. split; [exact Hrank|]. exact (Hstarted eq_refl).
Defined.

(** ** Every operation succeeds at most once per assignment (X5) *)

(** Past the status an operation requires, it never succeeds again. *)
Lemma successes_past_precondition op id steps :
  forall w a,
    keyed w ->
    assignments w !! id = Some a ->
    (statusRank (Table.precondition op)
     < statusRank (WorkerAssignment.Status a))%nat ->
    successes op id steps w = 0%nat.
Proof.
  induction steps as [|i rest IH]; intros w a K Ha Hrank; [reflexivity|].
  cbn [successes].
  destruct (history_assignment_rel
              (fun x y => (statusRank (WorkerAssignment.Status x)
                           <= statusRank (WorkerAssignment.Status y))%nat))
    with (steps := [i]) (w := w) (k := id) (a0 := a) as (a1 & H1 & Hle);
    try assumption.
  { intros x. lia. }
  { intros x y z. lia. }
  { intros o t r x Hx. rewrite mutateAssignment_Status, Hx.
    destruct o; cbn; lia. }
  cbn [history] in H1. unfold invoke in *.
  rewrite (IH _ a1 (step_keyed _ _ _ _ _ K) H1) by lia.
  destruct (bool_decide (invOp i = op)) eqn:Eop; [|reflexivity].
  destruct (bool_decide (assignmentID (invRq i) = id)) eqn:Eid; [|reflexivity].
  apply bool_decide_eq_true_1 in Eop, Eid. cbn [andb].
  unfold outcome. rewrite run_perform.
  destruct (performed _ _ _ _ _) as [[a'|e] s] eqn:E; [|reflexivity].
  apply performed_Ok in E as (a0 & b & Ha0 & _ & Hs & _).
  apply findAssignment_Some in Ha0. rewrite Eid, Ha in Ha0. injection Ha0 as <-.
  rewrite <- Eop, Hs in Hrank. lia.
Qed.

(** X5: in any list of operations run one after the other, each of Accept,
    Reject, Start and Complete returns without error at most once for a
    given assignment; in particular an assignment is completed, and its
    worker credited, at most once. *)
Theorem operation_succeeds_at_most_once op id steps :
  forall w, keyed w -> (successes op id steps w <= 1)%nat.
Proof.
  induction steps as [|i rest IH]; intros w K; cbn [successes]; [lia|].
  pose proof (step_keyed (invOp i) (invEnv i) (invNow i) (invRq i) w K) as K'.
  destruct (bool_decide (invOp i = op)) eqn:Eop;
    [|cbn [andb]; specialize (IH _ K'); unfold invoke in *; lia].
  destruct (bool_decide (assignmentID (invRq i) = id)) eqn:Eid;
    [|cbn [andb]; specialize (IH _ K'); unfold invoke in *; lia].
  cbn [andb]. apply bool_decide_eq_true_1 in Eop, Eid.
  destruct (isOk (outcome (invoke i w))) eqn:Eok;
    [|specialize (IH _ K'); unfold invoke in *; lia].
  unfold invoke in *.
  destruct (outcome (run (perform (invOp i) (invEnv i) (invNow i) (invRq i)) w))
    as [a'|e] eqn:Eout; [|discriminate].
  destruct (step_assignments (invOp i) (invEnv i) (invNow i) (invRq i) w K)
    as [E | (a & Ha & _ & Hs & E)].
  - (* a successful run always writes the assignment *)
    exfalso. revert Eout E. rewrite run_perform. unfold outcome, final.
    destruct (performed _ _ _ _ _) as [r s] eqn:P. cbn [fst snd]. intros ->.
    apply performed_Ok in P as (a & b & Ha & _ & Hs & _ & _ & _ & -> & ->).
    cbn [db storeBooking storeAssignment assignments]. intros E.
    apply findAssignment_Some in Ha. destruct K as [Ka _].
    apply (f_equal (fun m => WorkerAssignment.Status
                               <$> m !! assignmentID_of
                                           (mutateAssignment (invOp i) (invNow i)
                                              (invRq i) a))) in E.
    rewrite lookup_insert_eq, mutateAssignment_ID, (Ka _ _ Ha), Ha in E.
    cbn in E. rewrite mutateAssignment_Status, Hs in E.
    destruct (invOp i); discriminate E.
  - rewrite (successes_past_precondition op id rest _
               (mutateAssignment (invOp i) (invNow i) (invRq i) a) K');
      [lia| |].
    + rewrite E, <- Eid. apply lookup_insert_eq.
    + rewrite mutateAssignment_Status, <- Eop. destruct (invOp i); cbn; lia.
Qed.

Lemma operation_succeeds_at_most_once_witness :
  keyed Sample.fresh /\
  successes Complete 1 sampleLifecycle Sample.fresh = 1%nat /\
  (successes Complete 1 sampleLifecycle Sample.fresh <= 1)%nat.
Proof.
  assert (K : keyed Sample.fresh) by (apply Sample_keyed; reflexivity).
  split; [exact K|]. split; [vm_compute; reflexivity|].
  exact (operation_succeeds_at_most_once Complete 1 sampleLifecycle Sample.fresh K).
Defined.

(** ** Repeating an operation (X6) *)

(** X6: once an operation has returned without error, the same operation
    invoked again for the same assignment by the same worker (whatever the
    clock, the texts and the side-effect outcomes, with the assignment
    lookup answering) is refused with its status error, writes nothing and
    fires no side effect: a duplicate Reject or Complete does not disable
    call masking or credit the worker a second time. *)
Theorem repeated_operation_is_refused op env now rq w a' env' now' rq' :
  keyed w ->
  outcome (run (perform op env now rq) w) = Ok a' ->
  assignmentGetErr env' = false ->
  assignmentID rq' = assignmentID rq ->
  workerID rq' = workerID rq ->
  run (perform op env' now' rq') (final (run (perform op env now rq) w))
  = (Err (ErrCannotInStatus op), mkSt (final (run (perform op env now rq) w)) []).
Proof.
  intros K Hok Hget Hid Hwid.
  destruct (step_assignments op env now rq w K) as [E | (a & Ha & Hw & Hs & E)].
  - (* a run that returns without error has written the assignment *)
    exfalso. revert Hok E. rewrite run_perform. unfold outcome, final.
    destruct (performed _ _ _ _ _) as [r s] eqn:P. cbn [fst snd]. intros ->.
    apply performed_Ok in P as (a & b & Ha & _ & Hs & _ & _ & _ & -> & ->).
    cbn [db storeBooking storeAssignment assignments]. intros E.
    apply findAssignment_Some in Ha. destruct K as [Ka _].
    apply (f_equal (fun m => WorkerAssignment.Status
                               <$> m !! assignmentID_of
                                           (mutateAssignment op now rq a))) in E.
    rewrite lookup_insert_eq, mutateAssignment_ID, (Ka _ _ Ha), Ha in E.
    cbn in E. rewrite mutateAssignment_Status, Hs in E.
    destruct op; discriminate E.
  - rewrite run_perform.
    apply performed_wrong_status with (a := mutateAssignment op now rq a).
    + unfold findAssignment. rewrite Hget, Hid, E. apply lookup_insert_eq.
    + rewrite mutateAssignment_WorkerID. congruence.
    + rewrite mutateAssignment_Status. destruct op; discriminate.
Qed.

Lemma repeated_operation_is_refused_witness :
  keyed Sample.fresh /\
  outcome (run (perform Reject Sample.env 1000 (Sample.request 5)) Sample.fresh)
  = Ok (WorkerAssignment.rejected 1000 "" "on my way"
          (Sample.assignment AssignmentStatusAssigned None None None)) /\
  run (perform Reject Sample.envSideEffectsFail 2000 (Sample.request 5))
      (final (run (perform Reject Sample.env 1000 (Sample.request 5)) Sample.fresh))
  = (Err (ErrCannotInStatus Reject),
     mkSt (final (run (perform Reject Sample.env 1000 (Sample.request 5))
                      Sample.fresh)) []).
Proof.
  assert (K : keyed Sample.fresh) by (apply Sample_keyed; reflexivity).
  split; [exact K|]. split; [reflexivity|].
  exact (repeated_operation_is_refused Reject Sample.env 1000 (Sample.request 5)
           Sample.fresh _ Sample.envSideEffectsFail 2000 (Sample.request 5)
           K eq_refl eq_refl eq_refl eq_refl).
Defined.

(** ** Accept, Start, Complete in a row (X7) *)

(** X7: on an assigned assignment of the calling worker whose booking
    exists, with the repositories answering, Accept, Start and Complete
    run one after the other all succeed; the stored assignment is then
    completed and carries the three clock readings as acceptedAt,
    startedAt and completedAt, and the stored booking is completed with
    the Start reading as actual start, the Complete reading as actual end
    and [int(now.Sub(start).Minutes())] of the two as duration, whatever
    start time the booking carried before; when the two readings are less
    than 2^18 minutes apart that duration is their difference in minutes
    with the fraction dropped. *)
Theorem accept_start_complete env1 env2 env3 t1 t2 t3 rq1 rq2 rq3 w a b :
  keyed w ->
  repositoriesAnswer env1 -> repositoriesAnswer env2 -> repositoriesAnswer env3 ->
  assignmentID rq2 = assignmentID rq1 -> assignmentID rq3 = assignmentID rq1 ->
  workerID rq2 = workerID rq1 -> workerID rq3 = workerID rq1 ->
  assignments w !! assignmentID rq1 = Some a ->
  WorkerAssignment.WorkerID a = workerID rq1 ->
  WorkerAssignment.Status a = AssignmentStatusAssigned ->
  bookings w !! WorkerAssignment.BookingID a = Some b ->
  let steps := [ mkInvocation Accept env1 t1 rq1;
                 mkInvocation Start env2 t2 rq2;
                 mkInvocation Complete env3 t3 rq3 ] in
  successes Accept (assignmentID rq1) steps w = 1%nat /\
  successes Start (assignmentID rq1) steps w = 1%nat /\
  successes Complete (assignmentID rq1) steps w = 1%nat /\
  assignments (history steps w) !! assignmentID rq1
  = Some (WorkerAssignment.completed t3
            (WorkerAssignment.started t2
               (WorkerAssignment.accepted t1 (notes rq1) a))) /\
  exists b',
    bookings (history steps w) !! WorkerAssignment.BookingID a = Some b' /\
    Booking.Status b' = BookingStatusCompleted /\
    Booking.ActualStartTime b' = Some t2 /\
    Booking.ActualEndTime b' = Some t3 /\
    Booking.ActualDurationMinutes b' = Some (intMinutes (Sub t3 t2)) /\
    (Z.abs (t3 - t2) < 2 ^ 18 * Minute ->
     Booking.ActualDurationMinutes b' = Some (Z.quot (t3 - t2) Minute)) /\
    bookingFrame b' = bookingFrame b.
Proof.
  intros K (G1 & U1 & BG1 & BU1) (G2 & U2 & BG2 & BU2) (G3 & U3 & BG3 & BU3)
         Hid2 Hid3 Hw2 Hw3 Ha Hw Hs Hb steps.
  destruct K as [Ka Kb].
  pose proof (Ka _ _ Ha) as Hida. pose proof (Kb _ _ Hb) as Hidb.
  set (a1 := WorkerAssignment.accepted t1 (notes rq1) a).
  set (b1 := Booking.withStatus BookingStatusConfirmed b).
  set (w1 := storeBooking b1 (storeAssignment a1 w)).
  set (a2 := WorkerAssignment.started t2 a1).
  set (b2 := Booking.withActualStartTime (Some t2)
               (Booking.withStatus BookingStatusInProgress b1)).
  set (w2 := storeBooking b2 (storeAssignment a2 w1)).
  set (a3 := WorkerAssignment.completed t3 a2).
  set (b3 := completedBooking t3 b2).
  set (w3 := storeBooking b3 (storeAssignment a3 w2)).
  assert (E1 : performed Accept env1 t1 rq1 w
               = (Ok a1, mkSt w1 (sideEffects Accept env1 rq1 a1 b1))).
  { apply (performed_committed Accept env1 t1 rq1 w a b); try assumption.
    - unfold findAssignment. now rewrite G1.
    - unfold findBooking. now rewrite BG1. }
  assert (La1 : assignments w1 !! assignmentID rq2 = Some a1).
  { subst w1. cbn [storeBooking storeAssignment assignments].
    change (assignmentID_of a1) with (assignmentID_of a).
    rewrite Hida, Hid2. apply lookup_insert_eq. }
  assert (Lb1 : bookings w1 !! WorkerAssignment.BookingID a1 = Some b1).
  { subst w1. cbn [storeBooking storeAssignment bookings].
    change (Model.ID (Booking.Model b1)) with (Model.ID (Booking.Model b)).
    rewrite Hidb. apply lookup_insert_eq. }
  assert (E2 : performed Start env2 t2 rq2 w1
               = (Ok a2, mkSt w2 (sideEffects Start env2 rq2 a2 b2))).
  { apply (performed_committed Start env2 t2 rq2 w1 a1 b1); try assumption.
    - unfold findAssignment. now rewrite G2.
    - cbn. congruence.
    - reflexivity.
    - unfold findBooking. now rewrite BG2. }
  assert (La2 : assignments w2 !! assignmentID rq3 = Some a2).
  { subst w2. cbn [storeBooking storeAssignment assignments].
    change (assignmentID_of a2) with (assignmentID_of a).
    rewrite Hida, Hid3. apply lookup_insert_eq. }
  assert (Lb2 : bookings w2 !! WorkerAssignment.BookingID a2 = Some b2).
  { subst w2. cbn [storeBooking storeAssignment bookings].
    change (Model.ID (Booking.Model b2)) with (Model.ID (Booking.Model b)).
    rewrite Hidb. apply lookup_insert_eq. }
  assert (E3 : performed Complete env3 t3 rq3 w2
               = (Ok a3, mkSt w3 (sideEffects Complete env3 rq3 a3 b3))).
  { apply (performed_committed Complete env3 t3 rq3 w2 a2 b2); try assumption.
    - unfold findAssignment. now rewrite G3.
    - cbn. congruence.
    - reflexivity.
    - unfold findBooking. now rewrite BG3. }
  subst steps. cbn [successes history]. unfold invoke.
  cbn [invOp invEnv invNow invRq].
  rewrite !run_perform, E1. cbn [outcome final fst snd db].
  rewrite E2. cbn [outcome final fst snd db].
  rewrite E3. cbn [outcome final fst snd db isOk].
  rewrite Hid2, Hid3.
  rewrite !bool_decide_eq_true_2 by reflexivity.
  cbn [bool_decide decide_rel Operation_eq_dec andb].
  split; [reflexivity|]. split; [reflexivity|]. split; [reflexivity|].
  split.
  - subst w3. cbn [storeBooking storeAssignment assignments].
    change (assignmentID_of a3) with (assignmentID_of a).
    rewrite Hida. apply lookup_insert_eq.
  - exists b3. split.
    + subst w3. cbn [storeBooking storeAssignment bookings].
      rewrite (completedBooking_ID t3 b2 : Model.ID (Booking.Model b3) = _).
      change (Model.ID (Booking.Model b2)) with (Model.ID (Booking.Model b)).
      rewrite Hidb. apply lookup_insert_eq.
    + do 4 (split; [reflexivity|]). split; [|reflexivity].
      intros Hnear.
      change (Booking.ActualDurationMinutes b3)
        with (Some (intMinutes (Sub t3 t2))).
      rewrite Sub_exact by (unfold minDuration, maxDuration, Minute in *; lia).
      f_equal. apply intMinutes_exact. exact Hnear.
Qed.

Lemma accept_start_complete_witness :
  keyed Sample.fresh /\
  repositoriesAnswer Sample.env /\
  exists b',
    bookings (history [ mkInvocation Accept Sample.env 0 (Sample.request 5);
                        mkInvocation Start Sample.env Sample.tenOClock
                                     (Sample.request 5);
                        mkInvocation Complete Sample.env Sample.tenFortySeven
                                     (Sample.request 5) ] Sample.fresh)
      !! 7%nat = Some b' /\
    Booking.ActualDurationMinutes b' = Some 47.
Proof.
  assert (K : keyed Sample.fresh) by (apply Sample_keyed; reflexivity).
  assert (R : repositoriesAnswer Sample.env) by (repeat split).
  split; [exact K|]. split; [exact R|].
  destruct (accept_start_complete Sample.env Sample.env Sample.env
              0 Sample.tenOClock Sample.tenFortySeven
              (Sample.request 5) (Sample.request 5) (Sample.request 5)
              Sample.fresh
              (Sample.assignment AssignmentStatusAssigned None None None)
              (Sample.booking "confirmed" None None (Some (80 # 1)%Q))
              K R R R eq_refl eq_refl eq_refl eq_refl eq_refl eq_refl eq_refl
              eq_refl)
    as (_ & _ & _ & _ & b' & Hb' & _ & _ & _ & _ & Hd & _).
  exists b'. split; [exact Hb'|]. rewrite Hd; [reflexivity|].
  vm_compute. reflexivity.
Defined.

(** ** What the caller gets back (X8, X9) *)

(** X8: the assignment a successful operation returns carries the booking,
    worker and assigner exactly as they were loaded with the assignment:
    the booking inside the response is the one from before the
    operation, while the booking table by then holds the status the
    operation wrote. *)
Theorem returned_assignment_has_loaded_booking op env now rq w a' :
  keyed w ->
  outcome (run (perform op env now rq) w) = Ok a' ->
  exists a b',
    assignments w !! assignmentID rq = Some a /\
    WorkerAssignment.Booking a' = WorkerAssignment.Booking a /\
    WorkerAssignment.Worker a' = WorkerAssignment.Worker a /\
    WorkerAssignment.AssignedByUser a' = WorkerAssignment.AssignedByUser a /\
    bookings (final (run (perform op env now rq) w))
      !! WorkerAssignment.BookingID a' = Some b' /\
    Booking.Status b' = Table.bookingStatus op.
Proof.
  intros [_ Kb]. rewrite run_perform. unfold outcome, final.
  destruct (performed op env now rq w) as [r s] eqn:E. cbn [fst snd]. intros ->.
  apply performed_Ok in E as (a & b & Ha & _ & _ & _ & Hb & _ & -> & ->).
  apply findBooking_Some in Hb.
  exists a, (mutateBooking op now b).
  cbn [db storeBooking storeAssignment bookings].
  rewrite mutateAssignment_BookingID, mutateBooking_ID, (Kb _ _ Hb),
    lookup_insert_eq, mutateBooking_Status.
  split; [eauto using findAssignment_Some|].
  repeat split; destruct op; reflexivity.
Qed.

Lemma returned_assignment_has_loaded_booking_witness :
  keyed (Sample.inProgress (Some Sample.tenOClock) None None) /\
  exists a' b',
    outcome (run (perform Complete Sample.env Sample.tenFortySeven
                          (Sample.request 5))
                 (Sample.inProgress (Some Sample.tenOClock) None None)) = Ok a' /\
    Booking.Status (WorkerAssignment.Booking a') = "confirmed" /\
    bookings (final (run (perform Complete Sample.env Sample.tenFortySeven
                                  (Sample.request 5))
                         (Sample.inProgress (Some Sample.tenOClock) None None)))
      !! 7%nat = Some b' /\
    Booking.Status b' = "completed".
Proof.
  assert (K : keyed (Sample.inProgress (Some Sample.tenOClock) None None))
    by (apply Sample_keyed; reflexivity).
  split; [exact K|].
  destruct (returned_assignment_has_loaded_booking Complete Sample.env
              Sample.tenFortySeven (Sample.request 5)
              (Sample.inProgress (Some Sample.tenOClock) None None) _ K eq_refl)
    as (a & b' & Ha & Hbk & _ & _ & Hb' & Hst).
  cbn in Ha. rewrite lookup_singleton_eq in Ha. injection Ha as <-.
  eexists _, b'. split; [reflexivity|].
  split; [rewrite Hbk; reflexivity|]. split; [exact Hb' | exact Hst].
Defined.

(** X9: after a successful operation, a lookup of the same assignment by
    the same worker (with the assignment lookup answering) succeeds and
    shows the status and the timestamps and texts of the assignment the
    operation returned. *)
Theorem lookup_after_operation op env now rq w a' env' :
  keyed w ->
  outcome (run (perform op env now rq) w) = Ok a' ->
  assignmentGetErr env' = false ->
  exists a'',
    run (GetWorkerAssignment env' (assignmentID rq) (workerID rq))
        (final (run (perform op env now rq) w))
    = (Ok a'', mkSt (final (run (perform op env now rq) w)) []) /\
    WorkerAssignment.Status a'' = Table.assignmentStatus op /\
    WorkerAssignment.Status a'' = WorkerAssignment.Status a' /\
    WorkerAssignment.AcceptedAt a'' = WorkerAssignment.AcceptedAt a' /\
    WorkerAssignment.RejectedAt a'' = WorkerAssignment.RejectedAt a' /\
    WorkerAssignment.StartedAt a'' = WorkerAssignment.StartedAt a' /\
    WorkerAssignment.CompletedAt a'' = WorkerAssignment.CompletedAt a' /\
    WorkerAssignment.AcceptanceNotes a'' = WorkerAssignment.AcceptanceNotes a' /\
    WorkerAssignment.RejectionNotes a'' = WorkerAssignment.RejectionNotes a' /\
    WorkerAssignment.RejectionReason a'' = WorkerAssignment.RejectionReason a'.
Proof.
  intros [Ka _] Hok Hget. exists a'.
  revert Hok. rewrite run_perform. unfold outcome, final.
  destruct (performed op env now rq w) as [r s] eqn:E. cbn [fst snd]. intros ->.
  apply performed_Ok in E as (a & b & Ha & Hw & _ & _ & _ & _ & -> & ->).
  apply findAssignment_Some in Ha.
  cbn [db]. rewrite run_GetWorkerAssignment. unfold findAssignment.
  rewrite Hget. cbn [storeBooking storeAssignment assignments].
  rewrite mutateAssignment_ID, (Ka _ _ Ha), lookup_insert_eq.
  rewrite bool_decide_eq_true_2 by (now rewrite mutateAssignment_WorkerID).
  rewrite mutateAssignment_Status. repeat split.
Qed.

Lemma lookup_after_operation_witness :
  keyed Sample.fresh /\
  exists a'',
    run (GetWorkerAssignment Sample.env 1 5)
        (final (run (perform Accept Sample.env 1000 (Sample.request 5))
                    Sample.fresh))
    = (Ok a'', mkSt (final (run (perform Accept Sample.env 1000 (Sample.request 5))
                                Sample.fresh)) []) /\
    WorkerAssignment.Status a'' = AssignmentStatusAccepted /\
    WorkerAssignment.AcceptedAt a'' = Some 1000.
Proof.
  assert (K : keyed Sample.fresh) by (apply Sample_keyed; reflexivity).
  split; [exact K|].
  destruct (lookup_after_operation Accept Sample.env 1000 (Sample.request 5)
              Sample.fresh _ Sample.env K eq_refl eq_refl)
    as (a'' & Hrun & Hst & _ & Hacc & _).
  exists a''. split; [exact Hrun|]. split; [exact Hst|]. rewrite Hacc. reflexivity.
Defined.

(** ** Which operation may fire which side effect (X10) *)

(** X10: whatever the outcome of a run, call masking is enabled and the
    chat room created only by Accept; call masking is disabled only by
    Reject and Complete; the chat room is closed only by Complete and with
    the reason "Service completed"; the worker's statistics are incremented
    only by Complete and for the worker row found under the caller's user
    id; tracking is started only by Start and stopped only by Complete,
    only when a tracking service is configured, and for the caller's
    worker id and the requested assignment. *)
Theorem side_effects_by_operation op env now rq w :
  (forall k, In (Go (EnableCallMasking k))
                (effects (run (perform op env now rq) w)) -> op = Accept) /\
  (forall k, In (Call (CreateBookingChatRoomWhenWorkerAccepts k))
                (effects (run (perform op env now rq) w)) -> op = Accept) /\
  (forall k, In (Go (DisableCallMasking k))
                (effects (run (perform op env now rq) w)) ->
             op = Reject \/ op = Complete) /\
  (forall k r, In (Call (CloseBookingChatRoom k r))
                  (effects (run (perform op env now rq) w)) ->
               op = Complete /\ r = "Service completed") /\
  (forall x e, In (Call (IncrementCompletedJob x e))
                  (effects (run (perform op env now rq) w)) ->
               op = Complete /\ workerByUserID env (workerID rq) = Some x) /\
  (forall x y, In (Call (StartTracking x y))
                  (effects (run (perform op env now rq) w)) ->
               op = Start /\ locationTrackingService env = true /\
               x = workerID rq /\ y = assignmentID rq) /\
  (forall x y, In (Call (StopTracking x y))
                  (effects (run (perform op env now rq) w)) ->
               op = Complete /\ locationTrackingService env = true /\
               x = workerID rq /\ y = assignmentID rq).
Proof.
  rewrite run_perform. unfold effects.
  destruct (performed op env now rq w) as [[a'|e] s] eqn:E; cbn [snd].
  - apply performed_Ok in E as (a & b & Ha & Hw & _ & _ & _ & _ & -> & ->).
    cbn [fx].
    destruct op; cbn [sideEffects mutateAssignment];
      rewrite ?mutateAssignment_WorkerID;
      change (WorkerAssignment.WorkerID (WorkerAssignment.completed now a))
        with (WorkerAssignment.WorkerID a);
      rewrite ?Hw;
      destruct (locationTrackingService env) eqn:Hloc;
      destruct (workerByUserID env (workerID rq)) eqn:Hwk;
      repeat split; intros; effect_cases H; auto.
  - assert (Hfx : fx s = []).
    { apply performed_Err in E as [[_ ->] | [_ (a & _ & _ & _ & ->)]];
        reflexivity. }
    rewrite Hfx. repeat split; intros; contradiction.
Qed.

Example complete_effects_in_order :
  effects (run (perform Complete Sample.env Sample.tenFortySeven (Sample.request 5))
               (Sample.inProgress (Some Sample.tenOClock) None None))
  = [ Go (DisableCallMasking 7);
      Call (IncrementCompletedJob 105 0%Q);
      Call (CloseBookingChatRoom 7 "Service completed");
      Call (StopTracking 5 1);
      Go (NotifyWorkerCompleted 7) ].
Proof. reflexivity. Qed.

(** ** What the projection lets through (X11, X12) *)

Lemma blankOwner_same_response a1 a2 :
  blankOwner a1 = blankOwner a2 ->
  convertToPrivacyProtectedResponse a1 = convertToPrivacyProtectedResponse a2.
Proof.
  intros H.
  change (convertToPrivacyProtectedResponse a1)
    with (convertToPrivacyProtectedResponse (blankOwner a1)).
  change (convertToPrivacyProtectedResponse a2)
    with (convertToPrivacyProtectedResponse (blankOwner a2)).
  now rewrite H.
Qed.



(** X12: [GetWorkerAssignments] answers with one response per row of the
    repository's answer, in the same order and with the pagination
    unchanged, and its answer does not depend on the owners' phones or
    subscriptions: two repository answers that agree row by row once those
    are blanked give the same result.  It fails exactly when the
    repository query fails, and never writes. *)
Theorem list_hides_owner_phones env1 env2 wid filters w1 w2 :
  (forall rows pagination,
      assignmentsOfWorker env1 w1 wid filters = Some (rows, pagination) ->
      exists responses,
        run (GetWorkerAssignments env1 wid filters) w1
        = (Ok (responses, pagination), mkSt w1 []) /\
        length responses = length rows /\
        (forall i a, nth_error rows i = Some a ->
                     nth_error responses i
                     = Some (convertToPrivacyProtectedResponse a))) /\
  (assignmentsOfWorker env1 w1 wid filters = None ->
   run (GetWorkerAssignments env1 wid filters) w1
   = (Err ErrFailedList, mkSt w1 [])) /\
  (forall rows1 rows2 pagination,
      assignmentsOfWorker env1 w1 wid filters = Some (rows1, pagination) ->
      assignmentsOfWorker env2 w2 wid filters = Some (rows2, pagination) ->
      map blankOwner rows1 = map blankOwner rows2 ->
      outcome (run (GetWorkerAssignments env1 wid filters) w1)
      = outcome (run (GetWorkerAssignments env2 wid filters) w2)).
Proof.
  assert (Hrun : forall env w rows pagination,
             assignmentsOfWorker env w wid filters = Some (rows, pagination) ->
             run (GetWorkerAssignments env wid filters) w
             = (Ok (map convertToPrivacyProtectedResponse rows, pagination),
                mkSt w [])).
  { intros env w rows pagination H. unfold run, GetWorkerAssignments. cbn [db].
    destruct filters, pagination.
    cbn [Filters.Status Filters.Date Filters.Page Filters.Limit].
    rewrite H. reflexivity. }
  split; [|split].
  - intros rows pagination H. eexists. split; [apply Hrun, H|].
    split; [apply length_map|].
    intros i a Hi. rewrite nth_error_map, Hi. reflexivity.
  - intros H. unfold run, GetWorkerAssignments. cbn [db]. destruct filters.
    cbn [Filters.Status Filters.Date Filters.Page Filters.Limit].
    rewrite H. reflexivity.
  - intros rows1 rows2 pagination H1 H2 Hblank.
    rewrite (Hrun _ _ _ _ H1), (Hrun _ _ _ _ H2). cbn [outcome fst].
    do 2 f_equal. clear H1 H2.
    revert rows2 Hblank.
    induction rows1 as [|a1 r1 IH]; intros [|a2 r2] Hblank;
      try discriminate Hblank; [reflexivity|].
    cbn [map] in *.
    assert (Ha : blankOwner a1 = blankOwner a2) by congruence.
    assert (Hr : map blankOwner r1 = map blankOwner r2) by congruence.
    f_equal; [|apply IH, Hr].
    apply blankOwner_same_response, Ha.
Qed.

Lemma list_hides_owner_phones_witness :
  assignmentsOfWorker Sample.envList Sample.fresh 5 (Filters.mk "" "" 1 10)
  = Some ([Sample.assignment AssignmentStatusAssigned None None None],
          Pagination.mk 1 10 1 1) /\
  assignmentsOfWorker Sample.envList
    (Sample.world (withOwnerPhone "+919999999999"
                     (Sample.assignment AssignmentStatusAssigned None None None))
                  (Sample.booking "confirmed" None None None))
    5 (Filters.mk "" "" 1 10)
  = Some ([withOwnerPhone "+919999999999"
             (Sample.assignment AssignmentStatusAssigned None None None)],
          Pagination.mk 1 10 1 1) /\
  outcome (run (GetWorkerAssignments Sample.envList 5 (Filters.mk "" "" 1 10))
               Sample.fresh)
  = outcome (run (GetWorkerAssignments Sample.envList 5 (Filters.mk "" "" 1 10))
                 (Sample.world
                    (withOwnerPhone "+919999999999"
                       (Sample.assignment AssignmentStatusAssigned None None None))
                    (Sample.booking "confirmed" None None None))).
Proof.
  assert (H1 : assignmentsOfWorker Sample.envList Sample.fresh 5
                 (Filters.mk "" "" 1 10)
               = Some ([Sample.assignment AssignmentStatusAssigned None None None],
                       Pagination.mk 1 10 1 1)) by (vm_compute; reflexivity).
  assert (H2 : assignmentsOfWorker Sample.envList
                 (Sample.world
                    (withOwnerPhone "+919999999999"
                       (Sample.assignment AssignmentStatusAssigned None None None))
                    (Sample.booking "confirmed" None None None))
                 5 (Filters.mk "" "" 1 10)
               = Some ([withOwnerPhone "+919999999999"
                          (Sample.assignment AssignmentStatusAssigned None None
                             None)],
                       Pagination.mk 1 10 1 1)) by (vm_compute; reflexivity).
  split; [exact H1|]. split; [exact H2|].
  exact (proj2 (proj2 (list_hides_owner_phones Sample.envList Sample.envList 5
                         (Filters.mk "" "" 1 10) Sample.fresh _))
           _ _ _ H1 H2 eq_refl).
Defined.

(** ** The notification helpers (X13, X14) *)

(** X13: each of the three helpers sends nothing and logs exactly one line
    when the integration service is not configured, the assignment's
    booking cannot be loaded, or no user is registered under the
    assignment's worker id.  Otherwise each reports the stored booking, the
    user found and the booking's own service; and
    [sendWorkerAssignmentNotification] attempts the worker's notification
    after the user's even when the user's fails. *)
Theorem helpers_notify_when_all_is_found env n w a status :
  (globalNotificationIntegrationService n = false \/
   findBooking env w (WorkerAssignment.BookingID a) = None \/
   userRepo_FindByID n (WorkerAssignment.WorkerID a) = None ->
   (length (sendWorkerAssignmentNotification env n w a status) = 1%nat /\
    filter isSent (sendWorkerAssignmentNotification env n w a status) = []) /\
   (length (sendWorkerStartedNotification env n w a) = 1%nat /\
    filter isSent (sendWorkerStartedNotification env n w a) = []) /\
   (length (sendWorkerCompletedNotification env n w a) = 1%nat /\
    filter isSent (sendWorkerCompletedNotification env n w a) = [])) /\
  (forall b u,
      globalNotificationIntegrationService n = true ->
      findBooking env w (WorkerAssignment.BookingID a) = Some b ->
      userRepo_FindByID n (WorkerAssignment.WorkerID a) = Some u ->
      filter isSent (sendWorkerAssignmentNotification env n w a status)
      = [ WorkerAssigned b u (Booking.Service b);
          WorkerAssignedToWork u b (Booking.Service b) ] /\
      filter isSent (sendWorkerStartedNotification env n w a)
      = [ WorkerStarted b u (Booking.Service b) ] /\
      filter isSent (sendWorkerCompletedNotification env n w a)
      = [ WorkerCompleted b u (Booking.Service b) ]).
Proof.
  unfold sendWorkerAssignmentNotification, sendWorkerStartedNotification,
    sendWorkerCompletedNotification, withBookingAndWorker.
  split.
  - intros H.
    destruct (globalNotificationIntegrationService n); cbn [negb];
      [|repeat split].
    destruct (findBooking env w (WorkerAssignment.BookingID a)) as [b|];
      [|repeat split].
    destruct (userRepo_FindByID n (WorkerAssignment.WorkerID a)) as [u|];
      [|repeat split].
    destruct H as [H | [H | H]]; discriminate H.
  - intros b u -> -> ->. cbn [negb].
    destruct (notifyWorkerAssignedErr n), (notifyWorkerAssignedToWorkErr n),
      (notifyWorkerStartedErr n), (notifyWorkerCompletedErr n);
      repeat split.
Qed.

(** X14: the assignment notification a successful Accept hands to a
    goroutine runs on the tables as the operation left them: with the
    integration service configured and the worker's user found, it reports
    to the user and to the worker the stored booking, whose status is
    already confirmed. *)
Theorem accept_notification_sees_confirmed_booking env now rq w a' n u env' :
  keyed w ->
  outcome (run (perform Accept env now rq) w) = Ok a' ->
  bookingGetErr env' = false ->
  globalNotificationIntegrationService n = true ->
  userRepo_FindByID n (WorkerAssignment.WorkerID a') = Some u ->
  In (Go (SendWorkerAssignmentNotification (assignmentID rq) "accepted"))
     (effects (run (perform Accept env now rq) w)) /\
  exists b',
    bookings (final (run (perform Accept env now rq) w))
      !! WorkerAssignment.BookingID a' = Some b' /\
    Booking.Status b' = BookingStatusConfirmed /\
    filter isSent
      (sendWorkerAssignmentNotification env' n
         (final (run (perform Accept env now rq) w)) a' "accepted")
    = [ WorkerAssigned b' u (Booking.Service b');
        WorkerAssignedToWork u b' (Booking.Service b') ].
Proof.
  intros [Ka Kb] Hok Hbg Hsvc Hu. revert Hok Hu.
  rewrite run_perform. unfold outcome, final, effects.
  destruct (performed Accept env now rq w) as [r s] eqn:E. cbn [fst snd].
  intros -> Hu.
  apply performed_Ok in E as (a & b & Ha & _ & _ & _ & Hb & _ & -> & ->).
  apply findAssignment_Some in Ha. apply findBooking_Some in Hb.
  cbn [db fx sideEffects mutateAssignment mutateBooking] in *.
  change (assignmentID_of (WorkerAssignment.accepted now (notes rq) a))
    with (assignmentID_of a).
  rewrite (Ka _ _ Ha).
  split; [right; right; left; reflexivity|].
  exists (Booking.withStatus BookingStatusConfirmed b).
  assert (Hl : bookings
                 (storeBooking (Booking.withStatus BookingStatusConfirmed b)
                    (storeAssignment (WorkerAssignment.accepted now (notes rq) a) w))
                 !! WorkerAssignment.BookingID
                      (WorkerAssignment.accepted now (notes rq) a)
               = Some (Booking.withStatus BookingStatusConfirmed b)).
  { cbn [storeBooking storeAssignment bookings WorkerAssignment.BookingID
         WorkerAssignment.accepted].
    change (Model.ID (Booking.Model (Booking.withStatus BookingStatusConfirmed b)))
      with (Model.ID (Booking.Model b)).
    rewrite (Kb _ _ Hb). apply lookup_insert_eq. }
  split; [exact Hl|]. split; [reflexivity|].
  unfold sendWorkerAssignmentNotification, withBookingAndWorker, findBooking.
  rewrite Hsvc, Hbg, Hl, Hu. cbn [negb].
  destruct (notifyWorkerAssignedErr n), (notifyWorkerAssignedToWorkErr n);
    reflexivity.
Qed.

Lemma accept_notification_sees_confirmed_booking_witness :
  keyed Sample.fresh /\
  exists b',
    filter isSent
      (sendWorkerAssignmentNotification Sample.env sampleNotifier
         (final (run (perform Accept Sample.env 1000 (Sample.request 5))
                     Sample.fresh))
         (WorkerAssignment.accepted 1000 "on my way"
            (Sample.assignment AssignmentStatusAssigned None None None))
         "accepted")
    = [ WorkerAssigned b' (Sample.user 5 "Ravi" "+910000000005")
          (Booking.Service b');
        WorkerAssignedToWork (Sample.user 5 "Ravi" "+910000000005") b'
          (Booking.Service b') ] /\
    Booking.Status b' = "confirmed".
Proof.
  assert (K : keyed Sample.fresh) by (apply Sample_keyed; reflexivity).
  split; [exact K|].
  destruct (accept_notification_sees_confirmed_booking Sample.env 1000
              (Sample.request 5) Sample.fresh _ sampleNotifier
              (Sample.user 5 "Ravi" "+910000000005") Sample.env
              K eq_refl eq_refl eq_refl eq_refl)
    as (_ & b' & _ & Hst & Hsent).
  exists b'. split; [exact Hsent | exact Hst].
Defined.

Lemma helpers_notify_when_all_is_found_witness :
  globalNotificationIntegrationService sampleNotifier = true /\
  notifyWorkerAssignedErr sampleNotifier = true /\
  filter isSent
    (sendWorkerAssignmentNotification Sample.env sampleNotifier Sample.fresh
       (Sample.assignment AssignmentStatusAssigned None None None) "accepted")
  = [ WorkerAssigned (Sample.booking "confirmed" None None (Some (80 # 1)%Q))
        (Sample.user 5 "Ravi" "+910000000005") (Sample.service (Some (80 # 1)%Q));
      WorkerAssignedToWork (Sample.user 5 "Ravi" "+910000000005")
        (Sample.booking "confirmed" None None (Some (80 # 1)%Q))
        (Sample.service (Some (80 # 1)%Q)) ].
Proof.
  split; [reflexivity|]. split; [reflexivity|].
  exact (proj1 (proj2 (helpers_notify_when_all_is_found Sample.env sampleNotifier
                         Sample.fresh
                         (Sample.assignment AssignmentStatusAssigned None None None)
                         "accepted")
                  _ _ eq_refl eq_refl eq_refl)).
Defined.

(** ** Two accepts under any schedule (X15) *)

Lemma threadOk_step_committed env id wid a c t s t' s' :
  assignmentGetErr env = false ->
  assignmentUpdateErr env = false ->
  bookingGetErr env = false ->
  bookingUpdateErr env = false ->
  assignmentID_of a = id ->
  WorkerAssignment.WorkerID a = wid ->
  threadOk a c t ->
  (exists a', assignments (db s) !! id = Some a' /\
              WorkerAssignment.WorkerID a' = wid /\
              WorkerAssignment.Status a' = AssignmentStatusAccepted) ->
  (exists b', bookings (db s) !! WorkerAssignment.BookingID a = Some b' /\
              Model.ID (Booking.Model b') = WorkerAssignment.BookingID a /\
              Booking.Status b' = BookingStatusConfirmed) ->
  stepThread env id wid c t s = (t', s') ->
  threadOk a c t' /\
  (t = Returned (Ok (WorkerAssignment.accepted (callTime c) (callNotes c) a)) ->
   t' = t) /\
  ((assignments (db s') !! id = assignments (db s) !! id /\
    bookings (db s') = bookings (db s)) \/
   (t' = Returned (Ok (WorkerAssignment.accepted (callTime c) (callNotes c) a)) /\
    assignments (db s') !! id
    = Some (WorkerAssignment.accepted (callTime c) (callNotes c) a))) /\
  (exists b', bookings (db s') !! WorkerAssignment.BookingID a = Some b' /\
              Model.ID (Booking.Model b') = WorkerAssignment.BookingID a /\
              Booking.Status b' = BookingStatusConfirmed).
Proof.
  intros Hg Hu Hbg Hbu Hid Hw Hok (a' & Ha' & Hw' & Hs') (b' & Hb' & Hbid & Hbs) Hstep.
  destruct Hok as [-> | [-> | [-> | ->]]]; cbn [stepThread] in Hstep.
  - rewrite (check_refuses env id wid s a') in Hstep; try assumption;
      [|rewrite Hs'; discriminate].
    injection Hstep as <- <-.
    split; [right; right; right; reflexivity|]. split; [discriminate|].
    split; [left; split; reflexivity|]. eauto.
  - rewrite (commit_succeeds env (callTime c) (callNotes c) a b' s) in Hstep
      by assumption.
    injection Hstep as <- <-.
    split; [right; right; left; reflexivity|]. split; [discriminate|].
    cbn [db storeBooking storeAssignment assignments bookings].
    change (assignmentID_of (WorkerAssignment.accepted (callTime c) (callNotes c) a))
      with (assignmentID_of a).
    change (Model.ID (Booking.Model (Booking.withStatus BookingStatusConfirmed b')))
      with (Model.ID (Booking.Model b')).
    rewrite Hid, Hbid.
    split; [right; split; [reflexivity|apply lookup_insert_eq]|].
    exists (Booking.withStatus BookingStatusConfirmed b').
    rewrite lookup_insert_eq. repeat split. exact Hbid.
  - injection Hstep as <- <-.
    split; [right; right; left; reflexivity|]. split; [reflexivity|].
    split; [left; split; reflexivity|]. eauto.
  - injection Hstep as <- <-.
    split; [right; right; right; reflexivity|]. split; [discriminate|].
    split; [left; split; reflexivity|]. eauto.
Qed.

Lemma raceInvariant_step env id wid c1 c2 w a b (second : bool) t1 t2 s :
  keyed w ->
  repositoriesAnswer env ->
  assignments w !! id = Some a ->
  WorkerAssignment.WorkerID a = wid ->
  WorkerAssignment.Status a = AssignmentStatusAssigned ->
  bookings w !! WorkerAssignment.BookingID a = Some b ->
  raceInvariant w id a c1 c2 t1 t2 s ->
  if second
  then raceInvariant w id a c1 c2 t1
         (fst (stepThread env id wid c2 t2 s)) (snd (stepThread env id wid c2 t2 s))
  else raceInvariant w id a c1 c2
         (fst (stepThread env id wid c1 t1 s)) t2 (snd (stepThread env id wid c1 t1 s)).
Proof.
  intros [Ka Kb] (Hg & Hu & Hbg & Hbu) Ha Hw Hs Hb Hinv.
  pose proof (Ka _ _ Ha) as Hid. pose proof (Kb _ _ Hb) as Hbid.
  assert (Hfresh : forall c s0,
             db s0 = w ->
             stepThread env id wid c Pending s0 = (Checked a, s0) /\
             stepThread env id wid c (Checked a) s0
             = (Returned (Ok (WorkerAssignment.accepted (callTime c) (callNotes c) a)),
                mkSt (storeBooking (Booking.withStatus BookingStatusConfirmed b)
                        (storeAssignment
                           (WorkerAssignment.accepted (callTime c) (callNotes c) a)
                           w))
                     (fx s0 ++ acceptFanOut
                                 (WorkerAssignment.accepted (callTime c) (callNotes c) a)
                                 (Booking.withStatus BookingStatusConfirmed b)))).
  { intros c s0 Hdb. cbn [stepThread]. split.
    - rewrite (check_passes env id wid s0 a); rewrite ?Hdb; auto.
    - rewrite (commit_succeeds env (callTime c) (callNotes c) a b s0);
        rewrite ?Hdb; auto. }
  assert (Hwritten : forall c,
             assignments
               (storeBooking (Booking.withStatus BookingStatusConfirmed b)
                  (storeAssignment
                     (WorkerAssignment.accepted (callTime c) (callNotes c) a) w))
               !! id
             = Some (WorkerAssignment.accepted (callTime c) (callNotes c) a) /\
             exists b',
               bookings
                 (storeBooking (Booking.withStatus BookingStatusConfirmed b)
                    (storeAssignment
                       (WorkerAssignment.accepted (callTime c) (callNotes c) a) w))
                 !! WorkerAssignment.BookingID a = Some b' /\
               Model.ID (Booking.Model b') = WorkerAssignment.BookingID a /\
               Booking.Status b' = BookingStatusConfirmed).
  { intros c. cbn [storeBooking storeAssignment assignments bookings].
    change (assignmentID_of (WorkerAssignment.accepted (callTime c) (callNotes c) a))
      with (assignmentID_of a).
    change (Model.ID (Booking.Model (Booking.withStatus BookingStatusConfirmed b)))
      with (Model.ID (Booking.Model b)).
    rewrite Hid, Hbid. split; [apply lookup_insert_eq|].
    exists (Booking.withStatus BookingStatusConfirmed b).
    rewrite lookup_insert_eq. repeat split. exact Hbid. }
  destruct Hinv as [(Hdb & H1 & H2) | (O1 & O2 & Hwin & Hrow & Hbk)].
  - (* nothing written yet *)
    destruct second.
    + destruct H2 as [-> | ->].
      * rewrite (proj1 (Hfresh c2 s Hdb)). cbn [fst snd]. left. auto.
      * rewrite (proj2 (Hfresh c2 s Hdb)). cbn [fst snd db]. right.
        destruct (Hwritten c2) as [Hr Hb'].
        split; [destruct H1 as [-> | ->]; [left|right; left]; reflexivity|].
        split; [right; right; left; reflexivity|]. auto.
    + destruct H1 as [-> | ->].
      * rewrite (proj1 (Hfresh c1 s Hdb)). cbn [fst snd]. left. auto.
      * rewrite (proj2 (Hfresh c1 s Hdb)). cbn [fst snd db]. right.
        destruct (Hwritten c1) as [Hr Hb'].
        split; [right; right; left; reflexivity|].
        split; [destruct H2 as [-> | ->]; [left|right; left]; reflexivity|]. auto.
  - (* one call has written *)
    assert (Hacc : exists a', assignments (db s) !! id = Some a' /\
                              WorkerAssignment.WorkerID a' = wid /\
                              WorkerAssignment.Status a' = AssignmentStatusAccepted).
    { destruct Hrow as [Hrow | Hrow]; eexists; (split; [exact Hrow|]);
        split; [exact Hw|reflexivity|exact Hw|reflexivity]. }
    destruct second.
    + destruct (stepThread env id wid c2 t2 s) as [t2' s'] eqn:Hstep.
      destruct (threadOk_step_committed env id wid a c2 t2 s t2' s'
                  Hg Hu Hbg Hbu Hid Hw O2 Hacc Hbk Hstep)
        as (O2' & Hkeep & Hdb' & Hbk').
      cbn [fst snd]. right. split; [exact O1|]. split; [exact O2'|].
      split; [|split; [|exact Hbk']].
      * destruct Hwin as [Hwin | Hwin]; [left; exact Hwin|].
        right. rewrite (Hkeep Hwin). exact Hwin.
      * destruct Hdb' as [[Hsame _] | [_ Hnew]];
          [rewrite Hsame; exact Hrow | right; exact Hnew].
    + destruct (stepThread env id wid c1 t1 s) as [t1' s'] eqn:Hstep.
      destruct (threadOk_step_committed env id wid a c1 t1 s t1' s'
                  Hg Hu Hbg Hbu Hid Hw O1 Hacc Hbk Hstep)
        as (O1' & Hkeep & Hdb' & Hbk').
      cbn [fst snd]. right. split; [exact O1'|]. split; [exact O2|].
      split; [|split; [|exact Hbk']].
      * destruct Hwin as [Hwin | Hwin]; [|right; exact Hwin].
        left. rewrite (Hkeep Hwin). exact Hwin.
      * destruct Hdb' as [[Hsame _] | [_ Hnew]];
          [rewrite Hsame; exact Hrow | left; exact Hnew].
Qed.

Lemma raceInvariant_schedule env id wid c1 c2 w a b schedule :
  keyed w ->
  repositoriesAnswer env ->
  assignments w !! id = Some a ->
  WorkerAssignment.WorkerID a = wid ->
  WorkerAssignment.Status a = AssignmentStatusAssigned ->
  bookings w !! WorkerAssignment.BookingID a = Some b ->
  forall t1 t2 s,
    raceInvariant w id a c1 c2 t1 t2 s ->
    raceInvariant w id a c1 c2
      (fst (fst (runSchedule env id wid c1 c2 schedule t1 t2 s)))
      (snd (fst (runSchedule env id wid c1 c2 schedule t1 t2 s)))
      (snd (runSchedule env id wid c1 c2 schedule t1 t2 s)).
Proof.
  intros K R Ha Hw Hs Hb.
  induction schedule as [|second rest IH]; intros t1 t2 s Hinv; [exact Hinv|].
  pose proof (raceInvariant_step env id wid c1 c2 w a b second t1 t2 s
                K R Ha Hw Hs Hb Hinv) as Hnext.
  cbn [runSchedule]. destruct second.
  - destruct (stepThread env id wid c2 t2 s) as [t2' s']. apply IH, Hnext.
  - destruct (stepThread env id wid c1 t1 s) as [t1' s']. apply IH, Hnext.
Qed.

(** X15: take two Accept calls by the owner on an assigned assignment
    whose booking exists, with the repositories answering and rows under
    their keys, and any schedule of their steps after which both have
    returned.  Then each call has returned either the assignment accepted
    at its own clock reading or the status refusal, at least one of them
    the former (they are never both refused, and neither sees a
    persistence error); the stored assignment is the accepted one of one
    of the two calls, and the stored booking is confirmed. *)
Theorem concurrent_accepts_one_wins env id wid c1 c2 w a b schedule r1 r2 s :
  keyed w ->
  repositoriesAnswer env ->
  assignments w !! id = Some a ->
  WorkerAssignment.WorkerID a = wid ->
  WorkerAssignment.Status a = AssignmentStatusAssigned ->
  bookings w !! WorkerAssignment.BookingID a = Some b ->
  concurrentAccepts env id wid c1 c2 schedule w = (Returned r1, Returned r2, s) ->
  (r1 = Ok (WorkerAssignment.accepted (callTime c1) (callNotes c1) a) \/
   r1 = Err (ErrCannotInStatus Accept)) /\
  (r2 = Ok (WorkerAssignment.accepted (callTime c2) (callNotes c2) a) \/
   r2 = Err (ErrCannotInStatus Accept)) /\
  (r1 = Ok (WorkerAssignment.accepted (callTime c1) (callNotes c1) a) \/
   r2 = Ok (WorkerAssignment.accepted (callTime c2) (callNotes c2) a)) /\
  (assignments (db s) !! id
   = Some (WorkerAssignment.accepted (callTime c1) (callNotes c1) a) \/
   assignments (db s) !! id
   = Some (WorkerAssignment.accepted (callTime c2) (callNotes c2) a)) /\
  exists b',
    bookings (db s) !! WorkerAssignment.BookingID a = Some b' /\
    Booking.Status b' = BookingStatusConfirmed.
Proof.
  intros K R Ha Hw Hs Hb Hrun.
  pose proof (raceInvariant_schedule env id wid c1 c2 w a b schedule K R Ha Hw Hs Hb
                Pending Pending (mkSt w [])) as Hinv.
  unfold concurrentAccepts in Hrun. rewrite Hrun in Hinv. cbn [fst snd] in Hinv.
  destruct Hinv as [(_ & [H1 | H1] & _) | (O1 & O2 & Hwin & Hrow & b' & Hb' & _ & Hst)];
    try discriminate H1.
  - left. split; [reflexivity|]. split; left; reflexivity.
  - assert (T : forall c r, threadOk a c (Returned r) ->
                  r = Ok (WorkerAssignment.accepted (callTime c) (callNotes c) a) \/
                  r = Err (ErrCannotInStatus Accept)).
    { intros c r [H | [H | [H | H]]]; try discriminate H;
        injection H as ->; auto. }
    split; [apply T, O1|]. split; [apply T, O2|].
    split.
    + destruct Hwin as [H | H]; injection H as ->; auto.
    + split; [exact Hrow|]. eauto.
Qed.

Lemma concurrent_accepts_one_wins_witness :
  keyed Sample.fresh /\
  repositoriesAnswer Sample.env /\
  (exists r1 r2 s,
      concurrentAccepts Sample.env 1 5 (mkAcceptCall 1000 "first")
        (mkAcceptCall 1001 "second") [true; false; true; false] Sample.fresh
      = (Returned r1, Returned r2, s) /\
      (r1 = Ok (WorkerAssignment.accepted 1000 "first"
                  (Sample.assignment AssignmentStatusAssigned None None None)) \/
       r2 = Ok (WorkerAssignment.accepted 1001 "second"
                  (Sample.assignment AssignmentStatusAssigned None None None)))).
Proof.
  assert (K : keyed Sample.fresh) by (apply Sample_keyed; reflexivity).
  assert (R : repositoriesAnswer Sample.env) by (repeat split).
  split; [exact K|]. split; [exact R|].
  assert (E : exists r1 r2 s,
             concurrentAccepts Sample.env 1 5 (mkAcceptCall 1000 "first")
               (mkAcceptCall 1001 "second") [true; false; true; false] Sample.fresh
             = (Returned r1, Returned r2, s))
    by (do 3 eexists; vm_compute; reflexivity).
  destruct E as (r1 & r2 & s & E).
  exists r1, r2, s. split; [exact E|].
  exact (proj1 (proj2 (proj2
           (concurrent_accepts_one_wins Sample.env 1 5 (mkAcceptCall 1000 "first")
              (mkAcceptCall 1001 "second") Sample.fresh
              (Sample.assignment AssignmentStatusAssigned None None None)
              (Sample.booking "confirmed" None None (Some (80 # 1)%Q))
              [true; false; true; false] r1 r2 s
              K R eq_refl eq_refl eq_refl eq_refl E)))).
Defined.
